(** * bbconf: the configuration context and the bed-file agent

    A shallow embedding of [bbconf/config_parser/bedbaseconfig.py] and
    [bbconf/modules/bedfiles.py].  Python objects that the code mutates
    (the object store, the relational tables, the log) are threaded
    through the functions as an explicit [world]; a raised exception is
    the [Raise] constructor of [result]. *)

From Stdlib Require Import Ascii String.
From stdpp Require Import gmap strings list.

Open Scope string_scope.

(** ** Python exceptions and results *)

(** The exception classes that the two modules raise, catch or let
    through.  All of them are subclasses of Python's [Exception]. *)
Inductive exn : Type :=
| TypeError
| AttributeError
| NameError (name : string)
| IndexError
| FileNotFoundError
| ValidationError
| IntegrityError
| RecordNotFoundError
| BedBaseConfError (msg : string)
| BedbaseS3ConnectionError (msg : string)
| ResponseHandlingException
| OtherError (cls : string).

Inductive result (A : Type) : Type :=
| Ok (a : A)
| Raise (e : exn).
Arguments Ok {A} a.
Arguments Raise {A} e.

Definition is_Ok {A} (r : result A) : bool :=
  match r with Ok _ => true | Raise _ => false end.

Definition is_TypeError (e : exn) : bool :=
  match e with TypeError => true | _ => false end.

Definition is_ResponseHandlingException (e : exn) : bool :=
  match e with ResponseHandlingException => true | _ => false end.

Definition is_RecordNotFoundError (e : exn) : bool :=
  match e with RecordNotFoundError => true | _ => false end.

(** ** Python values *)

(** The values that reach the code as call arguments and as the
    content of the parsed YAML file. *)
#[warnings="-register-all"]
Inductive pyval : Type :=
| PNone
| PBool (b : bool)
| PInt (z : Z)
| PStr (s : string)
| PList (l : list pyval)
| PDict (d : list (pyval * pyval)).

(** Keyword arguments of a call. *)
Definition kwargs : Type := list (string * pyval).

(** Keyword expansion of [x] at a call site (the double-star form): [x]
    has to be a mapping whose keys are all strings, anything else is a
    [TypeError] raised at the call. *)
Fixpoint str_keys (d : list (pyval * pyval)) : option kwargs :=
  match d with
  | [] => Some []
  | (PStr k, v) :: d' =>
      match str_keys d' with
      | Some kw => Some ((k, v) :: kw)
      | None => None
      end
  | _ :: _ => None
  end.

Definition expand (x : pyval) : result kwargs :=
  match x with
  | PDict d =>
      match str_keys d with
      | Some kw => Ok kw
      | None => Raise TypeError
      end
  | _ => Raise TypeError
  end.

(** The dict display that unpacks [x] into a new dict: [x] has to be a
    mapping, whatever its keys are; anything else is a [TypeError]. *)
Definition dict_display (x : pyval) : result (list (pyval * pyval)) :=
  match x with
  | PDict d => Ok d
  | _ => Raise TypeError
  end.

(** [dict.get(key)], [None] when the key is missing. *)
Fixpoint dict_get (d : list (pyval * pyval)) (key : string) : pyval :=
  match d with
  | [] => PNone
  | (PStr k, v) :: d' => if String.eqb k key then v else dict_get d' key
  | _ :: d' => dict_get d' key
  end.

Fixpoint kw_get (kw : kwargs) (key : string) : option pyval :=
  match kw with
  | [] => None
  | (k, v) :: kw' => if String.eqb k key then Some v else kw_get kw' key
  end.

(** Truth value of an optional string ([None] and [""] are false). *)
Definition truthy (s : option string) : bool :=
  match s with
  | Some (String _ _) => true
  | _ => false
  end.

(** ** [os.path] (posixpath) and string operations *)

Module os_path.

Definition sep : Ascii.ascii := "/"%char.

Definition is_sep (c : Ascii.ascii) : bool := Ascii.eqb c sep.

(** [p[p.rfind('/') + 1:]]: [cand] is the suffix after the last
  separator seen so far. *)
Fixpoint basename_from (cand p : string) : string :=
match p with
| EmptyString => cand
| String c p' => if is_sep c then basename_from p' p' else basename_from cand p'
end.

Definition basename (p : string) : string := basename_from p p.

Definition startswith_sep (s : string) : bool :=
match s with
| String c _ => is_sep c
| EmptyString => false
end.

Fixpoint endswith_sep (s : string) : bool :=
match s with
| EmptyString => false
| String c EmptyString => is_sep c
| String _ s' => endswith_sep s'
end.

(** One step of [posixpath.join]: an absolute component discards what
  came before it. *)
Definition join2 (path b : string) : string :=
if startswith_sep b then b
else if match path with EmptyString => true | _ => endswith_sep path end
     then path +:+ b
     else path +:+ String sep b.

Definition join (a : string) (p : list string) : string := foldl join2 a p.

End os_path.

(** [s[i]] for [i >= 0]: a one-character string, [IndexError] past the
    end.  Strings are sequences of one-byte characters here, as the
    identifiers and paths of the code are. *)
Fixpoint str_index (s : string) (i : nat) : result string :=
  match s, i with
  | EmptyString, _ => Raise IndexError
  | String c _, O => Ok (String c EmptyString)
  | String _ s', S i' => str_index s' i'
  end.

(** [s.replace("-", "")] *)
Fixpoint remove_hyphens (s : string) : string :=
  match s with
  | EmptyString => EmptyString
  | String c s' =>
      if Ascii.eqb c "-"%char then remove_hyphens s' else String c (remove_hyphens s')
  end.

Fixpoint has_sep (s : string) : bool :=
  match s with
  | EmptyString => false
  | String c s' => os_path.is_sep c || has_sep s'
  end.

(** ** Data model *)

(** [bbconf.models.base_models.FileModel].  [path] is a required [str],
    every other field but [name] is optional. *)
Module FileModel.
Record t : Type := mk {
  name : string;
  path : string;
  path_thumbnail : option string;
  description : option string;
  size : option Z;
}.

Definition set_path (p : string) (f : t) : t :=
  mk (name f) p (path_thumbnail f) (description f) (size f).

Definition set_path_thumbnail (p : option string) (f : t) : t :=
  mk (name f) (path f) p (description f) (size f).

Definition set_size (n : option Z) (f : t) : t :=
  mk (name f) (path f) (path_thumbnail f) (description f) n.
End FileModel.

(** A pydantic model whose fields all hold an optional [FileModel]
    ([BedFiles], [BedPlots], [BedSetPlots]); iterating over it gives the
    (field name, value) pairs in field order. *)
Definition file_fields : Type := list (string * option FileModel.t).

(** [setattr(model, key, value)] *)
Fixpoint setattr (m : file_fields) (key : string) (v : option FileModel.t) : file_fields :=
  match m with
  | [] => []
  | (k, old) :: m' =>
      if String.eqb k key then (k, v) :: m' else (k, old) :: setattr m' key v
  end.

Fixpoint getattr (m : file_fields) (key : string) : option FileModel.t :=
  match m with
  | [] => None
  | (k, v) :: m' => if String.eqb k key then v else getattr m' key
  end.

(** The model with every field left at its default [None]. *)
Definition empty_model (fields : list string) : file_fields :=
  map (fun k => (k, None)) fields.

(** [key in Model.model_fields] *)
Definition in_fields (key : string) (fields : list string) : bool :=
  existsb (String.eqb key) fields.

(** Rows of the [Bed] table (the statistic and classification columns
    are kept as the two dumps they are written from) and of the [Files]
    table. *)
Module Bed.
Record t : Type := mk {
  id : string;
  stats : kwargs;
  classification : kwargs;
}.
End Bed.

Inductive file_type : Type := type_file | type_plot.

Module Files.
Record t : Type := mk {
  name : string;
  path : string;
  path_thumbnail : option string;
  description : option string;
  size : option Z;
  type : file_type;
  bedfile_id : string;
}.
End Files.

(** ** The world outside the process *)

Inductive s3_call : Type :=
| upload_file_call (file_path key : string)
| delete_object_call (key : string).

Inductive level : Type := INFO | WARNING | ERROR.

Record world : Type := mkWorld {
  fs : gmap string Z;               (* local files: path to byte size *)
  s3 : gmap string Z;               (* bucket: key to byte size *)
  s3_calls : list s3_call;          (* requests issued to the client, oldest first *)
  bed : gmap string Bed.t;          (* Bed table, keyed by id *)
  files : list Files.t;             (* Files table *)
  pephub : gmap string kwargs;      (* samples of the configured project *)
  qdrant : gmap string (list (pyval * pyval)); (* payload stored with each point *)
  log : list (level * string);      (* logger output, oldest first *)
  warnings : list string;           (* warnings.warn messages, oldest first *)
}.

Definition with_s3 (st : gmap string Z) (c : list s3_call) (w : world) : world :=
  mkWorld (fs w) st c (bed w) (files w) (pephub w) (qdrant w) (log w) (warnings w).

Definition with_log (l : list (level * string)) (w : world) : world :=
  mkWorld (fs w) (s3 w) (s3_calls w) (bed w) (files w) (pephub w) (qdrant w) l (warnings w).

Definition with_warnings (l : list string) (w : world) : world :=
  mkWorld (fs w) (s3 w) (s3_calls w) (bed w) (files w) (pephub w) (qdrant w) (log w) l.

Definition logger (lv : level) (msg : string) (w : world) : world :=
  with_log (log w ++ [(lv, msg)]) w.

(** A connected boto3 client.  Which requests the remote end refuses
    is outside the program: [upload_error] and [delete_error] give the
    exception, if any, that a request for a key ends in. *)
Record boto3_client : Type := mkClient {
  upload_error : string -> option exn;
  delete_error : string -> option exn;
}.

(** [client.upload_file(file_path, bucket, key)] *)
Definition upload_file (c : boto3_client) (file_path key : string) (w : world)
  : world * result unit :=
  let w1 := with_s3 (s3 w) (s3_calls w ++ [upload_file_call file_path key]) w in
  match fs w !! file_path with
  | None => (w1, Raise FileNotFoundError)
  | Some n =>
      match upload_error c key with
      | Some e => (w1, Raise e)
      | None => (with_s3 (<[key := n]> (s3 w)) (s3_calls w1) w1, Ok tt)
      end
  end.

(** [client.delete_object(Bucket=bucket, Key=key)] *)
Definition delete_object (c : boto3_client) (key : string) (w : world)
  : world * result unit :=
  let w1 := with_s3 (s3 w) (s3_calls w ++ [delete_object_call key]) w in
  match delete_error c key with
  | Some e => (w1, Raise e)
  | None => (with_s3 (delete key (s3 w)) (s3_calls w1) w1, Ok tt)
  end.

(** ** Computations: a world threaded through, an exception or a value *)

Definition M (A : Type) : Type := world -> world * result A.

Definition ret {A} (a : A) : M A := fun w => (w, Ok a).

Definition raise {A} (e : exn) : M A := fun w => (w, Raise e).

Definition bind {A B} (m : M A) (k : A -> M B) : M B :=
  fun w =>
    match m w with
    | (w', Ok a) => k a w'
    | (w', Raise e) => (w', Raise e)
    end.

Definition lift {A} (r : result A) : M A := fun w => (w, r).

Definition tell (lv : level) (msg : string) : M unit :=
  fun w => (logger lv msg w, Ok tt).

(** [warnings.warn(msg, UserWarning)] *)
Definition warn (msg : string) : M unit :=
  fun w => (with_warnings (warnings w ++ [msg]) w, Ok tt).

(** [try: m  except <the classes selected by caught>: h] *)
Definition try_except {A} (m : M A) (caught : exn -> bool) (h : exn -> M A) : M A :=
  fun w =>
    match m w with
    | (w', Ok a) => (w', Ok a)
    | (w', Raise e) => if caught e then h e w' else (w', Raise e)
    end.

Declare Scope py_scope.
Delimit Scope py_scope with py.
Notation "x <- m ;; k" := (bind m (fun x => k))
  (at level 100, m at next level, right associativity) : py_scope.
Notation "m ;;; k" := (bind m (fun _ => k))
  (at level 100, right associativity) : py_scope.
Open Scope py_scope.

(** [for x in l: body x] *)
Fixpoint for_each {A} (l : list A) (body : A -> M unit) : M unit :=
  match l with
  | [] => ret tt
  | x :: l' => body x ;;; for_each l' body
  end.

(** [for x in l], where the body replaces [x] by its updated state. *)
Fixpoint for_update {A} (l : list A) (body : A -> M A) : M (list A) :=
  match l with
  | [] => ret []
  | x :: l' => y <- body x ;; ys <- for_update l' body ;; ret (y :: ys)
  end.

(** ** [bbconf.config_parser.bedbaseconfig] *)

(** Handles of the backing stores. *)
Inductive BaseEngine : Type := BaseEngine_obj.
Inductive QdrantBackend : Type := QdrantBackend_obj.
Inductive Text2BEDSearchInterface : Type :=
  Text2BEDSearchInterface_obj (search_backend : option QdrantBackend).
Inductive Region2VecExModel : Type := Region2VecExModel_obj.
Inductive PEPHubClient : Type := PEPHubClient_obj.

(** The validated configuration: one dump per section. *)
Definition ConfigFile : Type := list (string * kwargs).

Record BedBaseConfig : Type := mkBedBaseConfig {
  _config : ConfigFile;
  _db_engine : BaseEngine;
  _qdrant_engine : option QdrantBackend;
  _t2bsi : option Text2BEDSearchInterface;
  _r2v : Region2VecExModel;
  _phc : option PEPHubClient;
  _boto3_client : option boto3_client;
}.

Section asset_sync.

(** [bbconf.config_parser.const] and [bbconf.helpers] are not part of
    the sources at hand: the three folder names and [get_absolute_path]
    (which may consult the file system) are taken as given. *)
Variables S3_FILE_PATH_FOLDER S3_PLOTS_PATH_FOLDER S3_BEDSET_PATH_FOLDER : string.
Variable get_absolute_path : gmap string Z -> string -> string -> string.

Variable self : BedBaseConfig.

Definition upload_s3 (file_path s3_path : string) : M unit :=
  match _boto3_client self with
  | None =>
      tell WARNING
        "Could not upload file to s3. Connection to s3 not established. Skipping.." ;;;
      raise (BedbaseS3ConnectionError "Could not upload file to s3. Connection error.")
  | Some client =>
      fun w =>
        match fs w !! file_path with
        | None => (w, Raise (BedBaseConfError ("File " +:+ file_path +:+ " does not exist.")))
        | Some _ => upload_file client file_path s3_path w
        end
  end.

Definition output_base_folder (type : string) : result string :=
  if String.eqb type "files" then Ok S3_FILE_PATH_FOLDER
  else if String.eqb type "plots" then Ok S3_PLOTS_PATH_FOLDER
  else if String.eqb type "bedsets" then Ok S3_BEDSET_PATH_FOLDER
  else Raise (BedBaseConfError
                ("Invalid type: " +:+ type +:+ ". Should be 'files' or 'plots'")).

(** [os.path.join(folder, identifier[0], identifier[1], base_name)] *)
Definition shard_key (folder identifier base_name : string) : result string :=
  match str_index identifier 0 with
  | Raise e => Raise e
  | Ok c0 =>
      match str_index identifier 1 with
      | Raise e => Raise e
      | Ok c1 => Ok (os_path.join folder [c0; c1; base_name])
      end
  end.

Definition getsize (file_path : string) : M Z :=
  fun w =>
    match fs w !! file_path with
    | Some n => (w, Ok n)
    | None => (w, Raise FileNotFoundError)
    end.

(** The body of the loop of [upload_files_s3] for one (key, value)
    pair; the result is the descriptor as the body leaves it. *)
Definition upload_entry (folder identifier base_path : string)
    (entry : string * option FileModel.t) : M (string * option FileModel.t) :=
  match entry with
  | (key, None) => ret (key, None)
  | (key, Some value) =>
      let file_base_name := os_path.basename (FileModel.path value) in
      file_path <- (fun w => (w, Ok (get_absolute_path (fs w) (FileModel.path value) base_path))) ;;
      s3_path <- lift (shard_key folder identifier file_base_name) ;;
      upload_s3 file_path s3_path ;;;
      n <- getsize file_path ;;
      let value := FileModel.set_size (Some n) value in
      let value := FileModel.set_path s3_path value in
      match FileModel.path_thumbnail value with
      | Some thumbnail =>
          if truthy (Some thumbnail) then
            let file_base_name_thumbnail := os_path.basename thumbnail in
            file_path_thumbnail <-
              (fun w => (w, Ok (get_absolute_path (fs w) thumbnail base_path))) ;;
            s3_path_thumbnail <-
              lift (shard_key folder identifier file_base_name_thumbnail) ;;
            upload_s3 file_path_thumbnail s3_path_thumbnail ;;;
            ret (key, Some (FileModel.set_path_thumbnail (Some s3_path_thumbnail) value))
          else ret (key, Some value)
      | None => ret (key, Some value)
      end
  end.

Definition upload_files_s3 (identifier : string) (files : file_fields)
    (base_path : string) (type : string) : M file_fields :=
  s3_output_base_folder <- lift (output_base_folder type) ;;
  for_update files (upload_entry s3_output_base_folder identifier base_path).

Definition delete_s3 (s3_path : string) : M unit :=
  match _boto3_client self with
  | None =>
      tell WARNING
        "Could not delete file from s3. Connection to s3 not established. Skipping.." ;;;
      raise (BedbaseS3ConnectionError "Could not delete file from s3. Connection error.")
  | Some client => delete_object client s3_path
  end.

Definition delete_files_s3 (files : list FileModel.t) : M unit :=
  for_each files (fun file =>
    delete_s3 (FileModel.path file) ;;;
    match FileModel.path_thumbnail file with
    | Some thumbnail =>
        if truthy (Some thumbnail) then delete_s3 thumbnail else ret tt
    | None => ret tt
    end).

End asset_sync.

(** *** Reading the configuration file *)

Section read_config.

(** [ConfigFile.model_fields]: the name of each section with the
    constructor of its model ([bbconf.config_parser.models] is not
    part of the sources at hand).  A constructor validates its keyword
    arguments and returns the section or raises. *)
Variable model_fields : list (string * (kwargs -> result kwargs)).

(** One turn of the loop: the [try] body is the lookup, the keyword
    expansion and the call; a [TypeError] from any of them is answered
    by the constructor called without arguments. *)
Definition read_section (_config : list (pyval * pyval))
    (field : string * (kwargs -> result kwargs)) : result (string * kwargs) :=
  let '(field_name, annotation) := field in
  let attempt :=
    match expand (dict_get _config field_name) with
    | Ok kw => annotation kw
    | Raise e => Raise e
    end in
  match attempt with
  | Ok section => Ok (field_name, section)
  | Raise e =>
      if is_TypeError e then
        match annotation [] with
        | Ok section => Ok (field_name, section)
        | Raise e' => Raise e'
        end
      else Raise e
  end.

Fixpoint read_sections (_config : list (pyval * pyval))
    (fields : list (string * (kwargs -> result kwargs))) : result ConfigFile :=
  match fields with
  | [] => Ok []
  | field :: fields' =>
      match read_section _config field with
      | Raise e => Raise e
      | Ok entry =>
          match read_sections _config fields' with
          | Raise e => Raise e
          | Ok entries => Ok (entry :: entries)
          end
      end
  end.

(** [yaml] is what [yacman.YAMLConfigManager(filepath=config_path).exp]
    ends in: the top-level mapping of the file, or the exception of
    the parser.  The closing [ConfigFile] call receives an instance of
    each section's own model and accepts it. *)
Definition _read_config_file (yaml : result (list (pyval * pyval))) : result ConfigFile :=
  match yaml with
  | Raise e => Raise e
  | Ok _config => read_sections _config model_fields
  end.

End read_config.

(** *** Constructing the context *)

(** What each client constructor ends in, for a given configuration;
    the search interface is built over the vector-index handle. *)
Record constructors : Type := mkConstructors {
  BaseEngine_new : ConfigFile -> result BaseEngine;
  QdrantBackend_new : ConfigFile -> result QdrantBackend;
  Text2BEDSearchInterface_new :
    ConfigFile -> option QdrantBackend -> result Text2BEDSearchInterface;
  Region2VecExModel_new : ConfigFile -> result Region2VecExModel;
  PEPHubClient_new : result PEPHubClient;
  boto3_client_new : ConfigFile -> result boto3_client;
}.

Section context.

Variable env : constructors.
Variable config : ConfigFile.

Definition _init_db_engine : M BaseEngine := lift (BaseEngine_new env config).

Definition _init_qdrant_backend : M (option QdrantBackend) :=
  try_except
    (backend <- lift (QdrantBackend_new env config) ;; ret (Some backend))
    is_ResponseHandlingException
    (fun err =>
       tell ERROR "error in Connection to qdrant! skipping..." ;;;
       warn "error in Connection to qdrant! skipping..." ;;;
       ret None).

Definition _init_t2bsi_object (qdrant_engine : option QdrantBackend)
  : M (option Text2BEDSearchInterface) :=
  try_except
    (t <- lift (Text2BEDSearchInterface_new env config qdrant_engine) ;; ret (Some t))
    (fun _ => true)
    (fun e =>
       tell ERROR "Error in creating Text2BEDSearchInterface object" ;;;
       warn "Error in creating Text2BEDSearchInterface object" ;;;
       ret None).

Definition _init_r2v_object : M Region2VecExModel :=
  lift (Region2VecExModel_new env config).

Definition _init_pephubclient : M (option PEPHubClient) :=
  try_except
    (c <- lift (PEPHubClient_new env) ;; ret (Some c))
    (fun _ => true)
    (fun e =>
       tell ERROR "Error in creating PephubClient object" ;;;
       warn "Error in creating PephubClient object" ;;;
       ret None).

Definition _init_boto3_client : M (option boto3_client) :=
  try_except
    (c <- lift (boto3_client_new env config) ;; ret (Some c))
    (fun _ => true)
    (fun e =>
       tell ERROR "Error in creating boto3 client object" ;;;
       warn "Error in creating boto3 client object" ;;;
       ret None).

(** The body of [__init__] once the configuration is read. *)
Definition init_handles : M BedBaseConfig :=
  db_engine <- _init_db_engine ;;
  qdrant_engine <- _init_qdrant_backend ;;
  t2bsi <- _init_t2bsi_object qdrant_engine ;;
  r2v <- _init_r2v_object ;;
  phc <- _init_pephubclient ;;
  boto3_client <- _init_boto3_client ;;
  ret (mkBedBaseConfig config db_engine qdrant_engine t2bsi r2v phc boto3_client).

End context.

Definition __init__ (model_fields : list (string * (kwargs -> result kwargs)))
    (env : constructors) (yaml : result (list (pyval * pyval))) : M BedBaseConfig :=
  config <- lift (_read_config_file model_fields yaml) ;;
  init_handles env config.

(** ** [bbconf.modules.bedfiles] *)

(** Modelled from the spec: [bbconf.models.bed_models] is missing.
    [BedFiles] is taken with the two optional file descriptors that
    [upload_files_s3] reads, [bed_file] and [bigbed_file]; of the other
    models only the constructors and the field names of [BedPlots] are
    needed, and they are parameters of the agent below.  A validated
    [BedStats], [BedClassification] or [BedPEPHub] is represented by
    its [model_dump()]. *)
Module BedFiles.
Record t : Type := mk {
  bed_file : option FileModel.t;
  bigbed_file : option FileModel.t;
}.

Definition model_fields : list string := ["bed_file"; "bigbed_file"].

Definition items (f : t) : file_fields :=
  [("bed_file", bed_file f); ("bigbed_file", bigbed_file f)].

Definition setattr (f : t) (key : string) (v : option FileModel.t) : t :=
  if String.eqb key "bed_file" then mk v (bigbed_file f)
  else if String.eqb key "bigbed_file" then mk (bed_file f) v
  else f.
End BedFiles.

(** The view returned by [get].  The name, description and date
    columns of the row are copied through unchanged by the code and are
    not represented. *)
Module BedMetadata.
Record t : Type := mk {
  id : string;
  stats : kwargs;
  classification : kwargs;
  plots : file_fields;
  files : BedFiles.t;
  raw_metadata : kwargs;
}.
End BedMetadata.

Definition BIGBED_PATH_FOLDER : string := "bigbed_files".
Definition BED_PATH_FOLDER : string := "bed_files".
Definition PLOTS_PATH_FOLDER : string := "stats".

(** A model constructor called on the keyword expansion of [x]. *)
Definition construct {A} (Model : kwargs -> result A) (x : pyval) : result A :=
  match expand x with
  | Ok kw => Model kw
  | Raise e => Raise e
  end.

(** The [Bed] row built from [id] and the keyword expansions of the two
    dumps: a keyword given twice is a [TypeError]. *)
Definition Bed_new (identifier : string) (stats classification : kwargs) : result Bed.t :=
  let keys := "id" :: map fst stats ++ map fst classification in
  if bool_decide (NoDup keys) then Ok (Bed.mk identifier stats classification)
  else Raise TypeError.

(** [bed_object.__dict__] *)
Definition Bed_dict (b : Bed.t) : kwargs :=
  ("id", PStr (Bed.id b)) :: Bed.stats b ++ Bed.classification b.

Definition with_pephub (p : gmap string kwargs) (w : world) : world :=
  mkWorld (fs w) (s3 w) (s3_calls w) (bed w) (files w) p (qdrant w) (log w) (warnings w).

Definition with_qdrant (q : gmap string (list (pyval * pyval))) (w : world) : world :=
  mkWorld (fs w) (s3 w) (s3_calls w) (bed w) (files w) (pephub w) q (log w) (warnings w).

Definition with_tables (b : gmap string Bed.t) (f : list Files.t) (w : world) : world :=
  mkWorld (fs w) (s3 w) (s3_calls w) b f (pephub w) (qdrant w) (log w) (warnings w).

(** Modelled from the spec: [bbconf.db_utils] is missing.  The spec
    (section 6) has a [Bed] table keyed by identifier and a [Files]
    table.  This is [session.commit()] of one new [Bed] row and its
    [Files] rows: a second row for the same key is refused and nothing
    of the session is written. *)
Definition commit (new_bed : Bed.t) (rows : list Files.t) : M unit :=
  fun w =>
    match bed w !! Bed.id new_bed with
    | Some _ => (w, Raise IntegrityError)
    | None => (with_tables (<[Bed.id new_bed := new_bed]> (bed w)) (files w ++ rows) w, Ok tt)
    end.

(** [phc.sample.get(...)] and [phc.sample.create(...)] on the
    configured project. *)
Definition sample_get (sample_name : string) : M kwargs :=
  fun w =>
    match pephub w !! sample_name with
    | Some doc => (w, Ok doc)
    | None => (w, Raise (OtherError "ResponseError"))
    end.

Definition sample_create (sample_name : string) (sample_dict : kwargs) (overwrite : bool)
  : M unit :=
  fun w =>
    match pephub w !! sample_name with
    | Some _ =>
        if overwrite then (with_pephub (<[sample_name := sample_dict]> (pephub w)) w, Ok tt)
        else (w, Raise (OtherError "ResponseError"))
    | None => (with_pephub (<[sample_name := sample_dict]> (pephub w)) w, Ok tt)
    end.

(** One neighbour returned by the vector search: the dict with its
    ["id"], ["score"] and, once resolved, ["metadata"] entries. *)
Record neighbor : Type := mkNeighbor {
  neighbor_id : string;
  score : Z;
  metadata : option BedMetadata.t;
}.

(** Reading a module-level name: [NameError] when nothing is bound to it. *)
Definition load_global {A} (name : string) (binding : option A) : M A :=
  match binding with
  | Some a => ret a
  | None => raise (NameError name)
  end.

(** The names bound at module level in [bedfiles.py]: its imports, the
    logger, the three folder constants and the class. *)
Definition module_globals : list string :=
  [ "warnings"; "getLogger"; "List"; "Optional"; "Dict"; "Union"; "Literal"; "np";
    "Region2VecExModel"; "RegionSet"; "Session"; "select"; "and_"; "or_"; "os";
    "PKG_NAME"; "BedMetadata"; "BedFiles"; "FileModel"; "BedPlots";
    "BedClassification"; "BedStats"; "BedPEPHub"; "BedBaseConfError";
    "BaseEngine"; "Bed"; "Files"; "BedBaseConfig"; "_LOGGER";
    "BIGBED_PATH_FOLDER"; "BED_PATH_FOLDER"; "PLOTS_PATH_FOLDER"; "BedAgentBedFile" ].

(** What a name is bound to in the module, given what it would denote. *)
Definition module_binding {A} (name : string) (denotation : A) : option A :=
  if in_fields name module_globals then Some denotation else None.

Module BedAgentBedFile.
Section agent.

(** The model constructors of [bbconf.models.bed_models] and the
    field names of [BedPlots]. *)
Variable BedPlots_fields : list string.
Variables BedStats BedPEPHub BedClassification : kwargs -> result kwargs.
Variable BedPlots : kwargs -> result file_fields.
Variable BedFiles : kwargs -> result BedFiles.t.

(** The exception, if any, that reading the region set of a local
    file and encoding it ends in.  The vector itself is a
    floating-point array and is not represented. *)
Variable region_embedding : gmap string Z -> string -> option exn.

(** [self._config] *)
Variable config : BedBaseConfig.

(** The loop body of [get]: one [Files] row is placed among the
    plots, among the files, or reported and skipped. *)
Definition place (row : Files.t) (acc : file_fields * BedFiles.t)
  : M (file_fields * BedFiles.t) :=
  let '(bed_plots, bed_files) := acc in
  if in_fields (Files.name row) BedPlots_fields then
    ret (setattr bed_plots (Files.name row)
           (Some (FileModel.mk (Files.name row) (Files.path row)
                    (Files.path_thumbnail row) (Files.description row) (Files.size row))),
         bed_files)
  else if in_fields (Files.name row) BedFiles.model_fields then
    ret (bed_plots,
         BedFiles.setattr bed_files (Files.name row)
           (Some (FileModel.mk (Files.name row) (Files.path row)
                    None (Files.description row) (Files.size row))))
  else
    tell ERROR ("Unknown file type: " +:+ Files.name row
                +:+ ". And is not in the model fields. Skipping..") ;;;
    ret acc.

Fixpoint place_all (rows : list Files.t) (acc : file_fields * BedFiles.t)
  : M (file_fields * BedFiles.t) :=
  match rows with
  | [] => ret acc
  | row :: rows' => acc' <- place row acc ;; place_all rows' acc'
  end.

(** [bed_object.files] *)
Definition files_of (identifier : string) (w : world) : list Files.t :=
  filter (fun row => Files.bedfile_id row = identifier) (files w).

(** [self._config.phc.sample.get(...)]: the attribute of a missing
    client is an [AttributeError]. *)
Definition fetch_metadata (identifier : string) : M kwargs :=
  match _phc config with
  | None => raise AttributeError
  | Some _ => sample_get identifier
  end.

Definition get (identifier : string) : M BedMetadata.t :=
  let bed_plots := empty_model BedPlots_fields in
  let bed_files := BedFiles.mk None None in
  (* session.scalar(statement) *)
  bed_object <- (fun w => (w, Ok (bed w !! identifier))) ;;
  match bed_object with
  | None => raise AttributeError             (* bed_object.files on None *)
  | Some bed_object =>
      rows <- (fun w => (w, Ok (files_of identifier w))) ;;
      placed <- place_all rows (bed_plots, bed_files) ;;
      bed_stats <- lift (BedStats (Bed_dict bed_object)) ;;
      bed_classification <- lift (BedClassification (Bed_dict bed_object)) ;;
      bed_metadata <-
        try_except (fetch_metadata identifier) (fun _ => true)
          (fun e =>
             tell WARNING "Could not retrieve metadata from pephub." ;;;
             ret []) ;;
      raw_metadata <- lift (BedPEPHub bed_metadata) ;;
      ret (BedMetadata.mk (Bed.id bed_object) bed_stats bed_classification
             (fst placed) (snd placed) raw_metadata)
  end.

(** The narrower readers.  Each runs the same query as [get]; the
    first use of a missing row is again an [AttributeError]. *)
Definition get_stats (identifier : string) : M kwargs :=
  bed_object <- (fun w => (w, Ok (bed w !! identifier))) ;;
  match bed_object with
  | None => raise AttributeError             (* bed_object.__dict__ on None *)
  | Some bed_object => lift (BedStats (Bed_dict bed_object))
  end.

(** The loop body of [get_plots]: the descriptor is built without [size]. *)
Definition place_plot (bed_plots : file_fields) (row : Files.t) : file_fields :=
  if in_fields (Files.name row) BedPlots_fields then
    setattr bed_plots (Files.name row)
      (Some (FileModel.mk (Files.name row) (Files.path row)
               (Files.path_thumbnail row) (Files.description row) None))
  else bed_plots.

Definition get_plots (identifier : string) : M file_fields :=
  bed_object <- (fun w => (w, Ok (bed w !! identifier))) ;;
  let bed_plots := empty_model BedPlots_fields in
  match bed_object with
  | None => raise AttributeError             (* bed_object.files on None *)
  | Some bed_object =>
      rows <- (fun w => (w, Ok (files_of identifier w))) ;;
      ret (foldl place_plot bed_plots rows)
  end.

(** The loop body of [get_files]: name, path and description only. *)
Definition place_file (bed_files : BedFiles.t) (row : Files.t) : BedFiles.t :=
  if in_fields (Files.name row) BedFiles.model_fields then
    BedFiles.setattr bed_files (Files.name row)
      (Some (FileModel.mk (Files.name row) (Files.path row) None
               (Files.description row) None))
  else bed_files.

Definition get_files (identifier : string) : M BedFiles.t :=
  bed_object <- (fun w => (w, Ok (bed w !! identifier))) ;;
  let bed_files := BedFiles.mk None None in
  match bed_object with
  | None => raise AttributeError             (* bed_object.files on None *)
  | Some bed_object =>
      rows <- (fun w => (w, Ok (files_of identifier w))) ;;
      ret (foldl place_file bed_files rows)
  end.

Definition get_raw_metadata (identifier : string) : M kwargs :=
  bed_metadata <-
    try_except (fetch_metadata identifier) (fun _ => true)
      (fun e =>
         tell WARNING "Could not retrieve metadata from pephub." ;;;
         ret []) ;;
  lift (BedPEPHub bed_metadata).

Definition get_classification (identifier : string) : M kwargs :=
  bed_object <- (fun w => (w, Ok (bed w !! identifier))) ;;
  match bed_object with
  | None => raise AttributeError             (* bed_object.__dict__ on None *)
  | Some bed_object => lift (BedClassification (Bed_dict bed_object))
  end.

(** The loop body of [get_objects]: the [FileModel] built from the
    columns of the row is stored under the name of the row, a later row
    of the same name replacing an earlier one. *)
Definition place_object (return_dict : gmap string FileModel.t) (row : Files.t)
  : gmap string FileModel.t :=
  <[Files.name row :=
      FileModel.mk (Files.name row) (Files.path row) (Files.path_thumbnail row)
        (Files.description row) (Files.size row)]> return_dict.

Definition get_objects (identifier : string) : M (gmap string FileModel.t) :=
  bed_object <- (fun w => (w, Ok (bed w !! identifier))) ;;
  match bed_object with
  | None => raise AttributeError             (* bed_object.files on None *)
  | Some bed_object =>
      rows <- (fun w => (w, Ok (files_of identifier w))) ;;
      ret (foldl place_object ∅ rows)
  end.

(** [self._config.boto3_client.upload_file(...)] *)
Definition _upload_s3 (file_path s3_path : string) : M unit :=
  match _boto3_client config with
  | None => raise AttributeError
  | Some client => upload_file client file_path s3_path
  end.

(** One of the two branches of [upload_files_s3]: the shard
    characters are the first two of the base name of the file. *)
Definition upload_one (folder : string) (file : option FileModel.t)
  : M (option FileModel.t) :=
  match file with
  | None => ret None
  | Some f =>
      let file_base_name := os_path.basename (FileModel.path f) in
      let bed_file_path := FileModel.path f in
      s3_path <- lift (shard_key folder file_base_name (os_path.basename bed_file_path)) ;;
      _upload_s3 bed_file_path s3_path ;;;
      ret (Some (FileModel.set_path s3_path f))
  end.

Definition upload_files_s3 (files : BedFiles.t) : M BedFiles.t :=
  bed_file <- upload_one BED_PATH_FOLDER (BedFiles.bed_file files) ;;
  bigbed_file <- upload_one BIGBED_PATH_FOLDER (BedFiles.bigbed_file files) ;;
  ret (BedFiles.mk bed_file bigbed_file).

(** [os.path.join(output_path, p)] with an [output_path] that may be [None]. *)
Definition join_output (output_path : option string) (p : string) : result string :=
  match output_path with
  | None => Raise TypeError
  | Some o => Ok (os_path.join o [p])
  end.

(** Upload of the file behind one optional path of a plot; the
    result is its key, [None] for a path that is empty or missing. *)
Definition upload_plot_path (output_folder : string) (output_path : option string)
    (p : option string) : M (option string) :=
  match p with
  | Some p' =>
      if truthy (Some p') then
        let file_s3_path := os_path.join output_folder [os_path.basename p'] in
        local_path <- lift (join_output output_path p') ;;
        _upload_s3 local_path file_s3_path ;;;
        ret (Some file_s3_path)
      else ret None
  | None => ret None
  end.

(** [FileModel(name=.., path=.., ..)]: [path] has to be a string. *)
Definition FileModel_new (name : string) (path path_thumbnail description : option string)
  : result FileModel.t :=
  match path with
  | Some p => Ok (FileModel.mk name p path_thumbnail description None)
  | None => Raise ValidationError
  end.

Fixpoint upload_plots_loop (output_folder : string) (output_path : option string)
    (plots : file_fields) (plots_output : file_fields) : M file_fields :=
  match plots with
  | [] => ret plots_output
  | (key, None) :: plots' =>
      upload_plots_loop output_folder output_path plots' plots_output
  | (key, Some value) :: plots' =>
      file_s3_path <-
        upload_plot_path output_folder output_path (Some (FileModel.path value)) ;;
      file_s3_path_thumbnail <-
        upload_plot_path output_folder output_path (FileModel.path_thumbnail value) ;;
      uploaded <- lift (FileModel_new (FileModel.name value) file_s3_path
                          file_s3_path_thumbnail (FileModel.description value)) ;;
      upload_plots_loop output_folder output_path plots'
        (setattr plots_output key (Some uploaded))
  end.

Definition upload_plots_s3 (identifier : string) (output_path : option string)
    (plots : file_fields) : M file_fields :=
  tell INFO "Uploading plots to S3..." ;;;
  let plots_output := empty_model BedPlots_fields in
  let output_folder := os_path.join PLOTS_PATH_FOLDER [identifier] in
  upload_plots_loop output_folder output_path plots plots_output.

Definition upload_pephub (identifier : string) (metadata : kwargs) (overwrite : bool)
  : M unit :=
  match metadata with
  | [] => tell WARNING "No metadata provided. Skipping pephub upload.."
  | _ :: _ =>
      match _phc config with
      | None => raise AttributeError
      | Some _ => sample_create identifier metadata overwrite
      end
  end.

(** [upload_qdrant] called with the path of a bed file, as [add]
    calls it. *)
Definition upload_qdrant (bed_id : string) (bed_file : string) (payload : pyval) : M unit :=
  tell INFO ("Adding bed file to qdrant. bed_id: " +:+ bed_id) ;;;
  (fun w =>
     match region_embedding (fs w) bed_file with
     | Some e => (w, Raise e)
     | None => (w, Ok tt)
     end) ;;;
  match _qdrant_engine config with
  | None => raise AttributeError
  | Some _ =>
      payload <- lift (dict_display payload) ;;
      fun w => (with_qdrant (<[bed_id := payload]> (qdrant w)) w, Ok tt)
  end.

(** The [Files] rows that [add] writes for the files and for the plots. *)
Definition file_rows (identifier : string) (files : file_fields) : list Files.t :=
  omap (fun kv =>
          match snd kv with
          | Some v =>
              Some (Files.mk (fst kv) (FileModel.path v) None (FileModel.description v)
                      (FileModel.size v) type_file identifier)
          | None => None
          end) files.

Definition plot_rows (identifier : string) (plots : file_fields) : list Files.t :=
  omap (fun kv =>
          match snd kv with
          | Some v =>
              Some (Files.mk (fst kv) (FileModel.path v) (FileModel.path_thumbnail v)
                      (FileModel.description v) None type_plot identifier)
          | None => None
          end) plots.

Definition dict_of (kw : kwargs) : pyval :=
  PDict (map (fun kv => (PStr (fst kv), snd kv)) kw).

Definition add (identifier : string) (stats : pyval)
    (metadata plots files classification : pyval)
    (add_to_qdrant upload_pephub_flag upload_s3_flag : bool)
    (local_path : option string) (overwrite : bool) : M unit :=
  tell INFO ("Adding bed file to database. bed_id: " +:+ identifier) ;;;
  stats <- lift (construct BedStats stats) ;;
  plots <- lift (construct BedPlots plots) ;;
  files <- lift (construct BedFiles files) ;;
  metadata <- lift (construct BedPEPHub metadata) ;;
  classification <- lift (construct BedClassification classification) ;;
  (if upload_pephub_flag then upload_pephub identifier metadata overwrite
   else tell INFO "upload_pephub set to false. Skipping pephub..") ;;;
  (if add_to_qdrant then
     match BedFiles.bed_file files with
     | None => raise AttributeError          (* files.bed_file.path on None *)
     | Some f => upload_qdrant identifier (FileModel.path f) (dict_of metadata)
     end
   else tell INFO "add_to_qdrant set to false. Skipping qdrant..") ;;;
  synced <-
    (if upload_s3_flag then
       files' <- upload_files_s3 files ;;
       plots' <- upload_plots_s3 identifier local_path plots ;;
       ret (files', plots')
     else ret (files, plots)) ;;
  new_bed <- lift (Bed_new identifier stats classification) ;;
  commit new_bed
    (if upload_s3_flag then
       file_rows identifier (BedFiles.items (fst synced))
       ++ plot_rows identifier (snd synced)
     else []).

(** The body of [delete] is the ellipsis. *)
Definition delete (identifier : string) : M unit := ret tt.

(** *** Text search *)

(** [self._config.t2bsi.nl_vec_search]: the neighbours for a query,
    found by the search interface. *)
Variable nl_vec_search : string -> Z -> Z -> M (list neighbor).

(** [text_to_bed_search] reads two module-level names, [bbc] and
    [RecordNotFoundError]; [bbc] stands for what the first would be
    bound to (its [bed.retrieve_one]) and [RecordNotFoundError_cls]
    for the class test of the second, [None] for a name that the
    module does not bind. *)
Section names.
Variable bbc : option (string -> M BedMetadata.t).
Variable RecordNotFoundError_cls : option (exn -> bool).

Definition resolve (result : neighbor) : M neighbor :=
  fun w =>
    let body :=
      (retrieve_one <- load_global "bbc" bbc ;;
       view <- retrieve_one (remove_hyphens (neighbor_id result)) ;;
       ret (mkNeighbor (neighbor_id result) (score result) (Some view))) in
    match body w with
    | (w', Ok r) => (w', Ok r)
    | (w', Raise e) =>
        (* the except clause: its class expression is evaluated first *)
        (cls <- load_global "RecordNotFoundError" RecordNotFoundError_cls ;;
         if (cls e : bool) then
           tell INFO ("Couldn't find qdrant result in bedbase for id: "
                      +:+ neighbor_id result) ;;;
           ret result
         else raise e) w'
    end.

Definition text_to_bed_search_with (query : string) (limit offset : Z)
  : M (list neighbor) :=
  tell INFO ("Looking for: " +:+ query) ;;;
  tell INFO "Using backend" ;;;
  match _t2bsi config with
  | None => raise AttributeError
  | Some _ =>
      results <- nl_vec_search query limit offset ;;
      for_update results resolve
  end.
End names.

(** The function in the module as it is: each of the two names is
    bound only if the module binds it. *)
Definition text_to_bed_search (retrieve_one : string -> M BedMetadata.t)
    (query : string) (limit offset : Z) : M (list neighbor) :=
  text_to_bed_search_with
    (module_binding "bbc" retrieve_one)
    (module_binding "RecordNotFoundError" is_RecordNotFoundError)
    query limit offset.

End agent.
End BedAgentBedFile.

(** ** Accessors of the context *)

Definition qdrant_engine (self : BedBaseConfig) : option QdrantBackend := _qdrant_engine self.
Definition t2bsi (self : BedBaseConfig) : option Text2BEDSearchInterface := _t2bsi self.
Definition phc (self : BedBaseConfig) : option PEPHubClient := _phc self.
Definition boto3_client_of (self : BedBaseConfig) : option boto3_client := _boto3_client self.

(** ** Reference behaviours the code is compared with *)

Definition to_option {A} (r : result A) : option A :=
  match r with Ok a => Some a | Raise _ => None end.

Definition failures {A} (r : result A) : nat :=
  match r with Ok _ => 0 | Raise _ => 1 end.

(** The keys that a batch deletion is asked to delete, in order: the
    path of each descriptor, then its thumbnail when it has one. *)
Definition delete_targets (files : list FileModel.t) : list string :=
  flat_map (fun f =>
              FileModel.path f ::
              (if truthy (FileModel.path_thumbnail f)
               then match FileModel.path_thumbnail f with Some t => [t] | None => [] end
               else [])) files.

(** The keys up to and including the first one whose deletion fails,
    and that failure. *)
Fixpoint attempted (c : boto3_client) (keys : list string) : list string :=
  match keys with
  | [] => []
  | k :: keys' =>
      match delete_error c k with
      | Some _ => [k]
      | None => k :: attempted c keys'
      end
  end.

Fixpoint first_error (c : boto3_client) (keys : list string) : option exn :=
  match keys with
  | [] => None
  | k :: keys' =>
      match delete_error c k with
      | Some e => Some e
      | None => first_error c keys'
      end
  end.

(** The descriptor that the batch upload leaves for [entry] when
    every request succeeds, by the key convention
    [<folder>/<c0>/<c1>/<base name>]. *)
Definition conventional_key (folder c0 c1 p : string) : string :=
  folder +:+ "/" +:+ c0 +:+ "/" +:+ c1 +:+ "/" +:+ os_path.basename p.

Definition follows_convention (folder c0 c1 : string) (sizes : string -> option Z)
    (before after : string * option FileModel.t) : Prop :=
  fst after = fst before /\
  match snd before, snd after with
  | None, None => True
  | Some v, Some v' =>
      FileModel.path v' = conventional_key folder c0 c1 (FileModel.path v) /\
      FileModel.size v' = sizes (FileModel.path v) /\
      FileModel.name v' = FileModel.name v /\
      (FileModel.path_thumbnail v' =
         if truthy (FileModel.path_thumbnail v)
         then option_map (conventional_key folder c0 c1) (FileModel.path_thumbnail v)
         else FileModel.path_thumbnail v)
  | _, _ => False
  end.

(** The descriptor that the uploader of [add] leaves for a file under
    [folder]: the two shard characters of its key are the first two
    characters of the base name of the local path. *)
Definition keyed_by_base_name (folder : string) (before after : option FileModel.t) : Prop :=
  match before, after with
  | None, None => True
  | Some f, Some f' =>
      exists b0 b1,
        str_index (os_path.basename (FileModel.path f)) 0 = Ok b0 /\
        str_index (os_path.basename (FileModel.path f)) 1 = Ok b1 /\
        FileModel.path f'
        = os_path.join folder [b0; b1; os_path.basename (FileModel.path f)]
  | _, _ => False
  end.

(** The exception a coercion ends in, if it ends in one, and the
    exception of the first coercion that fails in a sequence of them. *)
Definition error_of {A} (r : result A) : option exn :=
  match r with
  | Ok _ => None
  | Raise e => Some e
  end.

Fixpoint first_raised (outcomes : list (option exn)) : option exn :=
  match outcomes with
  | [] => None
  | Some e :: _ => Some e
  | None :: outcomes' => first_raised outcomes'
  end.

(** The stores of a world: everything but the logger output. *)
Definition stores (w : world) :=
  (fs w, s3 w, s3_calls w, bed w, files w, pephub w, qdrant w).

(** ** Concrete models and worlds for the scenarios *)

Module scenario.

(** [FileModel] validation of the fields declared in
    [base_models.py]: [name] (alias [title], also accepted by name)
    and [path] are required strings, the rest is optional.  Only
    values of the declared type are accepted here; pydantic's
    conversions between types are not used by the scenarios. *)
Definition req_str (v : option pyval) : result string :=
  match v with
  | Some (PStr s) => Ok s
  | _ => Raise ValidationError
  end.

Definition opt_str (v : option pyval) : result (option string) :=
  match v with
  | None | Some PNone => Ok None
  | Some (PStr s) => Ok (Some s)
  | _ => Raise ValidationError
  end.

Definition opt_int (v : option pyval) : result (option Z) :=
  match v with
  | None | Some PNone => Ok None
  | Some (PInt z) => Ok (Some z)
  | _ => Raise ValidationError
  end.

Definition FileModel_validate (v : pyval) : result FileModel.t :=
  match expand v with
  | Raise _ => Raise ValidationError
  | Ok kw =>
      let title := match kw_get kw "title" with
                   | Some t => Some t
                   | None => kw_get kw "name"
                   end in
      let thumbnail := match kw_get kw "thumbnail_path" with
                       | Some t => Some t
                       | None => kw_get kw "path_thumbnail"
                       end in
      match req_str title, req_str (kw_get kw "path"), opt_str thumbnail,
            opt_str (kw_get kw "description"), opt_int (kw_get kw "size") with
      | Ok n, Ok p, Ok t, Ok d, Ok s => Ok (FileModel.mk n p t d s)
      | _, _, _, _, _ => Raise ValidationError
      end
  end.

Definition opt_file (v : option pyval) : result (option FileModel.t) :=
  match v with
  | None | Some PNone => Ok None
  | Some d =>
      match FileModel_validate d with
      | Ok f => Ok (Some f)
      | Raise e => Raise e
      end
  end.

(** Modelled from the spec: [bbconf.models.bed_models] is missing.
    The spec (section 3) has files and plots as optional file
    descriptors, a statistics sub-object of numeric summary fields and
    a classification sub-object, each validated with a
    [ValidationError] on shape mismatch (section 4.3); keys that are
    not fields are ignored. *)
Definition BedFiles (kw : kwargs) : result BedFiles.t :=
  match opt_file (kw_get kw "bed_file"), opt_file (kw_get kw "bigbed_file") with
  | Ok b, Ok bb => Ok (BedFiles.mk b bb)
  | _, _ => Raise ValidationError
  end.

Definition BedPlots_fields : list string := ["chrombins"; "widths_histogram"].

Fixpoint file_model (fields : list string) (kw : kwargs) : result file_fields :=
  match fields with
  | [] => Ok []
  | f :: fields' =>
      match opt_file (kw_get kw f), file_model fields' kw with
      | Ok v, Ok m => Ok ((f, v) :: m)
      | _, _ => Raise ValidationError
      end
  end.

Definition BedPlots : kwargs -> result file_fields := file_model BedPlots_fields.

Fixpoint numeric_model (fields : list string) (kw : kwargs) : result kwargs :=
  match fields with
  | [] => Ok []
  | f :: fields' =>
      match kw_get kw f, numeric_model fields' kw with
      | (None | Some PNone), Ok m => Ok ((f, PNone) :: m)
      | Some (PInt z), Ok m => Ok ((f, PInt z) :: m)
      | _, _ => Raise ValidationError
      end
  end.

Definition BedStats : kwargs -> result kwargs := numeric_model ["number_of_regions"].

(** Models without fields of their own stand for the classification
    and for the external metadata. *)
Definition no_fields (kw : kwargs) : result kwargs := Ok [].

(** Modelled from the spec: [bbconf.config_parser.models] is missing.
    The spec (section 4.1, section 6) gives every field of the
    configuration a documented default, among them the identifiers of
    the embedding models; the [path] section is taken with its three
    string fields and the defaults of [const_new.py]. *)
Definition DEFAULT_TEXT2VEC_MODEL : string := "sentence-transformers/all-MiniLM-L6-v2".
Definition DEFAULT_VEC2VEC_MODEL : string := "databio/v2v-MiniLM-v2-ATAC-hg38".
Definition DEFAULT_REGION2_VEC_MODEL : string := "databio/r2v-ChIP-atlas-hg38".

Definition str_field (kw : kwargs) (key default : string) : result pyval :=
  match kw_get kw key with
  | None => Ok (PStr default)
  | Some (PStr s) => Ok (PStr s)
  | Some _ => Raise ValidationError
  end.

Definition ConfigPath (kw : kwargs) : result kwargs :=
  match str_field kw "region2vec" DEFAULT_REGION2_VEC_MODEL,
        str_field kw "vec2vec" DEFAULT_VEC2VEC_MODEL,
        str_field kw "text2vec" DEFAULT_TEXT2VEC_MODEL with
  | Ok r, Ok v, Ok t => Ok [("region2vec", r); ("vec2vec", v); ("text2vec", t)]
  | _, _, _ => Raise ValidationError
  end.

Definition model_fields : list (string * (kwargs -> result kwargs)) :=
  [("path", ConfigPath)].

(** A configuration file whose [path] entry is a string, and one in
    which a field of the section is a list. *)
Definition malformed_yaml : list (pyval * pyval) :=
  [(PStr "path", PStr "databio/r2v-ChIP-atlas-hg38")].

Definition rejected_yaml : list (pyval * pyval) :=
  [(PStr "path", PDict [(PStr "region2vec", PList [])])].

Definition default_paths : ConfigFile :=
  [("path",
    [("region2vec", PStr "databio/r2v-ChIP-atlas-hg38");
     ("vec2vec", PStr "databio/v2v-MiniLM-v2-ATAC-hg38");
     ("text2vec", PStr "sentence-transformers/all-MiniLM-L6-v2")])].

(** Worlds and clients. *)
Definition empty_world : world := mkWorld ∅ ∅ [] ∅ [] ∅ ∅ [] [].

Definition local_files : world :=
  mkWorld (<["/tmp/x.bed" := 10%Z]> (<["/tmp/abc123.bed" := 10%Z]> ∅)) ∅ [] ∅ [] ∅ ∅ [] [].

Definition reliable_client : boto3_client := mkClient (fun _ => None) (fun _ => None).

(** A client whose bucket refuses to delete the key [a.bed]. *)
Definition refusing_client : boto3_client :=
  mkClient (fun _ => None)
           (fun key => if String.eqb key "a.bed" then Some (OtherError "ClientError") else None).

Definition config_with (client : option boto3_client) : BedBaseConfig :=
  mkBedBaseConfig [] BaseEngine_obj (Some QdrantBackend_obj)
    (Some (Text2BEDSearchInterface_obj (Some QdrantBackend_obj)))
    Region2VecExModel_obj (Some PEPHubClient_obj) client.

Definition healthy : BedBaseConfig := config_with (Some reliable_client).

Definition no_embedding_error (files : gmap string Z) (p : string) : option exn := None.

(** The agent over the scenario models. *)
Definition add :=
  BedAgentBedFile.add BedPlots_fields BedStats no_fields no_fields BedPlots BedFiles
    no_embedding_error healthy.

Definition get := BedAgentBedFile.get BedPlots_fields BedStats no_fields no_fields healthy.

Definition descriptor (p : string) : pyval :=
  PDict [(PStr "bed_file", PDict [(PStr "name", PStr "bed_file"); (PStr "path", PStr p)])].

(** [add("abc123", stats={}, metadata={}, plots={}, files={"bed_file": {..}},
    classification={}, upload_s3=True, local_path="/tmp")] *)
Definition add_synced (p : string) : M unit :=
  add "abc123" (PDict []) (PDict []) (PDict []) (descriptor p) (PDict [])
    false false true (Some "/tmp") false.

(** Constructors of a start-up in which everything connects, and the
    three failures considered below. *)
Definition all_up : constructors :=
  mkConstructors (fun _ => Ok BaseEngine_obj) (fun _ => Ok QdrantBackend_obj)
    (fun _ q => Ok (Text2BEDSearchInterface_obj q)) (fun _ => Ok Region2VecExModel_obj)
    (Ok PEPHubClient_obj) (fun _ => Ok reliable_client).

Definition qdrant_unreachable : constructors :=
  mkConstructors (BaseEngine_new all_up) (fun _ => Raise ResponseHandlingException)
    (Text2BEDSearchInterface_new all_up) (Region2VecExModel_new all_up)
    (PEPHubClient_new all_up) (boto3_client_new all_up).

Definition qdrant_unauthorized : constructors :=
  mkConstructors (BaseEngine_new all_up) (fun _ => Raise (OtherError "UnexpectedResponse"))
    (Text2BEDSearchInterface_new all_up) (Region2VecExModel_new all_up)
    (PEPHubClient_new all_up) (boto3_client_new all_up).

Definition r2v_missing : constructors :=
  mkConstructors (BaseEngine_new all_up) (QdrantBackend_new all_up)
    (Text2BEDSearchInterface_new all_up) (fun _ => Raise (OtherError "OSError"))
    (PEPHubClient_new all_up) (boto3_client_new all_up).

(** A vector search that returns one neighbour. *)
Definition one_hit : neighbor := mkNeighbor "ab-cd" 1 None.

Definition nl_vec_search (query : string) (limit offset : Z) : M (list neighbor) :=
  ret [one_hit].

Definition text_to_bed_search :=
  BedAgentBedFile.text_to_bed_search healthy nl_vec_search.

(** Two descriptors for a batch deletion. *)
Definition two_files : list FileModel.t :=
  [ FileModel.mk "a" "a.bed" (Some "a.png") None None;
    FileModel.mk "b" "b.bed" None None None ].

(** Modelled from the spec: [bbconf.config_parser.const] is missing.
    The spec (section 4.2) names the categories files, plots and
    bedsets; the scenario takes them as the folder names, and a
    [get_absolute_path] that leaves an absolute path as it is. *)
Definition batch_upload : string -> file_fields -> string -> string -> M file_fields :=
  upload_files_s3 "files" "plots" "bedsets" (fun _ p _ => p) healthy.

Definition x_bed : file_fields :=
  [("bed_file", Some (FileModel.mk "bed_file" "/tmp/x.bed" None None None));
   ("bigbed_file", None)].


(** A database with one record, a plot row, a file row and a row
    whose name is in neither model. *)
Definition stored_rows : list Files.t :=
  [ Files.mk "chrombins" "stats/abc123/chrombins.png" (Some "stats/abc123/chrombins_t.png")
      None (Some 7%Z) type_plot "abc123";
    Files.mk "bed_file" "bed_files/a/b/abc123.bed" None None (Some 10%Z) type_file "abc123";
    Files.mk "notes" "notes.txt" None None None type_file "abc123" ].

Definition stored : world :=
  mkWorld ∅ ∅ [] (<["abc123" := Bed.mk "abc123" [("number_of_regions", PInt 3)] []]> ∅)
    stored_rows ∅ ∅ [] [].

Definition get_stats := BedAgentBedFile.get_stats BedStats.
Definition get_plots := BedAgentBedFile.get_plots BedPlots_fields.
Definition get_files := BedAgentBedFile.get_files.
Definition get_objects := BedAgentBedFile.get_objects.
Definition get_raw_metadata := BedAgentBedFile.get_raw_metadata no_fields healthy.

Definition disconnected : BedBaseConfig := config_with None.

Definition one_plot : file_fields :=
  [("chrombins", Some (FileModel.mk "chrombins" "plots/chrombins.png" None None None));
   ("widths_histogram", None)].

(** A local directory with the plot of [one_plot]. *)
Definition plot_files : world :=
  mkWorld (<["/out/plots/chrombins.png" := 7%Z]> ∅) ∅ [] ∅ [] ∅ ∅ [] [].

(** The external metadata as a free-form document: every key is kept. *)
Definition free_form (kw : kwargs) : result kwargs := Ok kw.

(** An agent without an object-store client that writes metadata. *)
Definition add_offline :=
  BedAgentBedFile.add BedPlots_fields BedStats free_form no_fields BedPlots BedFiles
    no_embedding_error disconnected.

End scenario.

(** A descriptor, a plots model and a files model without their sizes. *)
Definition drop_size (f : FileModel.t) : FileModel.t := FileModel.set_size None f.

Definition drop_sizes (m : file_fields) : file_fields :=
  map (fun entry => (fst entry, option_map drop_size (snd entry))) m.

Definition drop_sizes_files (f : BedFiles.t) : BedFiles.t :=
  BedFiles.mk (option_map drop_size (BedFiles.bed_file f))
              (option_map drop_size (BedFiles.bigbed_file f)).

(** The key of a plot: the folder of the identifier under [stats],
    then the base name of the local path. *)
Definition plot_key (identifier p : string) : string :=
  os_path.join (os_path.join PLOTS_PATH_FOLDER [identifier]) [os_path.basename p].

(** The local files that a batch upload of [entry] reads. *)
Definition local_sources (get_absolute_path : gmap string Z -> string -> string -> string)
    (local : gmap string Z) (base_path : string) (entry : string * option FileModel.t)
  : list string :=
  match snd entry with
  | None => []
  | Some v =>
      get_absolute_path local (FileModel.path v) base_path ::
      (if truthy (FileModel.path_thumbnail v)
       then match FileModel.path_thumbnail v with
            | Some t => [get_absolute_path local t base_path]
            | None => []
            end
       else [])
  end.

(** The object-store side and the relational side of a world, and
    computations that leave a part of the world as it is. *)
Definition assets (w : world) := (s3 w, s3_calls w, files w).

Definition tables (w : world) := (bed w, files w).

Definition keeps {A B} (part : world -> B) (m : M A) : Prop :=
  forall w, part (fst (m w)) = part w.

(** * Properties *)

(** ** Reading and deleting a record *)

Section agent_facts.

Variable BedPlots_fields : list string.
Variables BedStats BedPEPHub BedClassification : kwargs -> result kwargs.
Variable config : BedBaseConfig.

Local Abbreviation get := (BedAgentBedFile.get BedPlots_fields BedStats BedPEPHub
                         BedClassification config).

(** C1.  For an identifier without a row in the [Bed] table the query
    result is [None], and the first use of it, [bed_object.files],
    raises [AttributeError]: [get] fails, the world is left as it was,
    but the error is not a record-not-found error. *)
Theorem get_absent_raises_AttributeError (identifier : string) (w : world) :
  bed w !! identifier = None ->
  get identifier w = (w, Raise AttributeError).
Proof.
  intros Habsent.
  unfold BedAgentBedFile.get, bind.
  rewrite Habsent.
  reflexivity.
Qed.

Lemma delete_returns (identifier : string) (w : world) :
  BedAgentBedFile.delete identifier w = (w, Ok tt).
Proof. reflexivity. Qed.

Lemma get_after_delete (identifier : string) (w : world) :
  (BedAgentBedFile.delete identifier ;;; get identifier) w = get identifier w.
Proof. unfold bind. rewrite delete_returns. reflexivity. Qed.

End agent_facts.

Lemma get_absent_witness :
  bed scenario.empty_world !! "abc123" = None /\
  scenario.get "abc123" scenario.empty_world = (scenario.empty_world, Raise AttributeError).
Proof.
  split.
  - reflexivity.
  - apply get_absent_raises_AttributeError. reflexivity.
Defined.

(** C3.  [delete] has no body: it returns without touching any store,
    so a [get] after it answers as it did before.  For the record added
    in the scenario, the row, its file row and the uploaded object are
    all still there after [delete], and [get] still returns the view. *)
Theorem delete_keeps_record :
  (forall fields S P C cfg identifier w,
      BedAgentBedFile.delete identifier w = (w, Ok tt) /\
      (BedAgentBedFile.delete identifier ;;; BedAgentBedFile.get fields S P C cfg identifier) w
      = BedAgentBedFile.get fields S P C cfg identifier w) /\
  (let after :=
     (scenario.add_synced "/tmp/abc123.bed" ;;; BedAgentBedFile.delete "abc123" ;;;
      scenario.get "abc123") scenario.local_files in
   is_Ok (snd after) = true /\
   is_Some (bed (fst after) !! "abc123") /\
   length (files (fst after)) = 1 /\
   s3 (fst after) !! "bed_files/a/b/abc123.bed" = Some 10%Z /\
   s3_calls (fst after) = [upload_file_call "/tmp/abc123.bed" "bed_files/a/b/abc123.bed"]).
Proof.
  split.
  - intros. split; [reflexivity | apply get_after_delete].
  - vm_compute. repeat split; eauto.
Qed.

(** ** Text search *)

Section search_facts.

Variable config : BedBaseConfig.
Variable nl_vec_search : string -> Z -> Z -> M (list neighbor).

Lemma unbound_bbc : @module_binding (string -> M BedMetadata.t) "bbc" = fun _ => None.
Proof. reflexivity. Qed.

Lemma unbound_RecordNotFoundError :
  @module_binding (exn -> bool) "RecordNotFoundError" = fun _ => None.
Proof. reflexivity. Qed.

Lemma resolve_unbound (r : neighbor) (w : world) :
  BedAgentBedFile.resolve None None r w = (w, Raise (NameError "RecordNotFoundError")).
Proof. reflexivity. Qed.

(** C7.  Whenever the vector search returns at least one neighbour,
    [text_to_bed_search] raises [NameError]: the loop body reads the
    module-level name [bbc] and its [except] clause the name
    [RecordNotFoundError], and the module binds neither.  No sequence
    is returned, with or without the unresolved neighbours. *)
Theorem text_to_bed_search_raises_NameError
    (retrieve_one : string -> M BedMetadata.t) (query : string) (limit offset : Z)
    (w w1 : world) (r : neighbor) (rs : list neighbor) (backend : Text2BEDSearchInterface) :
  _t2bsi config = Some backend ->
  nl_vec_search query limit offset
    (logger INFO "Using backend" (logger INFO ("Looking for: " +:+ query) w))
  = (w1, Ok (r :: rs)) ->
  BedAgentBedFile.text_to_bed_search config nl_vec_search retrieve_one query limit offset w
  = (w1, Raise (NameError "RecordNotFoundError")).
Proof.
  intros Hbackend Hsearch.
  unfold BedAgentBedFile.text_to_bed_search, BedAgentBedFile.text_to_bed_search_with.
  rewrite unbound_bbc, unbound_RecordNotFoundError, Hbackend.
  unfold bind, tell. rewrite Hsearch. simpl.
  unfold bind. rewrite resolve_unbound. reflexivity.
Qed.

(** Even with both names bound, a neighbour whose identifier does not
    resolve stays in the returned sequence. *)
Lemma resolve_keeps_unresolved (retrieve_one : string -> M BedMetadata.t)
    (r : neighbor) (w w' : world) :
  retrieve_one (remove_hyphens (neighbor_id r)) w = (w', Raise RecordNotFoundError) ->
  snd (BedAgentBedFile.resolve (Some retrieve_one) (Some is_RecordNotFoundError) r w)
  = Ok r.
Proof.
  intros Hmiss. unfold BedAgentBedFile.resolve, bind, load_global, ret.
  rewrite Hmiss. reflexivity.
Qed.

End search_facts.

Lemma text_to_bed_search_witness :
  scenario.text_to_bed_search (fun _ => raise RecordNotFoundError) "liver tissue" 5 0
    scenario.empty_world
  = (logger INFO "Using backend"
       (logger INFO "Looking for: liver tissue" scenario.empty_world),
     Raise (NameError "RecordNotFoundError")).
Proof.
  eapply (text_to_bed_search_raises_NameError scenario.healthy scenario.nl_vec_search
            (fun _ => raise RecordNotFoundError) "liver tissue" 5 0 scenario.empty_world).
  - reflexivity.
  - reflexivity.
Defined.

(** ** Batch deletion *)

Section deletion_facts.

Variable self : BedBaseConfig.
Variable client : boto3_client.
Hypothesis connected : _boto3_client self = Some client.

Lemma delete_s3_connected (key : string) (w : world) :
  delete_s3 self key w = delete_object client key w.
Proof. unfold delete_s3. rewrite connected. reflexivity. Qed.

(** Deleting a list of keys one after the other. *)
Lemma for_each_app {A} (l1 l2 : list A) (body : A -> M unit) (w : world) :
  for_each (l1 ++ l2) body w = (for_each l1 body ;;; for_each l2 body) w.
Proof.
  revert w. induction l1 as [|x l1 IH]; intros w; simpl.
  - reflexivity.
  - unfold bind. destruct (body x w) as [w1 [[]|e]].
    + rewrite IH. reflexivity.
    + reflexivity.
Qed.

Lemma delete_files_s3_targets (files : list FileModel.t) (w : world) :
  delete_files_s3 self files w = for_each (delete_targets files) (delete_s3 self) w.
Proof.
  revert w. induction files as [|f files IH]; intros w.
  - reflexivity.
  - unfold delete_files_s3 in *. simpl.
    unfold bind. destruct (delete_s3 self (FileModel.path f) w) as [w1 [[]|e]].
    + destruct (FileModel.path_thumbnail f) as [[|c t]|]; simpl.
      * apply IH.
      * unfold bind. destruct (delete_s3 self (String c t) w1) as [w2 [[]|e]].
        -- apply IH.
        -- reflexivity.
      * apply IH.
    + destruct (truthy (FileModel.path_thumbnail f)); reflexivity.
Qed.

Lemma delete_keys_trace (keys : list string) (w : world) :
  let out := for_each keys (delete_s3 self) w in
  s3_calls (fst out) = (s3_calls w ++ map delete_object_call (attempted client keys))%list /\
  snd out = match first_error client keys with
            | Some e => Raise e
            | None => Ok tt
            end.
Proof.
  revert w. induction keys as [|k keys IH]; intros w; simpl.
  - rewrite app_nil_r. split; reflexivity.
  - unfold bind. rewrite delete_s3_connected. unfold delete_object.
    destruct (delete_error client k) as [e|]; simpl.
    + split; reflexivity.
    + destruct (IH (with_s3 (delete k (s3 w)) (s3_calls w ++ [delete_object_call k])
                      (with_s3 (s3 w) (s3_calls w ++ [delete_object_call k]) w)))
        as [Hcalls Hres].
      simpl in Hcalls. rewrite Hcalls, Hres, <- app_assoc. split; reflexivity.
Qed.

Lemma attempted_all (keys : list string) :
  first_error client keys = None -> attempted client keys = keys.
Proof.
  induction keys as [|k keys IH]; simpl; [reflexivity|].
  destruct (delete_error client k); [discriminate|].
  intros H. rewrite IH by assumption. reflexivity.
Qed.

(** C8 (as the code has it).  A batch deletion asks for the path of
    each descriptor and then for its thumbnail whenever the thumbnail
    path is present and not empty, in order, up to and including the
    first request that fails; that failure is raised and the remaining
    descriptors are not attempted.  When no request fails, every
    target is attempted and the call returns. *)
Theorem delete_files_s3_stops_at_first_failure (files : list FileModel.t) (w : world) :
  let out := delete_files_s3 self files w in
  s3_calls (fst out)
  = (s3_calls w ++ map delete_object_call (attempted client (delete_targets files)))%list /\
  snd out = match first_error client (delete_targets files) with
            | Some e => Raise e
            | None => Ok tt
            end /\
  (first_error client (delete_targets files) = None ->
   attempted client (delete_targets files) = delete_targets files).
Proof.
  simpl. rewrite delete_files_s3_targets.
  destruct (delete_keys_trace (delete_targets files) w) as [Hcalls Hres].
  split; [exact Hcalls|]. split; [exact Hres|]. apply attempted_all.
Qed.

End deletion_facts.

Lemma delete_files_s3_witness :
  let out := delete_files_s3 scenario.healthy scenario.two_files scenario.empty_world in
  s3_calls (fst out)
  = [delete_object_call "a.bed"; delete_object_call "a.png"; delete_object_call "b.bed"] /\
  snd out = Ok tt.
Proof.
  destruct (delete_files_s3_stops_at_first_failure scenario.healthy scenario.reliable_client
              eq_refl scenario.two_files scenario.empty_world) as [Hcalls [Hres _]].
  split; [exact Hcalls | exact Hres].
Defined.

(** C8 (counterexample).  The bucket refuses to delete [a.bed], the
    path of the first of two descriptors: the error is raised at once,
    and neither the thumbnail of the first descriptor nor the second
    descriptor is attempted. *)
Lemma delete_files_s3_failure_stops_batch :
  let out := delete_files_s3 (scenario.config_with (Some scenario.refusing_client))
               scenario.two_files scenario.empty_world in
  snd out = Raise (OtherError "ClientError") /\
  s3_calls (fst out) = [delete_object_call "a.bed"] /\
  ~ In (delete_object_call "b.bed") (s3_calls (fst out)).
Proof.
  vm_compute. split; [reflexivity|]. split; [reflexivity|].
  intros [H|[]]. discriminate H.
Qed.

(** ** Constructing the context *)

Section startup_facts.

Variable env : constructors.
Variable config : ConfigFile.

Lemma _init_qdrant_backend_connection_error (w : world) :
  QdrantBackend_new env config = Raise ResponseHandlingException ->
  snd (_init_qdrant_backend env config w) = Ok None.
Proof.
  intros Hdown. unfold _init_qdrant_backend, try_except, bind, lift.
  rewrite Hdown. reflexivity.
Qed.

Lemma _init_qdrant_backend_other_error (e : exn) (w : world) :
  QdrantBackend_new env config = Raise e ->
  is_ResponseHandlingException e = false ->
  _init_qdrant_backend env config w = (w, Raise e).
Proof.
  intros Hdown Hother. unfold _init_qdrant_backend, try_except, bind, lift.
  rewrite Hdown, Hother. reflexivity.
Qed.

Lemma _init_r2v_object_error (e : exn) (w : world) :
  Region2VecExModel_new env config = Raise e ->
  _init_r2v_object env config w = (w, Raise e).
Proof. intros Hdown. unfold _init_r2v_object, lift. rewrite Hdown. reflexivity. Qed.

(** C4 (as the code has it).  With the database engine and the
    region-to-vector model constructed, and a vector-index client that
    is either constructed or fails with a response-handling
    (connection) error, the context is constructed whatever the
    search interface, the external-metadata client and the
    object-store client do: each handle that failed is [None], each
    failure adds one warning, the others are the constructed clients,
    and no store is touched.  In particular an unreachable vector
    index gives a context whose [qdrant_engine] is [None]. *)
Theorem init_handles_degraded (w : world) (db : BaseEngine) (r2v : Region2VecExModel) :
  BaseEngine_new env config = Ok db ->
  Region2VecExModel_new env config = Ok r2v ->
  (forall e, QdrantBackend_new env config = Raise e -> e = ResponseHandlingException) ->
  let q := QdrantBackend_new env config in
  let t := Text2BEDSearchInterface_new env config (to_option q) in
  let p := PEPHubClient_new env in
  let b := boto3_client_new env config in
  exists w',
    init_handles env config w
    = (w', Ok (mkBedBaseConfig config db (to_option q) (to_option t) r2v
                 (to_option p) (to_option b))) /\
    length (warnings w')
    = length (warnings w) + failures q + failures t + failures p + failures b /\
    stores w' = stores w /\
    (q = Raise ResponseHandlingException ->
     forall self, snd (init_handles env config w) = Ok self -> qdrant_engine self = None).
Proof.
  intros Hdb Hr2v Hq q t p b.
  unfold init_handles, _init_db_engine, _init_qdrant_backend, _init_t2bsi_object,
    _init_r2v_object, _init_pephubclient, _init_boto3_client.
  unfold try_except, bind, lift, tell, warn, ret. rewrite Hdb.
  subst q t p b.
  destruct (QdrantBackend_new env config) as [qh|qe] eqn:Eq.
  - simpl.
    destruct (Text2BEDSearchInterface_new env config (Some qh)) as [th|te];
      rewrite Hr2v; destruct (PEPHubClient_new env) as [ph|pe];
      destruct (boto3_client_new env config) as [bh|be]; simpl;
      eexists; (split; [reflexivity|]); simpl;
      rewrite ?length_app; simpl;
      (split; [lia|]); (split; [reflexivity|]); discriminate.
  - rewrite (Hq qe eq_refl). simpl.
    destruct (Text2BEDSearchInterface_new env config None) as [th|te];
      rewrite Hr2v; destruct (PEPHubClient_new env) as [ph|pe];
      destruct (boto3_client_new env config) as [bh|be]; simpl;
      eexists; (split; [reflexivity|]); simpl;
      rewrite ?length_app; simpl;
      (split; [lia|]); (split; [reflexivity|]);
      intros _ self Hself; injection Hself as <-; reflexivity.
Qed.

End startup_facts.

Lemma init_handles_degraded_witness :
  exists w',
    init_handles scenario.qdrant_unreachable [] scenario.empty_world
    = (w', Ok (mkBedBaseConfig [] BaseEngine_obj None
                 (Some (Text2BEDSearchInterface_obj None)) Region2VecExModel_obj
                 (Some PEPHubClient_obj) (Some scenario.reliable_client))) /\
    length (warnings w') = 1.
Proof.
  destruct (init_handles_degraded scenario.qdrant_unreachable [] scenario.empty_world
              BaseEngine_obj Region2VecExModel_obj eq_refl eq_refl)
    as [w' [Hinit [Hwarn _]]].
  - intros e He. injection He as <-. reflexivity.
  - exists w'. split; [exact Hinit | exact Hwarn].
Defined.

(** C4 (counterexample).  The region-to-vector model is constructed
    outside any [try]: when it cannot be loaded, the construction of the
    context fails with that error, although every other client
    connects.  So does a vector-index client that fails with anything
    but a response-handling error. *)
Lemma init_handles_fails_without_embedding_model :
  snd (init_handles scenario.r2v_missing [] scenario.empty_world)
  = Raise (OtherError "OSError") /\
  snd (init_handles scenario.qdrant_unauthorized [] scenario.empty_world)
  = Raise (OtherError "UnexpectedResponse").
Proof. split; reflexivity. Qed.

(** ** Reading the configuration *)

Section read_config_facts.

Variable model_fields : list (string * (kwargs -> result kwargs)).

Lemma read_section_rejected (_config : list (pyval * pyval)) (field_name : string)
    (annotation : kwargs -> result kwargs) (kw : kwargs) (e : exn) :
  expand (dict_get _config field_name) = Ok kw ->
  annotation kw = Raise e ->
  is_TypeError e = false ->
  read_section _config (field_name, annotation) = Raise e.
Proof.
  intros Hkw Hrej Hkind. unfold read_section. rewrite Hkw, Hrej, Hkind. reflexivity.
Qed.

Lemma read_section_default (_config : list (pyval * pyval)) (field_name : string)
    (annotation : kwargs -> result kwargs) :
  expand (dict_get _config field_name) = Raise TypeError ->
  read_section _config (field_name, annotation)
  = match annotation [] with
    | Ok section => Ok (field_name, section)
    | Raise e => Raise e
    end.
Proof. intros Hkw. unfold read_section. rewrite Hkw. reflexivity. Qed.

Lemma read_sections_app (_config : list (pyval * pyval))
    (fields fields' : list (string * (kwargs -> result kwargs))) :
  read_sections _config (fields ++ fields')%list
  = match read_sections _config fields with
    | Raise e => Raise e
    | Ok entries =>
        match read_sections _config fields' with
        | Raise e => Raise e
        | Ok entries' => Ok (entries ++ entries')%list
        end
    end.
Proof.
  induction fields as [|field fields IH]; simpl.
  - destruct (read_sections _config fields'); reflexivity.
  - destruct (read_section _config field) as [entry|]; [|reflexivity].
    rewrite IH.
    destruct (read_sections _config fields) as [entries|]; [|reflexivity].
    destruct (read_sections _config fields'); reflexivity.
Qed.

(** A section that is a mapping with string keys and that its model
    rejects with anything but a [TypeError] makes loading fail with the
    error of the model, once the sections before it are read. *)
Lemma rejected_section_raises
    (before after : list (string * (kwargs -> result kwargs)))
    (field_name : string) (annotation : kwargs -> result kwargs)
    (_config : list (pyval * pyval)) (kw : kwargs) (e : exn) (entries : ConfigFile) :
  read_sections _config before = Ok entries ->
  expand (dict_get _config field_name) = Ok kw ->
  annotation kw = Raise e ->
  is_TypeError e = false ->
  _read_config_file (before ++ (field_name, annotation) :: after)%list (Ok _config)
  = Raise e.
Proof.
  intros Hbefore Hkw Hrej Hkind. unfold _read_config_file.
  rewrite read_sections_app, Hbefore. cbn [read_sections].
  rewrite (read_section_rejected _ _ _ _ _ Hkw Hrej Hkind). reflexivity.
Qed.

(** C6.  A section that the file does give, but with the wrong shape
    (its value is not a mapping, or the mapping has a key that is not a
    string), does not make loading fail: the [TypeError] of its
    expansion is caught and the section is replaced by the defaults of
    its model.  With the other sections read, loading returns the
    configuration in which the section holds those defaults, and
    nothing of what the file gave for it. *)
Theorem malformed_section_loads_defaults
    (before after : list (string * (kwargs -> result kwargs)))
    (field_name : string) (annotation : kwargs -> result kwargs)
    (_config : list (pyval * pyval)) (section : kwargs) (entries entries' : ConfigFile) :
  dict_get _config field_name <> PNone ->
  expand (dict_get _config field_name) = Raise TypeError ->
  annotation [] = Ok section ->
  read_sections _config before = Ok entries ->
  read_sections _config after = Ok entries' ->
  _read_config_file (before ++ (field_name, annotation) :: after)%list (Ok _config)
  = Ok (entries ++ (field_name, section) :: entries')%list.
Proof.
  intros _ Hkw Hdefault Hbefore Hafter. unfold _read_config_file.
  rewrite read_sections_app, Hbefore. cbn [read_sections].
  rewrite (read_section_default _ _ _ Hkw), Hdefault, Hafter. reflexivity.
Qed.

End read_config_facts.

(** The [path] entry of the file is a string where a mapping is
    required.  Loading succeeds, and the section holds the default
    model identifiers. *)
Lemma malformed_section_witness :
  _read_config_file scenario.model_fields (Ok scenario.malformed_yaml)
  = Ok scenario.default_paths.
Proof.
  refine (malformed_section_loads_defaults [] [] "path" scenario.ConfigPath
            scenario.malformed_yaml _ [] [] _ eq_refl eq_refl eq_refl eq_refl).
  discriminate.
Defined.

(** The same entry given as a mapping that the model rejects makes
    loading fail with the error of the model. *)
Lemma rejected_section_example :
  _read_config_file scenario.model_fields (Ok scenario.rejected_yaml)
  = Raise ValidationError.
Proof. reflexivity. Qed.

(** ** Adding a record *)

Section add_facts.

Variable BedPlots_fields : list string.
Variables BedStats BedPEPHub BedClassification : kwargs -> result kwargs.
Variable BedPlots : kwargs -> result file_fields.
Variable BedFiles : kwargs -> result BedFiles.t.
Variable region_embedding : gmap string Z -> string -> option exn.
Variable config : BedBaseConfig.

Local Abbreviation add :=
  (BedAgentBedFile.add BedPlots_fields BedStats BedPEPHub BedClassification BedPlots
     BedFiles region_embedding config).

Lemma construct_None {A} (Model : kwargs -> result A) :
  construct Model PNone = Raise TypeError.
Proof. reflexivity. Qed.

Lemma not_Ok_None {A} (Model : kwargs -> result A) (a : A) :
  construct Model PNone <> Ok a.
Proof. discriminate. Qed.

(** C10 (as the code has it).  When any of [metadata], [plots],
    [files] or [classification] is [None], [add] fails in the coercion
    step: all it has done is write its first log line, and no store is
    touched.  The arguments are coerced in the order stats, plots,
    files, metadata, classification, and the exception raised is the
    one of the first coercion that fails.  The coercion of [None] fails
    with a [TypeError]; so [add] raises [TypeError] as soon as every
    argument coerced before a [None] one is accepted by its model,
    whatever the arguments coerced after it are, and otherwise it
    raises the error of the first earlier argument that is not
    accepted. *)
Theorem add_None_default_fails_in_coercion
    (identifier : string) (stats metadata plots files classification : pyval)
    (add_to_qdrant upload_pephub_flag upload_s3_flag : bool)
    (local_path : option string) (overwrite : bool) (w : world) :
  metadata = PNone \/ plots = PNone \/ files = PNone \/ classification = PNone ->
  let started := logger INFO ("Adding bed file to database. bed_id: " +:+ identifier) w in
  let outcome :=
    add identifier stats metadata plots files classification
      add_to_qdrant upload_pephub_flag upload_s3_flag local_path overwrite w in
  let coercions :=
    [ error_of (construct BedStats stats);
      error_of (construct BedPlots plots);
      error_of (construct BedFiles files);
      error_of (construct BedPEPHub metadata);
      error_of (construct BedClassification classification) ] in
  stores started = stores w /\
  (exists e, first_raised coercions = Some e /\ outcome = (started, Raise e)) /\
  (plots = PNone ->
   is_Ok (construct BedStats stats) = true ->
   outcome = (started, Raise TypeError)) /\
  (files = PNone ->
   is_Ok (construct BedStats stats) = true ->
   is_Ok (construct BedPlots plots) = true ->
   outcome = (started, Raise TypeError)) /\
  (metadata = PNone ->
   is_Ok (construct BedStats stats) = true ->
   is_Ok (construct BedPlots plots) = true ->
   is_Ok (construct BedFiles files) = true ->
   outcome = (started, Raise TypeError)) /\
  (classification = PNone ->
   is_Ok (construct BedStats stats) = true ->
   is_Ok (construct BedPlots plots) = true ->
   is_Ok (construct BedFiles files) = true ->
   is_Ok (construct BedPEPHub metadata) = true ->
   outcome = (started, Raise TypeError)).
Proof.
  intros Hnone started outcome coercions. subst started outcome coercions.
  split; [reflexivity|].
  unfold BedAgentBedFile.add, bind, lift, tell.
  split; [|repeat split].
  - destruct (construct BedStats stats) as [s|] eqn:Es;
      [|eexists; split; reflexivity].
    destruct (construct BedPlots plots) as [p|] eqn:Ep;
      [|eexists; split; reflexivity].
    destruct (construct BedFiles files) as [f|] eqn:Ef;
      [|eexists; split; reflexivity].
    destruct (construct BedPEPHub metadata) as [m|] eqn:Em;
      [|eexists; split; reflexivity].
    destruct (construct BedClassification classification) as [c|] eqn:Ec;
      [|eexists; split; reflexivity].
    exfalso. destruct Hnone as [-> | [-> | [-> | ->]]];
      eapply not_Ok_None; eassumption.
  - intros -> Hs.
    destruct (construct BedStats stats); [reflexivity|discriminate Hs].
  - intros -> Hs Hp.
    destruct (construct BedStats stats); [|discriminate Hs].
    destruct (construct BedPlots plots); [reflexivity|discriminate Hp].
  - intros -> Hs Hp Hf.
    destruct (construct BedStats stats); [|discriminate Hs].
    destruct (construct BedPlots plots); [|discriminate Hp].
    destruct (construct BedFiles files); [reflexivity|discriminate Hf].
  - intros -> Hs Hp Hf Hm.
    destruct (construct BedStats stats); [|discriminate Hs].
    destruct (construct BedPlots plots); [|discriminate Hp].
    destruct (construct BedFiles files); [|discriminate Hf].
    destruct (construct BedPEPHub metadata); [reflexivity|discriminate Hm].
Qed.

(** The uploader that [add] uses takes the two shard characters from
    the base name of the file and leaves [size] as it was given. *)
Lemma upload_one_key (folder : string) (f f' : FileModel.t) (w w' : world) :
  BedAgentBedFile.upload_one config folder (Some f) w = (w', Ok (Some f')) ->
  exists b0 b1,
    str_index (os_path.basename (FileModel.path f)) 0 = Ok b0 /\
    str_index (os_path.basename (FileModel.path f)) 1 = Ok b1 /\
    FileModel.path f' = os_path.join folder [b0; b1; os_path.basename (FileModel.path f)] /\
    FileModel.size f' = FileModel.size f.
Proof.
  unfold BedAgentBedFile.upload_one, bind, lift, shard_key, ret.
  destruct (str_index (os_path.basename (FileModel.path f)) 0) as [b0|]; [|discriminate].
  destruct (str_index (os_path.basename (FileModel.path f)) 1) as [b1|]; [|discriminate].
  destruct (BedAgentBedFile._upload_s3 config _ _ w) as [w1 [[]|]]; [|discriminate].
  intros H. injection H as _ <-. exists b0, b1. repeat split; reflexivity.
Qed.

Lemma upload_one_shape (folder : string) (file r : option FileModel.t) (w w' : world) :
  BedAgentBedFile.upload_one config folder file w = (w', Ok r) ->
  option_map FileModel.size r = option_map FileModel.size file.
Proof.
  destruct file as [f|].
  - destruct r as [f'|].
    + intros H. apply upload_one_key in H. destruct H as (b0 & b1 & _ & _ & _ & Hsize).
      simpl. rewrite Hsize. reflexivity.
    + unfold BedAgentBedFile.upload_one, bind, lift, ret.
      destruct (shard_key _ _ _); [|discriminate].
      destruct (BedAgentBedFile._upload_s3 config _ _ w) as [w1 [[]|]]; discriminate.
  - unfold BedAgentBedFile.upload_one, ret. intros H. injection H as _ <-. reflexivity.
Qed.

Lemma upload_one_keyed (folder : string) (file r : option FileModel.t) (w w' : world) :
  BedAgentBedFile.upload_one config folder file w = (w', Ok r) ->
  keyed_by_base_name folder file r.
Proof.
  destruct file as [f|].
  - destruct r as [f'|].
    + intros H. apply upload_one_key in H. destruct H as (b0 & b1 & H0 & H1 & Hpath & _).
      exists b0, b1. repeat split; assumption.
    + unfold BedAgentBedFile.upload_one, bind, lift, ret.
      destruct (shard_key _ _ _); [|discriminate].
      destruct (BedAgentBedFile._upload_s3 config _ _ w) as [w1 [[]|]]; discriminate.
  - unfold BedAgentBedFile.upload_one, ret. intros H. injection H as _ <-. exact I.
Qed.

Lemma upload_files_s3_keyed (files files' : BedFiles.t) (w w' : world) :
  BedAgentBedFile.upload_files_s3 config files w = (w', Ok files') ->
  keyed_by_base_name BED_PATH_FOLDER (BedFiles.bed_file files) (BedFiles.bed_file files') /\
  keyed_by_base_name BIGBED_PATH_FOLDER
    (BedFiles.bigbed_file files) (BedFiles.bigbed_file files').
Proof.
  unfold BedAgentBedFile.upload_files_s3, bind, ret.
  destruct (BedAgentBedFile.upload_one config BED_PATH_FOLDER _ w) as [w1 [b|]] eqn:Hb;
    [|discriminate].
  destruct (BedAgentBedFile.upload_one config BIGBED_PATH_FOLDER _ w1) as [w2 [bb|]] eqn:Hbb;
    [|discriminate].
  intros H. injection H as _ <-. simpl.
  split; eapply upload_one_keyed; eassumption.
Qed.

Lemma upload_files_s3_keeps_size (files files' : BedFiles.t) (w w' : world) :
  BedAgentBedFile.upload_files_s3 config files w = (w', Ok files') ->
  option_map FileModel.size (BedFiles.bed_file files')
  = option_map FileModel.size (BedFiles.bed_file files) /\
  option_map FileModel.size (BedFiles.bigbed_file files')
  = option_map FileModel.size (BedFiles.bigbed_file files).
Proof.
  unfold BedAgentBedFile.upload_files_s3, bind, ret.
  destruct (BedAgentBedFile.upload_one config BED_PATH_FOLDER _ w) as [w1 [b|]] eqn:Hb;
    [|discriminate].
  destruct (BedAgentBedFile.upload_one config BIGBED_PATH_FOLDER _ w1) as [w2 [bb|]] eqn:Hbb;
    [|discriminate].
  intros H. injection H as _ <-. simpl.
  split; eapply upload_one_shape; eassumption.
Qed.

End add_facts.

Lemma add_None_default_witness :
  scenario.add "abc123" (PDict []) (PDict []) PNone
    (PDict [(PStr "bed_file", PStr "/tmp/x.bed")]) (PDict [])
    false false false None false scenario.empty_world
  = (logger INFO "Adding bed file to database. bed_id: abc123" scenario.empty_world,
     Raise TypeError).
Proof.
  refine (proj1 (proj2 (proj2 (add_None_default_fails_in_coercion
            scenario.BedPlots_fields scenario.BedStats scenario.no_fields scenario.no_fields
            scenario.BedPlots scenario.BedFiles scenario.no_embedding_error scenario.healthy
            "abc123" (PDict []) (PDict []) PNone
            (PDict [(PStr "bed_file", PStr "/tmp/x.bed")]) (PDict [])
            false false false None false scenario.empty_world _))) eq_refl eq_refl).
  right. left. reflexivity.
Defined.

(** C10 (counterexample).  [stats] holds a string where the statistics
    model has a number, and the four optional arguments are left at
    [None]: the statistics are coerced first, and [add] fails with their
    [ValidationError], not with a [TypeError]. *)
Lemma add_None_default_ValidationError_first :
  snd (scenario.add "abc123" (PDict [(PStr "number_of_regions", PStr "many")])
         PNone PNone PNone PNone false false false None false scenario.empty_world)
  = Raise ValidationError.
Proof. reflexivity. Qed.

(** C5.  The uploader that [add] calls never sets [size]: a descriptor
    comes back from it with the size it went in with.  In the scenario
    the file [/tmp/abc123.bed] has 10 bytes and its descriptor carries
    no size; after [add] with asset sync, [get] returns the descriptor
    with its remote key and with no size. *)
Theorem add_get_size_not_recorded :
  (forall config files files' w w',
      BedAgentBedFile.upload_files_s3 config files w = (w', Ok files') ->
      option_map FileModel.size (BedFiles.bed_file files')
      = option_map FileModel.size (BedFiles.bed_file files) /\
      option_map FileModel.size (BedFiles.bigbed_file files')
      = option_map FileModel.size (BedFiles.bigbed_file files)) /\
  fs scenario.local_files !! "/tmp/abc123.bed" = Some 10%Z /\
  exists view,
    snd ((scenario.add_synced "/tmp/abc123.bed" ;;; scenario.get "abc123")
           scenario.local_files) = Ok view /\
    BedFiles.bed_file (BedMetadata.files view)
    = Some (FileModel.mk "bed_file" "bed_files/a/b/abc123.bed" None None None).
Proof.
  split; [exact upload_files_s3_keeps_size|].
  split; [reflexivity|].
  eexists. split; vm_compute; reflexivity.
Qed.

Lemma add_get_size_witness :
  exists w' files',
    BedAgentBedFile.upload_files_s3 scenario.healthy
      (BedFiles.mk (Some (FileModel.mk "bed_file" "/tmp/abc123.bed" None None None)) None)
      scenario.local_files = (w', Ok files') /\
    option_map FileModel.size (BedFiles.bed_file files') = Some None.
Proof.
  eexists. eexists. split.
  - vm_compute. reflexivity.
  - exact (proj1 (proj1 add_get_size_not_recorded scenario.healthy
                    (BedFiles.mk (Some (FileModel.mk "bed_file" "/tmp/abc123.bed"
                                          None None None)) None)
                    _ scenario.local_files _ eq_refl)).
Defined.

(** C2.  The uploader that [add] calls for the files is not the batch
    upload and is never given the identifier: the key it leaves in the
    descriptor of the bed file is [bed_files/<b[0]>/<b[1]>/<b>], and
    [bigbed_files/<b[0]>/<b[1]>/<b>] for the bigbed file, where [b] is
    the base name of the local path.  In the scenario, identifier
    [abc123] is added with the single file descriptor of name
    [bed_file] and path [/tmp/x.bed], asset sync enabled and the object
    store available: [add] returns, and the path written for the
    descriptor is [bed_files/x/./x.bed]. *)
Theorem add_key_from_base_name :
  (forall config files files' w w',
      BedAgentBedFile.upload_files_s3 config files w = (w', Ok files') ->
      keyed_by_base_name BED_PATH_FOLDER
        (BedFiles.bed_file files) (BedFiles.bed_file files') /\
      keyed_by_base_name BIGBED_PATH_FOLDER
        (BedFiles.bigbed_file files) (BedFiles.bigbed_file files')) /\
  (let after := scenario.add_synced "/tmp/x.bed" scenario.local_files in
   snd after = Ok tt /\
   map Files.path (files (fst after)) = ["bed_files/x/./x.bed"] /\
   map Files.path (files (fst after)) <> ["bed_files/a/b/x.bed"]).
Proof.
  split; [exact upload_files_s3_keyed|].
  vm_compute. split; [reflexivity|]. split; [reflexivity|]. discriminate.
Qed.

Lemma add_key_from_base_name_witness :
  exists w' files',
    BedAgentBedFile.upload_files_s3 scenario.healthy
      (BedFiles.mk (Some (FileModel.mk "bed_file" "/tmp/x.bed" None None None))
         (Some (FileModel.mk "bigbed_file" "/tmp/abc123.bed" None None None)))
      scenario.local_files = (w', Ok files') /\
    option_map FileModel.path (BedFiles.bed_file files') = Some "bed_files/x/./x.bed" /\
    option_map FileModel.path (BedFiles.bigbed_file files')
    = Some "bigbed_files/a/b/abc123.bed" /\
    keyed_by_base_name BIGBED_PATH_FOLDER
      (Some (FileModel.mk "bigbed_file" "/tmp/abc123.bed" None None None))
      (BedFiles.bigbed_file files').
Proof.
  eexists. eexists. split; [vm_compute; reflexivity|].
  split; [reflexivity|]. split; [reflexivity|].
  exact (proj2 (proj1 add_key_from_base_name scenario.healthy
                  (BedFiles.mk (Some (FileModel.mk "bed_file" "/tmp/x.bed" None None None))
                     (Some (FileModel.mk "bigbed_file" "/tmp/abc123.bed" None None None)))
                  _ scenario.local_files _ eq_refl)).
Defined.

(** ** The key convention of the batch upload *)

Section path_facts.

Lemma append_cons (c : Ascii.ascii) (a b : string) :
  String c a +:+ b = String c (a +:+ b).
Proof. reflexivity. Qed.

Lemma append_assoc (a b c : string) : (a +:+ b) +:+ c = a +:+ (b +:+ c).
Proof.
  induction a as [|x a IH]; [reflexivity|].
  rewrite !append_cons, IH. reflexivity.
Qed.

Lemma append_nil_r (a : string) : a +:+ "" = a.
Proof.
  induction a as [|x a IH]; [reflexivity|].
  rewrite append_cons, IH. reflexivity.
Qed.

Lemma has_sep_append (a b : string) : has_sep (a +:+ b) = has_sep a || has_sep b.
Proof.
  induction a as [|x a IH]; [reflexivity|].
  rewrite append_cons. simpl. rewrite IH. apply orb_assoc.
Qed.

Lemma endswith_sep_append (a : string) (c : Ascii.ascii) (b : string) :
  os_path.endswith_sep (a +:+ String c b) = os_path.endswith_sep (String c b).
Proof.
  induction a as [|x a IH]; [reflexivity|].
  rewrite append_cons.
  destruct a as [|y a]; [reflexivity|].
  rewrite append_cons in *. exact IH.
Qed.

Lemma basename_from_no_sep (p pre : string) :
  has_sep pre = false ->
  has_sep (os_path.basename_from (pre +:+ p) p) = false.
Proof.
  revert pre. induction p as [|c p IH]; intros pre Hpre.
  - simpl. rewrite append_nil_r. exact Hpre.
  - simpl. destruct (os_path.is_sep c) eqn:Hc.
    + apply (IH ""). reflexivity.
    + replace (pre +:+ String c p) with ((pre +:+ String c "") +:+ p)
        by (rewrite append_assoc; reflexivity).
      apply IH. rewrite has_sep_append. simpl. rewrite Hpre, Hc. reflexivity.
Qed.

Lemma basename_no_sep (p : string) : has_sep (os_path.basename p) = false.
Proof. apply (basename_from_no_sep p ""). reflexivity. Qed.

Lemma no_sep_startswith (s : string) :
  has_sep s = false -> os_path.startswith_sep s = false.
Proof.
  destruct s as [|c s]; [reflexivity|]. simpl.
  destruct (os_path.is_sep c); [discriminate | reflexivity].
Qed.

Lemma join2_plain (path b : string) :
  path <> "" ->
  os_path.endswith_sep path = false ->
  os_path.startswith_sep b = false ->
  os_path.join2 path b = path +:+ String os_path.sep b.
Proof.
  intros Hne Hends Hstart. unfold os_path.join2. rewrite Hstart.
  destruct path as [|a path]; [congruence|].
  rewrite Hends. reflexivity.
Qed.

Lemma append_not_empty (a : string) (c : Ascii.ascii) (b : string) :
  a +:+ String c b <> "".
Proof. destruct a; discriminate. Qed.

(** With a folder that is not empty and does not end in a separator,
    and two shard characters that are not separators, [os.path.join]
    puts a single separator between the four components. *)
Lemma join_convention (folder : string) (c0 c1 : Ascii.ascii) (p : string) :
  folder <> "" ->
  os_path.endswith_sep folder = false ->
  os_path.is_sep c0 = false ->
  os_path.is_sep c1 = false ->
  os_path.join folder [String c0 ""; String c1 ""; os_path.basename p]
  = conventional_key folder (String c0 "") (String c1 "") p.
Proof.
  intros Hne Hends Hc0 Hc1. unfold os_path.join, conventional_key. simpl.
  rewrite (join2_plain folder (String c0 "")) by assumption.
  rewrite (join2_plain _ (String c1 "")).
  - rewrite (join2_plain _ (os_path.basename p)).
    + rewrite !append_assoc. reflexivity.
    + apply append_not_empty.
    + rewrite endswith_sep_append. exact Hc1.
    + apply no_sep_startswith, basename_no_sep.
  - apply append_not_empty.
  - rewrite endswith_sep_append. exact Hc0.
  - exact Hc1.
Qed.

End path_facts.

Section upload_facts.

Variables S3_FILE_PATH_FOLDER S3_PLOTS_PATH_FOLDER S3_BEDSET_PATH_FOLDER : string.
Variable get_absolute_path : gmap string Z -> string -> string -> string.
Variable self : BedBaseConfig.

Lemma upload_file_keeps_fs (c : boto3_client) (file_path key : string) (w w' : world)
    (r : result unit) :
  upload_file c file_path key w = (w', r) -> fs w' = fs w.
Proof.
  unfold upload_file. destruct (fs w !! file_path); [destruct (upload_error c key)|];
    intros H; injection H as <- _; reflexivity.
Qed.

Lemma upload_s3_keeps_fs (file_path key : string) (w w' : world) (r : result unit) :
  upload_s3 self file_path key w = (w', r) -> fs w' = fs w.
Proof.
  unfold upload_s3. destruct (_boto3_client self) as [c|].
  - destruct (fs w !! file_path).
    + apply upload_file_keeps_fs.
    + intros H; injection H as <- _; reflexivity.
  - intros H; injection H as <- _; reflexivity.
Qed.

Lemma getsize_Ok (file_path : string) (w w' : world) (n : Z) :
  getsize file_path w = (w', Ok n) -> w' = w /\ fs w !! file_path = Some n.
Proof.
  unfold getsize. destruct (fs w !! file_path); [|discriminate].
  intros H; injection H as <- <-. split; reflexivity.
Qed.

Section sharded.

Variables (folder : string) (c0 c1 : Ascii.ascii) (rest : string) (base_path : string).
Hypothesis folder_not_empty : folder <> "".
Hypothesis folder_open : os_path.endswith_sep folder = false.
Hypothesis c0_plain : os_path.is_sep c0 = false.
Hypothesis c1_plain : os_path.is_sep c1 = false.

Lemma shard_key_convention (p : string) :
  shard_key folder (String c0 (String c1 rest)) (os_path.basename p)
  = Ok (conventional_key folder (String c0 "") (String c1 "") p).
Proof.
  unfold shard_key. cbn [str_index].
  rewrite join_convention by assumption. reflexivity.
Qed.

Lemma upload_entry_convention (entry entry' : string * option FileModel.t)
    (w w' : world) :
  upload_entry get_absolute_path self folder (String c0 (String c1 rest)) base_path entry w
  = (w', Ok entry') ->
  fs w' = fs w /\
  follows_convention folder (String c0 "") (String c1 "")
    (fun p => fs w !! get_absolute_path (fs w) p base_path) entry entry'.
Proof.
  destruct entry as [key [v|]].
  - unfold upload_entry, bind, lift. rewrite shard_key_convention.
    destruct (upload_s3 self _ _ w) as [w1 [[]|]] eqn:Hup; [|discriminate].
    pose proof (upload_s3_keeps_fs _ _ _ _ _ Hup) as Hfs1.
    destruct (getsize _ w1) as [w2 [n|]] eqn:Hsize; [|discriminate].
    apply getsize_Ok in Hsize. destruct Hsize as [-> Hn].
    rewrite Hfs1 in Hn.
    cbn [FileModel.path_thumbnail FileModel.set_path FileModel.set_size].
    destruct (FileModel.path_thumbnail v) as [[|c t]|] eqn:Hthumb.
    + cbn [truthy]. unfold ret. intros H. injection H as <- <-.
      split; [exact Hfs1|]. split; [reflexivity|]. cbn.
      rewrite Hthumb. cbn. repeat split; try reflexivity. symmetry. exact Hn.
    + cbn [truthy]. rewrite shard_key_convention.
      destruct (upload_s3 self _ _ w1) as [w3 [[]|]] eqn:Hup2; [|discriminate].
      pose proof (upload_s3_keeps_fs _ _ _ _ _ Hup2) as Hfs3.
      unfold ret. intros H. injection H as <- <-.
      split; [congruence|]. split; [reflexivity|]. cbn.
      rewrite Hthumb. cbn. repeat split; try reflexivity. symmetry. exact Hn.
    + unfold ret. intros H. injection H as <- <-.
      split; [exact Hfs1|]. split; [reflexivity|]. cbn.
      rewrite Hthumb. cbn. repeat split; try reflexivity. symmetry. exact Hn.
  - unfold upload_entry, ret. intros H. injection H as <- <-.
    split; [reflexivity|]. split; [reflexivity|]. exact I.
Qed.

Lemma upload_entries_convention (files files' : file_fields) (w w' : world) :
  for_update files (upload_entry get_absolute_path self folder (String c0 (String c1 rest)) base_path) w
  = (w', Ok files') ->
  Forall2 (follows_convention folder (String c0 "") (String c1 "")
             (fun p => fs w !! get_absolute_path (fs w) p base_path)) files files'.
Proof.
  revert files' w w'. induction files as [|entry files IH]; intros files' w w'.
  - simpl. unfold ret. intros H. injection H as _ <-. constructor.
  - simpl. unfold bind at 1.
    destruct (upload_entry _ _ _ _ _ entry w) as [w1 [entry'|]] eqn:Hentry; [|discriminate].
    apply upload_entry_convention in Hentry. destruct Hentry as [Hfs Hconv].
    unfold bind.
    destruct (for_update files _ w1) as [w2 [rest'|]] eqn:Hrest; [|discriminate].
    unfold ret. intros H. injection H as _ <-.
    constructor; [exact Hconv|].
    apply IH in Hrest. rewrite Hfs in Hrest. exact Hrest.
Qed.

End sharded.

End upload_facts.

(** * Further properties *)

(** ** Single uploads and deletions *)

Section single_request_facts.

Variable self : BedBaseConfig.

Lemma upload_s3_Ok_inv (file_path s3_path : string) (w w' : world) :
  upload_s3 self file_path s3_path w = (w', Ok tt) ->
  exists n,
    fs w !! file_path = Some n /\
    s3 w' = <[s3_path := n]> (s3 w) /\
    s3_calls w' = (s3_calls w ++ [upload_file_call file_path s3_path])%list /\
    fs w' = fs w.
Proof.
  unfold upload_s3. destruct (_boto3_client self) as [client|]; [|discriminate].
  destruct (fs w !! file_path) as [n|] eqn:Hfile; [|discriminate].
  unfold upload_file. rewrite Hfile.
  destruct (upload_error client s3_path); [discriminate|].
  intros H. injection H as <-. exists n. repeat split; reflexivity.
Qed.

(** X1.  A successful [upload_s3] found the local file, stored its
    size under the key, sent exactly one request and changed nothing
    else in the bucket or on the local disk. *)
Theorem upload_s3_stores_size (file_path s3_path : string) (w w' : world) :
  upload_s3 self file_path s3_path w = (w', Ok tt) ->
  exists n,
    fs w !! file_path = Some n /\
    s3 w' = <[s3_path := n]> (s3 w) /\
    s3_calls w' = (s3_calls w ++ [upload_file_call file_path s3_path])%list /\
    fs w' = fs w.
Proof. apply upload_s3_Ok_inv. Qed.

(** X2.  A failed [upload_s3] leaves the bucket as it was.  Without
    a client the error is the connection error and no request is sent;
    with a client and no local file the error names the file and the
    world is untouched. *)
Theorem upload_s3_failure_keeps_bucket (file_path s3_path : string) (w w' : world) (e : exn) :
  upload_s3 self file_path s3_path w = (w', Raise e) ->
  s3 w' = s3 w /\ fs w' = fs w /\
  (_boto3_client self = None ->
   e = BedbaseS3ConnectionError "Could not upload file to s3. Connection error." /\
   s3_calls w' = s3_calls w) /\
  (is_Some (_boto3_client self) -> fs w !! file_path = None ->
   e = BedBaseConfError ("File " +:+ file_path +:+ " does not exist.") /\ w' = w).
Proof.
  unfold upload_s3. destruct (_boto3_client self) as [client|].
  - destruct (fs w !! file_path) as [n|] eqn:Hfile.
    + unfold upload_file. rewrite Hfile.
      destruct (upload_error client s3_path); [|discriminate].
      intros H. injection H as <- <-.
      split; [reflexivity|]. split; [reflexivity|]. split.
      * discriminate.
      * intros _ Hnone. discriminate Hnone.
    + intros H. injection H as <- <-.
      split; [reflexivity|]. split; [reflexivity|]. split.
      * discriminate.
      * intros _ _. split; reflexivity.
  - intros H. injection H as <- <-.
    split; [reflexivity|]. split; [reflexivity|]. split.
    + intros _. split; reflexivity.
    + intros [c Hc]. discriminate Hc.
Qed.

(** X3.  Uploading a file and then deleting its key leaves the bucket
    without the key and otherwise as it was before the upload. *)
Theorem upload_then_delete (file_path s3_path : string) (w w1 w2 : world) :
  upload_s3 self file_path s3_path w = (w1, Ok tt) ->
  delete_s3 self s3_path w1 = (w2, Ok tt) ->
  s3 w2 = delete s3_path (s3 w) /\
  s3_calls w2
  = (s3_calls w ++ [upload_file_call file_path s3_path; delete_object_call s3_path])%list.
Proof.
  intros Hup Hdel.
  destruct (upload_s3_Ok_inv _ _ _ _ Hup) as (n & _ & Hs3 & Hcalls & _).
  revert Hdel. unfold delete_s3. destruct (_boto3_client self) as [client|]; [|discriminate].
  unfold delete_object. destruct (delete_error client s3_path); [discriminate|].
  intros H. injection H as <-. simpl. rewrite Hs3, Hcalls.
  split.
  - apply delete_insert_eq.
  - rewrite <- app_assoc. reflexivity.
Qed.

End single_request_facts.

Lemma upload_s3_stores_size_witness :
  exists n,
    fs scenario.local_files !! "/tmp/x.bed" = Some n /\
    s3 (fst (upload_s3 scenario.healthy "/tmp/x.bed" "k" scenario.local_files))
    = <["k" := n]> (s3 scenario.local_files).
Proof.
  destruct (upload_s3_stores_size scenario.healthy "/tmp/x.bed" "k" scenario.local_files
              (fst (upload_s3 scenario.healthy "/tmp/x.bed" "k" scenario.local_files)))
    as (n & Hn & Hs3 & _).
  - vm_compute. reflexivity.
  - exists n. split; [exact Hn | exact Hs3].
Defined.

Lemma upload_s3_failure_witness :
  s3 (fst (upload_s3 scenario.disconnected "/tmp/x.bed" "k" scenario.local_files))
  = s3 scenario.local_files.
Proof.
  refine (proj1 (upload_s3_failure_keeps_bucket scenario.disconnected "/tmp/x.bed" "k"
                   scenario.local_files _ _ _)).
  vm_compute. reflexivity.
Defined.

Lemma upload_then_delete_witness :
  exists w2,
    s3 w2 = delete "k" (s3 scenario.local_files) /\
    s3_calls w2 = [upload_file_call "/tmp/x.bed" "k"; delete_object_call "k"].
Proof.
  eexists. 
  refine (upload_then_delete scenario.healthy "/tmp/x.bed" "k" scenario.local_files
            (fst (upload_s3 scenario.healthy "/tmp/x.bed" "k" scenario.local_files))
            (fst (delete_s3 scenario.healthy "k"
                    (fst (upload_s3 scenario.healthy "/tmp/x.bed" "k" scenario.local_files))))
            _ _).
  - vm_compute. reflexivity.
  - vm_compute. reflexivity.
Defined.

(** ** Batch upload: edges, what it keeps, when it succeeds *)

Section batch_upload_facts.

Variables S3_FILE_PATH_FOLDER S3_PLOTS_PATH_FOLDER S3_BEDSET_PATH_FOLDER : string.
Variable get_absolute_path : gmap string Z -> string -> string -> string.
Variable self : BedBaseConfig.

Local Abbreviation batch :=
  (upload_files_s3 S3_FILE_PATH_FOLDER S3_PLOTS_PATH_FOLDER S3_BEDSET_PATH_FOLDER
     get_absolute_path self).

Local Abbreviation entry_step := (upload_entry get_absolute_path self).

(** X4.  A type other than [files], [plots] or [bedsets] is refused
    before anything is uploaded, whatever the descriptors are. *)
Theorem upload_files_s3_invalid_type (identifier : string) (files : file_fields)
    (base_path type : string) (w : world) :
  type <> "files" -> type <> "plots" -> type <> "bedsets" ->
  batch identifier files base_path type w
  = (w, Raise (BedBaseConfError
                 ("Invalid type: " +:+ type +:+ ". Should be 'files' or 'plots'"))).
Proof.
  intros Hf Hp Hb.
  unfold upload_files_s3, output_base_folder, bind, lift.
  apply String.eqb_neq in Hf, Hp, Hb. rewrite Hf, Hp, Hb. reflexivity.
Qed.

Lemma short_identifier_IndexError (folder identifier base_name : string) :
  String.length identifier < 2 ->
  shard_key folder identifier base_name = Raise IndexError.
Proof.
  destruct identifier as [|c0 [|c1 rest]]; simpl; intros Hlen;
    [reflexivity | reflexivity | lia].
Qed.

Lemma skip_empty_entries (folder identifier base_path : string) (nones : file_fields)
    (w : world) :
  Forall (fun entry => snd entry = None) nones ->
  for_update nones (entry_step folder identifier base_path) w = (w, Ok nones).
Proof.
  induction 1 as [|[key value] nones Hnone _ IH]; [reflexivity|].
  simpl in Hnone. subst value. simpl. unfold bind at 1. simpl.
  unfold bind. rewrite IH. reflexivity.
Qed.

Lemma for_update_app {A} (l1 l2 : list A) (body : A -> M A) (w w1 : world) (r1 : list A) :
  for_update l1 body w = (w1, Ok r1) ->
  for_update (l1 ++ l2) body w
  = (ys <- for_update l2 body ;; ret (r1 ++ ys)%list) w1.
Proof.
  revert w r1. induction l1 as [|x l1 IH]; intros w r1; simpl.
  - unfold ret. intros H. injection H as <- <-. unfold bind.
    destruct (for_update l2 body w) as [w2 [ys|e]]; reflexivity.
  - intros H. unfold bind in H |- *.
    destruct (body x w) as [w0 [y|e]]; [|discriminate].
    destruct (for_update l1 body w0) as [w2 [ys|e]] eqn:Hrest; [|discriminate].
    unfold ret in H. injection H as <- <-.
    rewrite (IH _ _ Hrest). unfold bind.
    destruct (for_update l2 body w2) as [w3 [zs|e]]; reflexivity.
Qed.

(** X5.  With an identifier of fewer than two characters the batch
    upload of a model that has a descriptor raises [IndexError] at the
    first descriptor, before any request is sent; a model whose fields
    are all empty is returned as it is, the world untouched, whatever
    the identifier. *)
Theorem upload_files_s3_short_identifier (identifier : string)
    (nones rest : file_fields) (key : string) (value : FileModel.t)
    (base_path type folder : string) (w : world) :
  output_base_folder S3_FILE_PATH_FOLDER S3_PLOTS_PATH_FOLDER S3_BEDSET_PATH_FOLDER type
  = Ok folder ->
  Forall (fun entry => snd entry = None) nones ->
  batch identifier nones base_path type w = (w, Ok nones) /\
  (String.length identifier < 2 ->
   batch identifier (nones ++ (key, Some value) :: rest)%list base_path type w
   = (w, Raise IndexError)).
Proof.
  intros Hfolder Hnones. unfold upload_files_s3, bind, lift. rewrite Hfolder.
  split.
  - apply skip_empty_entries. exact Hnones.
  - intros Hshort.
    rewrite (for_update_app _ _ _ _ _ _ (skip_empty_entries _ _ _ _ _ Hnones)).
    unfold bind. simpl. unfold bind, lift.
    rewrite short_identifier_IndexError by exact Hshort. reflexivity.
Qed.

(** What one turn of the loop keeps of a descriptor, whatever the
    identifier is. *)
Lemma upload_entry_keeps (folder identifier base_path : string)
    (entry entry' : string * option FileModel.t) (w w' : world) :
  entry_step folder identifier base_path entry w = (w', Ok entry') ->
  fs w' = fs w /\
  fst entry' = fst entry /\
  match snd entry, snd entry' with
  | None, None => True
  | Some v, Some v' =>
      FileModel.name v' = FileModel.name v /\
      FileModel.description v' = FileModel.description v /\
      FileModel.size v' = fs w !! get_absolute_path (fs w) (FileModel.path v) base_path /\
      is_Some (FileModel.size v') /\
      (is_Some (FileModel.path_thumbnail v') <-> is_Some (FileModel.path_thumbnail v))
  | _, _ => False
  end.
Proof.
  destruct entry as [key [v|]].
  - unfold upload_entry, bind, lift.
    destruct (shard_key folder identifier _) as [s3_path|]; [|discriminate].
    destruct (upload_s3 self _ _ w) as [w1 [[]|]] eqn:Hup; [|discriminate].
    pose proof (upload_s3_keeps_fs _ _ _ _ _ _ Hup) as Hfs1.
    destruct (getsize _ w1) as [w2 [n|]] eqn:Hsize; [|discriminate].
    apply getsize_Ok in Hsize. destruct Hsize as [-> Hn]. rewrite Hfs1 in Hn.
    cbn [FileModel.path_thumbnail FileModel.set_path FileModel.set_size].
    destruct (FileModel.path_thumbnail v) as [[|c t]|] eqn:Hthumb.
    + cbn [truthy]. unfold ret. intros H. injection H as <- <-.
      split; [exact Hfs1|]. split; [reflexivity|]. cbn. rewrite Hthumb, Hn.
      repeat split; eauto.
    + cbn [truthy].
      destruct (shard_key folder identifier _) as [s3_path_thumbnail|]; [|discriminate].
      destruct (upload_s3 self _ _ w1) as [w3 [[]|]] eqn:Hup2; [|discriminate].
      pose proof (upload_s3_keeps_fs _ _ _ _ _ _ Hup2) as Hfs3.
      unfold ret. intros H. injection H as <- <-.
      split; [congruence|]. split; [reflexivity|]. cbn. rewrite Hthumb, Hn.
      repeat split; eauto.
    + unfold ret. intros H. injection H as <- <-.
      split; [exact Hfs1|]. split; [reflexivity|]. cbn. rewrite Hthumb, Hn.
      repeat split; eauto.
  - unfold upload_entry, ret. intros H. injection H as <- <-.
    split; [reflexivity|]. split; [reflexivity|]. exact I.
Qed.

(** X6.  Whatever the identifier, a batch upload that returns has
    kept the fields of the model and the name and description of every
    descriptor; every descriptor that was present has been given the
    size of its local file, and the local disk is unchanged. *)
Theorem upload_files_s3_keeps_fields (identifier : string) (files files' : file_fields)
    (base_path type : string) (w w' : world) :
  batch identifier files base_path type w = (w', Ok files') ->
  fs w' = fs w /\
  map fst files' = map fst files /\
  Forall2 (fun entry entry' =>
             match snd entry, snd entry' with
             | None, None => True
             | Some v, Some v' =>
                 FileModel.name v' = FileModel.name v /\
                 FileModel.description v' = FileModel.description v /\
                 FileModel.size v'
                 = fs w !! get_absolute_path (fs w) (FileModel.path v) base_path /\
                 is_Some (FileModel.size v')
             | _, _ => False
             end) files files'.
Proof.
  unfold upload_files_s3, bind, lift.
  destruct (output_base_folder _ _ _ type) as [folder|]; [|discriminate].
  revert files' w w'. induction files as [|entry files IH]; intros files' w w'.
  - simpl. unfold ret. intros H. injection H as <- <-.
    split; [reflexivity|]. split; [reflexivity|]. constructor.
  - simpl. unfold bind at 1.
    destruct (entry_step folder identifier base_path entry w) as [w1 [entry'|]] eqn:Hentry;
      [|discriminate].
    apply upload_entry_keeps in Hentry. destruct Hentry as (Hfs & Hkey & Hkept).
    unfold bind.
    destruct (for_update files _ w1) as [w2 [rest'|]] eqn:Hrest; [|discriminate].
    unfold ret. intros H. injection H as <- <-.
    destruct (IH _ _ _ Hrest) as (Hfs2 & Hkeys & Hall).
    split; [congruence|]. split; [simpl; congruence|].
    constructor.
    + destruct (snd entry), (snd entry'); try exact Hkept. 
      destruct Hkept as (? & ? & ? & ? & _). repeat split; assumption.
    + rewrite Hfs in Hall. exact Hall.
Qed.

(** X7.  With a connected client that refuses no upload, an
    identifier of at least two characters, a known type and every local
    file in place (the path of each descriptor, and its thumbnail when
    it has one), the batch upload returns. *)
Theorem upload_files_s3_succeeds (client : boto3_client) (identifier : string)
    (files : file_fields) (base_path type folder : string) (w : world) :
  _boto3_client self = Some client ->
  (forall key, upload_error client key = None) ->
  2 <= String.length identifier ->
  output_base_folder S3_FILE_PATH_FOLDER S3_PLOTS_PATH_FOLDER S3_BEDSET_PATH_FOLDER type
  = Ok folder ->
  Forall (fun entry =>
            Forall (fun p => is_Some (fs w !! p))
              (local_sources get_absolute_path (fs w) base_path entry)) files ->
  exists w' files',
    batch identifier files base_path type w = (w', Ok files') /\
    length files' = length files.
Proof.
  intros Hclient Hreliable Hlen Hfolder Hlocal.
  unfold upload_files_s3, bind, lift. rewrite Hfolder.
  assert (Hkey : forall base_name, exists key,
             shard_key folder identifier base_name = Ok key).
  { intros base_name. destruct identifier as [|c0 [|c1 rest]]; simpl in Hlen; try lia.
    eexists. reflexivity. }
  assert (Hput : forall p key w0, is_Some (fs w0 !! p) ->
             exists w1, upload_s3 self p key w0 = (w1, Ok tt)).
  { intros p key w0 [n Hn]. unfold upload_s3, upload_file. rewrite Hclient, Hn, Hreliable.
    eexists. reflexivity. }
  revert w Hlocal. induction files as [|[key value] files IH]; intros w Hlocal.
  - exists w, []. split; reflexivity.
  - inversion Hlocal as [|? ? Hentry Hrest]; subst.
    assert (Hstep : exists w1 entry',
               entry_step folder identifier base_path (key, value) w = (w1, Ok entry')).
    { destruct value as [v|]; [|eexists; eexists; reflexivity].
      unfold local_sources in Hentry. cbn [snd] in Hentry.
      inversion Hentry as [|? ? Hmain Hthumb]; subst.
      unfold upload_entry, bind, lift.
      destruct (Hkey (os_path.basename (FileModel.path v))) as [s3_path ->].
      destruct (Hput _ s3_path w Hmain) as [w1 Hup]. rewrite Hup.
      pose proof (upload_s3_keeps_fs _ _ _ _ _ _ Hup) as Hfs1.
      unfold getsize. rewrite Hfs1. destruct Hmain as [n Hn]. rewrite Hn.
      cbn [FileModel.path_thumbnail FileModel.set_path FileModel.set_size].
      destruct (FileModel.path_thumbnail v) as [[|c t]|]; cbn [truthy] in *;
        try (eexists; eexists; reflexivity).
      inversion Hthumb as [|? ? Hthumb' _]; subst.
      destruct (Hkey (os_path.basename (String c t))) as [s3_thumb ->].
      rewrite <- Hfs1 in Hthumb'.
      destruct (Hput _ s3_thumb w1 Hthumb') as [w3 Hup2]. rewrite Hup2.
      eexists; eexists; reflexivity. }
    destruct Hstep as (w1 & entry' & Hstep).
    pose proof (upload_entry_keeps _ _ _ _ _ _ _ Hstep) as (Hfs & _).
    rewrite <- Hfs in Hrest.
    destruct (IH w1 Hrest) as (w2 & rest' & Hloop & Hlength).
    exists w2, (entry' :: rest'). split; [|simpl; congruence].
    cbn [for_update]. unfold bind. rewrite Hstep, Hloop. reflexivity.
Qed.

End batch_upload_facts.

Lemma upload_files_s3_invalid_type_witness :
  snd (scenario.batch_upload "abc123" scenario.x_bed "/tmp" "images" scenario.local_files)
  = Raise (BedBaseConfError "Invalid type: images. Should be 'files' or 'plots'").
Proof.
  unfold scenario.batch_upload.
  rewrite (upload_files_s3_invalid_type "files" "plots" "bedsets" (fun _ p _ => p)
             scenario.healthy "abc123" scenario.x_bed "/tmp" "images" scenario.local_files);
    [reflexivity | discriminate | discriminate | discriminate].
Defined.

Lemma upload_files_s3_short_identifier_witness :
  scenario.batch_upload "a" [("bigbed_file", None)] "/tmp" "files" scenario.local_files
  = (scenario.local_files, Ok [("bigbed_file", None)]) /\
  scenario.batch_upload "a"
    [("bigbed_file", None);
     ("bed_file", Some (FileModel.mk "bed_file" "/tmp/x.bed" None None None))]
    "/tmp" "files" scenario.local_files
  = (scenario.local_files, Raise IndexError).
Proof.
  destruct (upload_files_s3_short_identifier "files" "plots" "bedsets" (fun _ p _ => p)
              scenario.healthy "a" [("bigbed_file", None)] [] "bed_file"
              (FileModel.mk "bed_file" "/tmp/x.bed" None None None)
              "/tmp" "files" "files" scenario.local_files eq_refl)
    as [Hnone Hshort].
  - repeat constructor.
  - split; [exact Hnone | apply Hshort; simpl; lia].
Defined.

Lemma upload_files_s3_keeps_fields_witness :
  exists files',
    snd (scenario.batch_upload "abc123" scenario.x_bed "/tmp" "files" scenario.local_files)
    = Ok files' /\
    map fst files' = ["bed_file"; "bigbed_file"].
Proof.
  pose (out := scenario.batch_upload "abc123" scenario.x_bed "/tmp" "files"
                 scenario.local_files).
  assert (Hout : out = (fst out,
                        Ok [("bed_file",
                             Some (FileModel.mk "bed_file" "files/a/b/x.bed" None None
                                     (Some 10%Z)));
                            ("bigbed_file", None)])).
  { vm_compute. reflexivity. }
  eexists. split; [exact (f_equal snd Hout)|].
  exact (proj1 (proj2 (upload_files_s3_keeps_fields "files" "plots" "bedsets"
                         (fun _ p _ => p) scenario.healthy "abc123" scenario.x_bed _
                         "/tmp" "files" scenario.local_files (fst out) Hout))).
Defined.

Lemma upload_files_s3_succeeds_witness :
  exists w' files',
    scenario.batch_upload "abc123" scenario.x_bed "/tmp" "files" scenario.local_files
    = (w', Ok files') /\
    length files' = 2.
Proof.
  apply (upload_files_s3_succeeds "files" "plots" "bedsets" (fun _ p _ => p)
           scenario.healthy scenario.reliable_client "abc123" scenario.x_bed
           "/tmp" "files" "files" scenario.local_files).
  - reflexivity.
  - reflexivity.
  - simpl. lia.
  - reflexivity.
  - repeat constructor. vm_compute. eauto.
Defined.

(** ** Batch deletion: what is left in the bucket *)

Section batch_delete_facts.

Variable self : BedBaseConfig.

Lemma delete_keys_removed (client : boto3_client) (keys : list string) (w w' : world) :
  _boto3_client self = Some client ->
  for_each keys (delete_s3 self) w = (w', Ok tt) ->
  forall key : string,
    s3 w' !! key = if bool_decide (key ∈ keys) then None else s3 w !! key.
Proof.
  intros Hclient. revert w. induction keys as [|k keys IH]; intros w.
  - cbn [for_each]. unfold ret. intros H. injection H as <-. intros key.
    case_bool_decide as Hin; [apply elem_of_nil in Hin; destruct Hin | reflexivity].
  - cbn [for_each]. unfold bind. rewrite (delete_s3_connected self client Hclient).
    unfold delete_object. destruct (delete_error client k); [discriminate|].
    intros Hrest key. rewrite (IH _ Hrest key). cbn [s3 with_s3].
    case_bool_decide as Hrest_in; case_bool_decide as Hall_in;
      rewrite elem_of_cons in Hall_in.
    + reflexivity.
    + exfalso. tauto.
    + destruct Hall_in as [->|Hin]; [apply lookup_delete_eq | contradiction].
    + apply lookup_delete_ne. intros ->. tauto.
Qed.

(** X8.  After a batch deletion that returns, none of the requested
    keys (the path of each descriptor and its thumbnail when present) is
    left in the bucket, and every other key is as it was. *)
Theorem delete_files_s3_removes_targets (client : boto3_client)
    (files : list FileModel.t) (w w' : world) :
  _boto3_client self = Some client ->
  delete_files_s3 self files w = (w', Ok tt) ->
  (forall key, In key (delete_targets files) -> s3 w' !! key = None) /\
  (forall key, ~ In key (delete_targets files) -> s3 w' !! key = s3 w !! key).
Proof.
  intros Hclient Hdone.
  rewrite (delete_files_s3_targets self) in Hdone.
  pose proof (delete_keys_removed client _ _ _ Hclient Hdone) as Hkeys.
  split; intros key Hkey; rewrite Hkeys.
  - rewrite bool_decide_eq_true_2 by (apply list_elem_of_In; exact Hkey). reflexivity.
  - rewrite bool_decide_eq_false_2 by (rewrite list_elem_of_In; exact Hkey). reflexivity.
Qed.

(** X9.  Without a client, a batch deletion of no descriptors
    returns and does nothing; with at least one descriptor it raises the
    connection error at the first one, having logged one warning and
    sent no request. *)
Theorem delete_files_s3_without_client (file : FileModel.t) (files : list FileModel.t)
    (w : world) :
  _boto3_client self = None ->
  delete_files_s3 self [] w = (w, Ok tt) /\
  delete_files_s3 self (file :: files) w
  = (logger WARNING
       "Could not delete file from s3. Connection to s3 not established. Skipping.." w,
     Raise (BedbaseS3ConnectionError "Could not delete file from s3. Connection error.")).
Proof.
  intros Hnone. split; [reflexivity|].
  unfold delete_files_s3. simpl. unfold bind at 1 2. unfold delete_s3. rewrite Hnone.
  reflexivity.
Qed.

End batch_delete_facts.

Lemma delete_files_s3_removes_targets_witness :
  let w := fst (upload_s3 scenario.healthy "/tmp/x.bed" "a.bed" scenario.local_files) in
  s3 w !! "a.bed" = Some 10%Z /\
  s3 (fst (delete_files_s3 scenario.healthy scenario.two_files w)) !! "a.bed" = None.
Proof.
  intros w. split; [reflexivity|].
  refine (proj1 (delete_files_s3_removes_targets scenario.healthy scenario.reliable_client
                   scenario.two_files w _ eq_refl _) "a.bed" _).
  - vm_compute. reflexivity.
  - left. reflexivity.
Defined.

Lemma delete_files_s3_without_client_witness :
  snd (delete_files_s3 scenario.disconnected scenario.two_files scenario.empty_world)
  = Raise (BedbaseS3ConnectionError "Could not delete file from s3. Connection error.") /\
  s3_calls (fst (delete_files_s3 scenario.disconnected scenario.two_files
                   scenario.empty_world)) = [].
Proof.
  destruct (delete_files_s3_without_client scenario.disconnected
              (FileModel.mk "a" "a.bed" (Some "a.png") None None)
              [FileModel.mk "b" "b.bed" None None None] scenario.empty_world eq_refl)
    as [_ Hfail].
  change (FileModel.mk "a" "a.bed" (Some "a.png") None None
          :: [FileModel.mk "b" "b.bed" None None None]) with scenario.two_files in Hfail.
  rewrite Hfail. split; reflexivity.
Defined.

(** ** The base name of a remote key *)

Lemma basename_from_after_sep (a b cand : string) :
  os_path.basename_from cand (a +:+ String os_path.sep b) = os_path.basename_from b b.
Proof.
  revert cand. induction a as [|c a IH]; intros cand.
  - reflexivity.
  - rewrite append_cons. simpl. destruct (os_path.is_sep c); apply IH.
Qed.

Lemma basename_from_plain (b cand : string) :
  has_sep b = false -> os_path.basename_from cand b = cand.
Proof.
  revert cand. induction b as [|c b IH]; intros cand; simpl; [reflexivity|].
  destruct (os_path.is_sep c); [discriminate|]. apply IH.
Qed.

Lemma basename_after_sep (a b : string) :
  has_sep b = false -> os_path.basename (a +:+ String os_path.sep b) = b.
Proof.
  intros Hb. unfold os_path.basename.
  rewrite basename_from_after_sep. apply basename_from_plain. exact Hb.
Qed.

Lemma endswith_sep_split (path : string) :
  os_path.endswith_sep path = true -> exists a, path = a +:+ String os_path.sep "".
Proof.
  induction path as [|c path IH]; [discriminate|].
  destruct path as [|c' path].
  - simpl. intros Hc. exists "". unfold os_path.is_sep in Hc.
    apply Ascii.eqb_eq in Hc. subst c. reflexivity.
  - intros Hends. destruct (IH Hends) as [a Ha]. exists (String c a).
    rewrite append_cons, <- Ha. reflexivity.
Qed.

Lemma basename_join2 (path b : string) :
  has_sep b = false -> os_path.basename (os_path.join2 path b) = b.
Proof.
  intros Hb. unfold os_path.join2.
  destruct (os_path.startswith_sep b).
  - apply basename_from_plain. exact Hb.
  - destruct path as [|c path].
    + apply basename_from_plain. exact Hb.
    + destruct (os_path.endswith_sep (String c path)) eqn:Hends.
      * destruct (endswith_sep_split _ Hends) as [a ->].
        rewrite append_assoc. apply basename_after_sep. exact Hb.
      * apply basename_after_sep. exact Hb.
Qed.

(** X10.  The base name of a remote key is the base name of the local
    path it was built from, for the sharded keys of both uploaders
    (whatever the folder and the identifier are) and for the keys of
    plots. *)
Theorem remote_key_keeps_basename (folder identifier p key : string) :
  shard_key folder identifier (os_path.basename p) = Ok key ->
  os_path.basename key = os_path.basename p /\
  os_path.basename (plot_key identifier p) = os_path.basename p.
Proof.
  intros Hkey. split.
  - unfold shard_key in Hkey.
    destruct (str_index identifier 0) as [c0|]; [|discriminate].
    destruct (str_index identifier 1) as [c1|]; [|discriminate].
    injection Hkey as <-. unfold os_path.join. simpl.
    apply basename_join2, basename_no_sep.
  - unfold plot_key, os_path.join. simpl. apply basename_join2, basename_no_sep.
Qed.

Lemma remote_key_keeps_basename_witness :
  os_path.basename "/b/x.bed" = os_path.basename "/tmp/x.bed" /\
  os_path.basename (plot_key "/bc" "/tmp/x.bed") = os_path.basename "/tmp/x.bed".
Proof.
  apply (remote_key_keeps_basename "files" "/bc" "/tmp/x.bed" "/b/x.bed").
  reflexivity.
Defined.

(** ** The readers *)

Lemma bind_run {A B} (m : M A) (k : A -> M B) (w : world) :
  (x <- m ;; k x) w
  = match m w with
    | (w', Ok a) => k a w'
    | (w', Raise e) => (w', Raise e)
    end.
Proof. reflexivity. Qed.

Ltac run := rewrite bind_run; cbv beta iota.

Section reader_facts.

Variable BedPlots_fields : list string.
Variables BedStats BedPEPHub BedClassification : kwargs -> result kwargs.
Variable config : BedBaseConfig.

Local Abbreviation get :=
  (BedAgentBedFile.get BedPlots_fields BedStats BedPEPHub BedClassification config).
Local Abbreviation get_stats := (BedAgentBedFile.get_stats BedStats).
Local Abbreviation get_classification :=
  (BedAgentBedFile.get_classification BedClassification).
Local Abbreviation get_plots := (BedAgentBedFile.get_plots BedPlots_fields).
Local Abbreviation get_raw_metadata := (BedAgentBedFile.get_raw_metadata BedPEPHub config).

(** X11.  For an identifier without a row, each of the five narrower
    readers that query the [Bed] table fails like [get]: with
    [AttributeError], the world untouched. *)
Theorem narrow_readers_absent (identifier : string) (w : world) :
  bed w !! identifier = None ->
  get_stats identifier w = (w, Raise AttributeError) /\
  get_plots identifier w = (w, Raise AttributeError) /\
  BedAgentBedFile.get_files identifier w = (w, Raise AttributeError) /\
  get_classification identifier w = (w, Raise AttributeError) /\
  BedAgentBedFile.get_objects identifier w = (w, Raise AttributeError).
Proof.
  intros Habsent.
  unfold BedAgentBedFile.get_stats, BedAgentBedFile.get_plots, BedAgentBedFile.get_files,
    BedAgentBedFile.get_classification, BedAgentBedFile.get_objects, bind.
  rewrite Habsent. repeat split; reflexivity.
Qed.

(** The document that the metadata lookup ends with: the stored
    sample, or the empty document when there is no client or no sample. *)
Lemma fetch_or_empty (identifier : string) (w : world) :
  exists w',
    try_except (BedAgentBedFile.fetch_metadata config identifier) (fun _ => true)
      (fun e => tell WARNING "Could not retrieve metadata from pephub." ;;; ret []) w
    = (w', Ok match _phc config with
              | Some _ => default [] (pephub w !! identifier)
              | None => []
              end) /\
    stores w' = stores w.
Proof.
  unfold try_except, BedAgentBedFile.fetch_metadata, sample_get, raise, bind, tell, ret.
  destruct (_phc config) as [client|].
  - destruct (pephub w !! identifier) as [doc|]; eexists; split; reflexivity.
  - eexists; split; reflexivity.
Qed.

Lemma get_raw_metadata_run (identifier : string) (w : world) :
  snd (get_raw_metadata identifier w)
  = BedPEPHub match _phc config with
              | Some _ => default [] (pephub w !! identifier)
              | None => []
              end /\
  stores (fst (get_raw_metadata identifier w)) = stores w.
Proof.
  unfold BedAgentBedFile.get_raw_metadata. rewrite bind_run.
  destruct (fetch_or_empty identifier w) as (w' & -> & Hstores).
  unfold lift. destruct (BedPEPHub _); split; simpl; auto.
Qed.

(** X12.  [get_raw_metadata] never fails because of the lookup: its
    answer is the metadata model built from the stored sample, and from
    the empty document when the client is missing or the sample does not
    exist; no store is touched. *)
Theorem get_raw_metadata_swallows_lookup_failure (identifier : string) (w : world) :
  snd (get_raw_metadata identifier w)
  = BedPEPHub match _phc config with
              | Some _ => default [] (pephub w !! identifier)
              | None => []
              end /\
  stores (fst (get_raw_metadata identifier w)) = stores w.
Proof. apply get_raw_metadata_run. Qed.

Lemma drop_sizes_setattr (m : file_fields) (key : string) (f : FileModel.t) :
  drop_sizes (setattr m key (Some f)) = setattr (drop_sizes m) key (Some (drop_size f)).
Proof.
  induction m as [|[k v] m IH]; [reflexivity|].
  simpl. destruct (String.eqb k key); simpl; [reflexivity|].
  f_equal. exact IH.
Qed.

Lemma setattr_keys (m : file_fields) (key : string) (v : option FileModel.t) :
  map fst (setattr m key v) = map fst m.
Proof.
  induction m as [|[k old] m IH]; [reflexivity|].
  simpl. destruct (String.eqb k key); simpl; [reflexivity|]. f_equal. exact IH.
Qed.

Lemma place_plot_eq (m : file_fields) (row : Files.t) :
  BedAgentBedFile.place_plot BedPlots_fields m row
  = if in_fields (Files.name row) BedPlots_fields
    then setattr m (Files.name row)
           (Some (FileModel.mk (Files.name row) (Files.path row)
                    (Files.path_thumbnail row) (Files.description row) None))
    else m.
Proof. reflexivity. Qed.

Lemma place_file_eq (f : BedFiles.t) (row : Files.t) :
  BedAgentBedFile.place_file f row
  = if in_fields (Files.name row) BedFiles.model_fields
    then BedFiles.setattr f (Files.name row)
           (Some (FileModel.mk (Files.name row) (Files.path row) None
                    (Files.description row) None))
    else f.
Proof. reflexivity. Qed.

(** The loop of [get] never raises and only writes to the log; without
    their sizes, its plots are those that the loop of [get_plots]
    collects, and so are its files when no file field is a plot field. *)
Lemma place_all_spec (rows : list Files.t) (acc : file_fields * BedFiles.t) (w : world) :
  exists w' acc',
    BedAgentBedFile.place_all BedPlots_fields rows acc w = (w', Ok acc') /\
    stores w' = stores w /\
    map fst (fst acc') = map fst (fst acc) /\
    drop_sizes (fst acc')
    = foldl (BedAgentBedFile.place_plot BedPlots_fields) (drop_sizes (fst acc)) rows /\
    ((forall name, in_fields name BedFiles.model_fields = true ->
                   in_fields name BedPlots_fields = false) ->
     drop_sizes_files (snd acc')
     = foldl BedAgentBedFile.place_file (drop_sizes_files (snd acc)) rows).
Proof.
  revert acc w. induction rows as [|row rows IH]; intros [bed_plots bed_files] w.
  - exists w, (bed_plots, bed_files). repeat split; reflexivity.
  - cbn [BedAgentBedFile.place_all]. unfold bind, BedAgentBedFile.place.
    destruct (in_fields (Files.name row) BedPlots_fields) eqn:Hplot.
    + unfold ret.
      destruct (IH (setattr bed_plots (Files.name row)
                      (Some (FileModel.mk (Files.name row) (Files.path row)
                               (Files.path_thumbnail row) (Files.description row)
                               (Files.size row))), bed_files) w)
        as (w' & acc' & -> & Hstores & Hkeys & Hplots & Hfiles).
      exists w', acc'. split; [reflexivity|]. split; [exact Hstores|].
      cbn [fst snd] in *. split; [rewrite Hkeys; apply setattr_keys|]. split.
      * rewrite Hplots, drop_sizes_setattr. cbn [foldl].
        rewrite place_plot_eq, Hplot. reflexivity.
      * intros Hdisjoint. rewrite (Hfiles Hdisjoint). cbn [foldl].
        rewrite place_file_eq.
        destruct (in_fields (Files.name row) BedFiles.model_fields) eqn:Hfile;
          [|reflexivity].
        rewrite (Hdisjoint _ Hfile) in Hplot. discriminate Hplot.
    + destruct (in_fields (Files.name row) BedFiles.model_fields) eqn:Hfile.
      * unfold ret.
        destruct (IH (bed_plots,
                      BedFiles.setattr bed_files (Files.name row)
                        (Some (FileModel.mk (Files.name row) (Files.path row) None
                                 (Files.description row) (Files.size row)))) w)
          as (w' & acc' & -> & Hstores & Hkeys & Hplots & Hfiles).
        exists w', acc'. split; [reflexivity|]. split; [exact Hstores|].
        cbn [fst snd] in *. split; [exact Hkeys|]. split.
        -- rewrite Hplots. cbn [foldl].
           rewrite place_plot_eq, Hplot. reflexivity.
        -- intros Hdisjoint. rewrite (Hfiles Hdisjoint). cbn [foldl].
           rewrite place_file_eq, Hfile.
           f_equal. unfold BedFiles.setattr, drop_sizes_files.
           destruct (String.eqb (Files.name row) "bed_file"); [reflexivity|].
           destruct (String.eqb (Files.name row) "bigbed_file"); reflexivity.
      * unfold bind, tell, ret. cbv beta iota.
        destruct (IH (bed_plots, bed_files)
                    (logger ERROR
                       ("Unknown file type: " +:+ Files.name row
                        +:+ ". And is not in the model fields. Skipping..") w))
          as (w' & acc' & -> & Hstores & Hkeys & Hplots & Hfiles).
        exists w', acc'. split; [reflexivity|]. split; [exact Hstores|].
        cbn [fst snd] in *. split; [exact Hkeys|]. split.
        -- rewrite Hplots. cbn [foldl].
           rewrite place_plot_eq, Hplot. reflexivity.
        -- intros Hdisjoint. rewrite (Hfiles Hdisjoint). cbn [foldl].
           rewrite place_file_eq, Hfile. reflexivity.
Qed.

(** What a successful [get] went through. *)
Lemma get_Ok_inv (identifier : string) (w w' : world) (view : BedMetadata.t) :
  get identifier w = (w', Ok view) ->
  exists bed_object w1 placed,
    bed w !! identifier = Some bed_object /\
    BedAgentBedFile.place_all BedPlots_fields (BedAgentBedFile.files_of identifier w)
      (empty_model BedPlots_fields, BedFiles.mk None None) w = (w1, Ok placed) /\
    stores w1 = stores w /\
    BedStats (Bed_dict bed_object) = Ok (BedMetadata.stats view) /\
    BedClassification (Bed_dict bed_object) = Ok (BedMetadata.classification view) /\
    BedPEPHub match _phc config with
              | Some _ => default [] (pephub w !! identifier)
              | None => []
              end = Ok (BedMetadata.raw_metadata view) /\
    BedMetadata.plots view = fst placed /\
    BedMetadata.files view = snd placed /\
    stores w' = stores w.
Proof.
  unfold BedAgentBedFile.get. run.
  destruct (bed w !! identifier) as [bed_object|]; [|discriminate].
  run. run.
  destruct (place_all_spec (BedAgentBedFile.files_of identifier w)
              (empty_model BedPlots_fields, BedFiles.mk None None) w)
    as (w1 & placed & Hplaced & Hstores & _).
  rewrite Hplaced. run. unfold lift at 1.
  destruct (BedStats (Bed_dict bed_object)) as [bed_stats|] eqn:Hstats; [|discriminate].
  run. unfold lift at 1.
  destruct (BedClassification (Bed_dict bed_object)) as [bed_classification|] eqn:Hclass;
    [|discriminate].
  run.
  destruct (fetch_or_empty identifier w1) as (w2 & -> & Hstores2).
  run. unfold lift.
  assert (Hpephub : pephub w1 = pephub w) by (unfold stores in Hstores; congruence).
  rewrite Hpephub.
  destruct (BedPEPHub _) as [raw_metadata|] eqn:Hraw; [|discriminate].
  unfold ret. intros H. injection H as <- <-.
  exists bed_object, w1, placed.
  repeat (split; [first [reflexivity | assumption]|]).
  rewrite Hstores2. exact Hstores.
Qed.

(** X13.  Whenever [get] returns a view, the narrower readers agree
    with it on the same world: [get_stats], [get_classification] and
    [get_raw_metadata] return the statistics, the classification and
    the metadata of the view. *)
Theorem readers_agree_with_get (identifier : string) (w w' : world) (view : BedMetadata.t) :
  get identifier w = (w', Ok view) ->
  get_stats identifier w = (w, Ok (BedMetadata.stats view)) /\
  get_classification identifier w = (w, Ok (BedMetadata.classification view)) /\
  snd (get_raw_metadata identifier w) = Ok (BedMetadata.raw_metadata view).
Proof.
  intros Hget.
  destruct (get_Ok_inv _ _ _ _ Hget)
    as (bed_object & w1 & placed & Hrow & _ & _ & Hstats & Hclass & Hraw & _).
  unfold BedAgentBedFile.get_stats, BedAgentBedFile.get_classification, bind, lift.
  rewrite Hrow, Hstats, Hclass.
  split; [reflexivity|]. split; [reflexivity|].
  rewrite (proj1 (get_raw_metadata_run identifier w)). exact Hraw.
Qed.

(** X14.  Whenever [get] returns a view, [get_plots] returns the
    plots of the view without their sizes; and when no field of the
    files model is also a field of the plots model, [get_files] returns
    the files of the view without their sizes. *)
Theorem plots_and_files_without_size (identifier : string) (w w' : world)
    (view : BedMetadata.t) :
  get identifier w = (w', Ok view) ->
  get_plots identifier w = (w, Ok (drop_sizes (BedMetadata.plots view))) /\
  ((forall name, in_fields name BedFiles.model_fields = true ->
                 in_fields name BedPlots_fields = false) ->
   BedAgentBedFile.get_files identifier w
   = (w, Ok (drop_sizes_files (BedMetadata.files view)))).
Proof.
  intros Hget.
  destruct (get_Ok_inv _ _ _ _ Hget)
    as (bed_object & w1 & placed & Hrow & Hplaced & _ & _ & _ & _ & Hplots & Hfiles & _).
  destruct (place_all_spec (BedAgentBedFile.files_of identifier w)
              (empty_model BedPlots_fields, BedFiles.mk None None) w)
    as (w1' & placed' & Hplaced' & _ & _ & Hdrop & Hdropf).
  rewrite Hplaced in Hplaced'. injection Hplaced' as <- <-.
  unfold BedAgentBedFile.get_plots, BedAgentBedFile.get_files, bind, ret.
  rewrite Hrow, Hplots, Hfiles. split.
  - rewrite Hdrop. cbn [fst]. f_equal. f_equal. f_equal.
    unfold drop_sizes, empty_model. rewrite map_map. reflexivity.
  - intros Hdisjoint. rewrite (Hdropf Hdisjoint). reflexivity.
Qed.

(** X15.  [get] is a reader: whatever it ends in, no store differs
    afterwards (only the log can grow); and the plots of a view always
    have the fields of the plots model, in their order. *)
Theorem get_is_read_only (identifier : string) (w : world) :
  stores (fst (get identifier w)) = stores w /\
  (forall w' view, get identifier w = (w', Ok view) ->
                   map fst (BedMetadata.plots view) = BedPlots_fields).
Proof.
  split.
  - unfold BedAgentBedFile.get. run.
    destruct (bed w !! identifier) as [bed_object|]; [|reflexivity].
    run. run.
    destruct (place_all_spec (BedAgentBedFile.files_of identifier w)
                (empty_model BedPlots_fields, BedFiles.mk None None) w)
      as (w1 & placed & -> & Hstores & _).
    run. unfold lift at 1.
    destruct (BedStats (Bed_dict bed_object)); [|exact Hstores].
    run. unfold lift at 1.
    destruct (BedClassification (Bed_dict bed_object)); [|exact Hstores].
    run.
    destruct (fetch_or_empty identifier w1) as (w2 & -> & Hstores2).
    run. unfold lift.
    destruct (BedPEPHub _); simpl; congruence.
  - intros w' view Hget.
    destruct (get_Ok_inv _ _ _ _ Hget)
      as (bed_object & w1 & placed & _ & Hplaced & _ & _ & _ & _ & Hplots & _).
    destruct (place_all_spec (BedAgentBedFile.files_of identifier w)
                (empty_model BedPlots_fields, BedFiles.mk None None) w)
      as (w1' & placed' & Hplaced' & _ & Hkeys & _).
    rewrite Hplaced in Hplaced'. injection Hplaced' as <- <-.
    rewrite Hplots, Hkeys. cbn [fst]. unfold empty_model. rewrite map_map.
    apply map_id.
Qed.

End reader_facts.

Lemma place_objects_spec (rows : list Files.t) (m0 : gmap string FileModel.t) :
  (forall name f,
      foldl BedAgentBedFile.place_object m0 rows !! name = Some f ->
      m0 !! name = Some f \/
      exists row, In row rows /\ Files.name row = name /\
                  f = FileModel.mk (Files.name row) (Files.path row)
                        (Files.path_thumbnail row) (Files.description row)
                        (Files.size row)) /\
  (forall row, In row rows ->
               is_Some (foldl BedAgentBedFile.place_object m0 rows !! Files.name row)) /\
  (forall name, is_Some (m0 !! name) ->
                is_Some (foldl BedAgentBedFile.place_object m0 rows !! name)).
Proof.
  revert m0. induction rows as [|row rows IH]; intros m0.
  - simpl. split; [auto|]. split; [intros ? []|auto].
  - cbn [foldl]. destruct (IH (BedAgentBedFile.place_object m0 row)) as (Hfrom & Hrows & Hkept).
    split; [|split].
    + intros name f Hf. destruct (Hfrom name f Hf) as [Hm|(r & Hin & Hname & Hr)].
      * unfold BedAgentBedFile.place_object in Hm.
        destruct (decide (Files.name row = name)) as [Heq|Hne].
        -- rewrite Heq, lookup_insert_eq in Hm. injection Hm as <-.
           right. exists row. rewrite Heq. repeat split; auto. left; reflexivity.
        -- rewrite lookup_insert_ne in Hm by exact Hne. left. exact Hm.
      * right. exists r. repeat split; auto. right; exact Hin.
    + intros r [<-|Hin].
      * apply Hkept. unfold BedAgentBedFile.place_object.
        rewrite lookup_insert_eq. eauto.
      * apply Hrows. exact Hin.
    + intros name Hname. apply Hkept. unfold BedAgentBedFile.place_object.
      destruct (decide (Files.name row = name)) as [<-|Hne].
      * rewrite lookup_insert_eq. eauto.
      * rewrite lookup_insert_ne by exact Hne. exact Hname.
Qed.

(** X16.  For an identifier with a row, [get_objects] returns one
    object for every name among the file rows of the identifier,
    whether or not the name is a field of the files or plots models, and
    nothing else: every object is copied from a row of that name. *)
Theorem get_objects_covers_rows (identifier : string) (w : world) (bed_object : Bed.t) :
  bed w !! identifier = Some bed_object ->
  exists objects,
    BedAgentBedFile.get_objects identifier w = (w, Ok objects) /\
    (forall row, In row (BedAgentBedFile.files_of identifier w) ->
                 is_Some (objects !! Files.name row)) /\
    (forall name f, objects !! name = Some f ->
       exists row, In row (BedAgentBedFile.files_of identifier w) /\
                   Files.name row = name /\
                   f = FileModel.mk (Files.name row) (Files.path row)
                         (Files.path_thumbnail row) (Files.description row)
                         (Files.size row)).
Proof.
  intros Hrow. unfold BedAgentBedFile.get_objects, bind, ret. rewrite Hrow.
  eexists. split; [reflexivity|].
  destruct (place_objects_spec (BedAgentBedFile.files_of identifier w) ∅)
    as (Hfrom & Hrows & _).
  split; [exact Hrows|].
  intros name f Hf. destruct (Hfrom name f Hf) as [Hempty|Hfound]; [|exact Hfound].
  rewrite lookup_empty in Hempty. discriminate Hempty.
Qed.

Lemma narrow_readers_absent_witness :
  scenario.get_stats "abc123" scenario.empty_world
  = (scenario.empty_world, Raise AttributeError) /\
  scenario.get_objects "abc123" scenario.empty_world
  = (scenario.empty_world, Raise AttributeError).
Proof.
  destruct (narrow_readers_absent scenario.BedPlots_fields scenario.BedStats
              scenario.no_fields "abc123" scenario.empty_world eq_refl)
    as (Hstats & _ & _ & _ & Hobjects).
  split; [exact Hstats | exact Hobjects].
Defined.

Lemma readers_agree_with_get_witness :
  scenario.get_stats "abc123" scenario.stored
  = (scenario.stored, Ok [("number_of_regions", PInt 3)]).
Proof.
  pose (out := scenario.get "abc123" scenario.stored).
  assert (Hout : out = (fst out,
                        Ok (BedMetadata.mk "abc123" [("number_of_regions", PInt 3)] []
                              [("chrombins",
                                Some (FileModel.mk "chrombins" "stats/abc123/chrombins.png"
                                        (Some "stats/abc123/chrombins_t.png") None
                                        (Some 7%Z)));
                               ("widths_histogram", None)]
                              (BedFiles.mk
                                 (Some (FileModel.mk "bed_file" "bed_files/a/b/abc123.bed"
                                          None None (Some 10%Z))) None)
                              []))).
  { vm_compute. reflexivity. }
  exact (proj1 (readers_agree_with_get scenario.BedPlots_fields scenario.BedStats
                  scenario.no_fields scenario.no_fields scenario.healthy
                  "abc123" scenario.stored (fst out) _ Hout)).
Defined.

Lemma plots_and_files_without_size_witness :
  scenario.get_plots "abc123" scenario.stored
  = (scenario.stored,
     Ok [("chrombins",
          Some (FileModel.mk "chrombins" "stats/abc123/chrombins.png"
                  (Some "stats/abc123/chrombins_t.png") None None));
         ("widths_histogram", None)]) /\
  scenario.get_files "abc123" scenario.stored
  = (scenario.stored,
     Ok (BedFiles.mk
           (Some (FileModel.mk "bed_file" "bed_files/a/b/abc123.bed" None None None))
           None)).
Proof.
  pose (out := scenario.get "abc123" scenario.stored).
  assert (Hout : out = (fst out,
                        Ok (BedMetadata.mk "abc123" [("number_of_regions", PInt 3)] []
                              [("chrombins",
                                Some (FileModel.mk "chrombins" "stats/abc123/chrombins.png"
                                        (Some "stats/abc123/chrombins_t.png") None
                                        (Some 7%Z)));
                               ("widths_histogram", None)]
                              (BedFiles.mk
                                 (Some (FileModel.mk "bed_file" "bed_files/a/b/abc123.bed"
                                          None None (Some 10%Z))) None)
                              []))).
  { vm_compute. reflexivity. }
  destruct (plots_and_files_without_size scenario.BedPlots_fields scenario.BedStats
              scenario.no_fields scenario.no_fields scenario.healthy
              "abc123" scenario.stored (fst out) _ Hout) as [Hplots Hfiles].
  split; [exact Hplots|]. apply Hfiles.
  intros name Hname. unfold in_fields, BedFiles.model_fields in Hname.
  cbn [existsb] in Hname.
  apply orb_true_iff in Hname. destruct Hname as [Hname|Hname].
  - apply String.eqb_eq in Hname. subst name. reflexivity.
  - apply orb_true_iff in Hname. destruct Hname as [Hname|Hname]; [|discriminate Hname].
    apply String.eqb_eq in Hname. subst name. reflexivity.
Defined.

Lemma get_objects_covers_rows_witness :
  exists objects,
    scenario.get_objects "abc123" scenario.stored = (scenario.stored, Ok objects) /\
    is_Some (objects !! "notes").
Proof.
  destruct (get_objects_covers_rows "abc123" scenario.stored
              (Bed.mk "abc123" [("number_of_regions", PInt 3)] []) eq_refl)
    as (objects & Hget & Hrows & _).
  exists objects. split; [exact Hget|].
  apply (Hrows (Files.mk "notes" "notes.txt" None None None type_file "abc123")).
  vm_compute. auto.
Defined.

Lemma get_is_read_only_witness :
  stores (fst (scenario.get "abc123" scenario.stored)) = stores scenario.stored.
Proof.
  exact (proj1 (get_is_read_only scenario.BedPlots_fields scenario.BedStats
                  scenario.no_fields scenario.no_fields scenario.healthy
                  "abc123" scenario.stored)).
Defined.

(** ** Start-up and configuration *)

Lemma init_handles_Ok (env : constructors) (config : ConfigFile) (w : world) :
  is_Ok (snd (init_handles env config w))
  = is_Ok (BaseEngine_new env config)
    && is_Ok (Region2VecExModel_new env config)
    && match QdrantBackend_new env config with
       | Ok _ => true
       | Raise e => is_ResponseHandlingException e
       end.
Proof.
  unfold init_handles, _init_db_engine, _init_qdrant_backend, _init_t2bsi_object,
    _init_r2v_object, _init_pephubclient, _init_boto3_client.
  unfold try_except, bind, lift, tell, warn, ret.
  destruct (BaseEngine_new env config); [|reflexivity].
  destruct (QdrantBackend_new env config) as [q|e]; simpl.
  - destruct (Text2BEDSearchInterface_new env config (Some q));
      destruct (Region2VecExModel_new env config); simpl; try reflexivity;
      destruct (PEPHubClient_new env); destruct (boto3_client_new env config); reflexivity.
  - destruct (is_ResponseHandlingException e); simpl.
    + destruct (Text2BEDSearchInterface_new env config None);
        destruct (Region2VecExModel_new env config); simpl; try reflexivity;
        destruct (PEPHubClient_new env); destruct (boto3_client_new env config); reflexivity.
    + destruct (Region2VecExModel_new env config); reflexivity.
Qed.

(** X17.  The context is constructed exactly when the configuration
    is read, the database engine and the region-to-vector model are
    constructed, and the vector-index client is constructed or fails
    with a response-handling error.  Neither the search interface, nor
    the external-metadata client, nor the object-store client has any
    part in it. *)
Theorem context_constructed_iff (model_fields : list (string * (kwargs -> result kwargs)))
    (env : constructors) (yaml : result (list (pyval * pyval))) (w : world) :
  is_Ok (snd (__init__ model_fields env yaml w)) = true <->
  exists config,
    _read_config_file model_fields yaml = Ok config /\
    is_Ok (BaseEngine_new env config) = true /\
    is_Ok (Region2VecExModel_new env config) = true /\
    (is_Ok (QdrantBackend_new env config) = true \/
     QdrantBackend_new env config = Raise ResponseHandlingException).
Proof.
  unfold __init__. rewrite bind_run. unfold lift.
  destruct (_read_config_file model_fields yaml) as [config|e].
  - rewrite init_handles_Ok. split.
    + intros H. apply andb_true_iff in H. destruct H as [H Hq].
      apply andb_true_iff in H. destruct H as [Hdb Hr2v].
      exists config. repeat split; try assumption.
      destruct (QdrantBackend_new env config) as [q|qe]; [left; reflexivity|].
      right. destruct qe; try discriminate Hq. reflexivity.
    + intros (config' & Hread & Hdb & Hr2v & Hq). injection Hread as <-.
      rewrite Hdb, Hr2v. destruct Hq as [Hq| ->]; [|reflexivity].
      destruct (QdrantBackend_new env config); [reflexivity | discriminate Hq].
  - split; [discriminate|]. intros (config & Hread & _). discriminate Hread.
Qed.

Section config_sections.

Variable model_fields : list (string * (kwargs -> result kwargs)).

Lemma read_section_name (_config : list (pyval * pyval))
    (field : string * (kwargs -> result kwargs)) (entry : string * kwargs) :
  read_section _config field = Ok entry -> fst entry = fst field.
Proof.
  destruct field as [field_name annotation]. unfold read_section.
  destruct (expand (dict_get _config field_name)) as [kw|e].
  - destruct (annotation kw) as [section|e].
    + intros H. injection H as <-. reflexivity.
    + destruct (is_TypeError e); [|discriminate].
      destruct (annotation []); [|discriminate]. intros H. injection H as <-. reflexivity.
  - destruct (is_TypeError e); [|discriminate].
    destruct (annotation []); [|discriminate]. intros H. injection H as <-. reflexivity.
Qed.

Lemma read_sections_names (_config : list (pyval * pyval))
    (fields : list (string * (kwargs -> result kwargs))) (entries : ConfigFile) :
  read_sections _config fields = Ok entries -> map fst entries = map fst fields.
Proof.
  revert entries. induction fields as [|field fields IH]; intros entries; simpl.
  - intros H. injection H as <-. reflexivity.
  - destruct (read_section _config field) as [entry|] eqn:Hentry; [|discriminate].
    destruct (read_sections _config fields) as [rest|]; [|discriminate].
    intros H. injection H as <-. simpl.
    rewrite (read_section_name _ _ _ Hentry), (IH rest eq_refl). reflexivity.
Qed.

Lemma read_sections_ext (c1 c2 : list (pyval * pyval))
    (fields : list (string * (kwargs -> result kwargs))) :
  (forall field, In field fields -> dict_get c1 (fst field) = dict_get c2 (fst field)) ->
  read_sections c1 fields = read_sections c2 fields.
Proof.
  induction fields as [|[field_name annotation] fields IH]; intros Hsame; [reflexivity|].
  cbn [read_sections]. rewrite IH by (intros field Hin; apply Hsame; right; exact Hin).
  pose proof (Hsame (field_name, annotation) (or_introl eq_refl)) as Hfield.
  cbn [fst] in Hfield. unfold read_section. rewrite Hfield. reflexivity.
Qed.

(** X18.  A configuration that loads has exactly the sections of the
    configuration model, in their order; and loading looks at nothing
    but those sections: two files that agree on them load alike,
    whatever other top-level keys they hold. *)
Theorem read_config_file_sections :
  (forall yaml entries,
      _read_config_file model_fields yaml = Ok entries ->
      map fst entries = map fst model_fields) /\
  (forall c1 c2,
      (forall field, In field model_fields ->
                     dict_get c1 (fst field) = dict_get c2 (fst field)) ->
      _read_config_file model_fields (Ok c1) = _read_config_file model_fields (Ok c2)).
Proof.
  split.
  - intros [cfg|e] entries; simpl; [apply read_sections_names | discriminate].
  - intros c1 c2 Hsame. simpl. apply read_sections_ext. exact Hsame.
Qed.

Lemma read_sections_empty (fields : list (string * (kwargs -> result kwargs))) :
  (forall field, In field fields -> is_Ok (snd field []) = true) ->
  exists entries,
    read_sections [] fields = Ok entries /\
    Forall2 (fun field entry => fst entry = fst field /\ snd field [] = Ok (snd entry))
      fields entries.
Proof.
  induction fields as [|[field_name annotation] fields IH]; intros Hdefaults.
  - exists []. split; [reflexivity | constructor].
  - destruct IH as (rest & Hrest & Hall);
      [intros field Hin; apply Hdefaults; right; exact Hin|].
    pose proof (Hdefaults (field_name, annotation) (or_introl eq_refl)) as Hdefault.
    simpl in Hdefault. destruct (annotation []) as [section|] eqn:Hsection;
      [|discriminate Hdefault].
    exists ((field_name, section) :: rest). split.
    + simpl. rewrite Hsection, Hrest. reflexivity.
    + constructor; [split; [reflexivity | exact Hsection] | exact Hall].
Qed.

(** X19.  When every section model has defaults, an empty
    configuration file loads, and every section of the result is the
    section built by its model without arguments. *)
Theorem read_config_file_empty :
  (forall field, In field model_fields -> is_Ok (snd field []) = true) ->
  exists entries,
    _read_config_file model_fields (Ok []) = Ok entries /\
    Forall2 (fun field entry => fst entry = fst field /\ snd field [] = Ok (snd entry))
      model_fields entries.
Proof. apply read_sections_empty. Qed.

End config_sections.

Lemma context_constructed_iff_witness :
  is_Ok (snd (__init__ scenario.model_fields scenario.qdrant_unreachable (Ok [])
                scenario.empty_world)) = true.
Proof.
  apply (proj2 (context_constructed_iff scenario.model_fields scenario.qdrant_unreachable
                  (Ok []) scenario.empty_world)).
  exists scenario.default_paths. repeat split; try reflexivity. right. reflexivity.
Defined.

Lemma read_config_file_sections_witness :
  _read_config_file scenario.model_fields (Ok [(PStr "server", PDict [])])
  = _read_config_file scenario.model_fields (Ok []).
Proof.
  apply (proj2 (read_config_file_sections scenario.model_fields)).
  intros field [<-|[]]. reflexivity.
Defined.

Lemma read_config_file_empty_witness :
  exists entries,
    _read_config_file scenario.model_fields (Ok []) = Ok entries /\
    Forall2 (fun field entry => fst entry = fst field /\ snd field [] = Ok (snd entry))
      scenario.model_fields entries.
Proof.
  apply read_config_file_empty.
  intros field [<-|[]]. reflexivity.
Defined.

(** ** Text search: the edges *)

Section search_edges.

Variable config : BedBaseConfig.
Variable nl_vec_search : string -> Z -> Z -> M (list neighbor).

(** X20.  Without a search interface, [text_to_bed_search] raises
    [AttributeError] after its two log lines and the vector search is
    not run; with one, a search that finds no neighbour makes it return
    the empty list. *)
Theorem text_to_bed_search_edges
    (retrieve_one : string -> M BedMetadata.t) (query : string) (limit offset : Z)
    (w : world) :
  let logged := logger INFO "Using backend" (logger INFO ("Looking for: " +:+ query) w) in
  (_t2bsi config = None ->
   BedAgentBedFile.text_to_bed_search config nl_vec_search retrieve_one query limit offset w
   = (logged, Raise AttributeError)) /\
  (forall backend w1,
      _t2bsi config = Some backend ->
      nl_vec_search query limit offset logged = (w1, Ok []) ->
      BedAgentBedFile.text_to_bed_search config nl_vec_search retrieve_one query limit
        offset w
      = (w1, Ok [])).
Proof.
  intros logged. split.
  - intros Hnone.
    unfold BedAgentBedFile.text_to_bed_search, BedAgentBedFile.text_to_bed_search_with.
    rewrite Hnone. reflexivity.
  - intros backend w1 Hsome Hsearch.
    unfold BedAgentBedFile.text_to_bed_search, BedAgentBedFile.text_to_bed_search_with.
    rewrite Hsome. unfold bind, tell. fold logged. rewrite Hsearch. reflexivity.
Qed.

End search_edges.

Lemma text_to_bed_search_edges_witness :
  snd (BedAgentBedFile.text_to_bed_search
         (mkBedBaseConfig [] BaseEngine_obj None None Region2VecExModel_obj None None)
         scenario.nl_vec_search (fun _ => raise RecordNotFoundError) "liver tissue" 5 0
         scenario.empty_world)
  = Raise AttributeError /\
  snd (BedAgentBedFile.text_to_bed_search scenario.healthy (fun _ _ _ => ret [])
         (fun _ => raise RecordNotFoundError) "liver tissue" 5 0 scenario.empty_world)
  = Ok [].
Proof.
  split.
  - rewrite (proj1 (text_to_bed_search_edges
                      (mkBedBaseConfig [] BaseEngine_obj None None Region2VecExModel_obj
                         None None)
                      scenario.nl_vec_search (fun _ => raise RecordNotFoundError)
                      "liver tissue" 5 0 scenario.empty_world) eq_refl).
    reflexivity.
  - rewrite (proj2 (text_to_bed_search_edges scenario.healthy (fun _ _ _ => ret [])
                      (fun _ => raise RecordNotFoundError)
                      "liver tissue" 5 0 scenario.empty_world)
               _ _ eq_refl eq_refl).
    reflexivity.
Defined.

(** ** Writing to the vector index *)

Section vector_facts.

Variable region_embedding : gmap string Z -> string -> option exn.
Variable config : BedBaseConfig.

Local Abbreviation upload_qdrant := (BedAgentBedFile.upload_qdrant region_embedding config).

(** X21.  [upload_qdrant] writes a point exactly when the region set
    is encoded, the vector-index handle exists and the payload is a
    mapping, whatever its keys are: the call then returns, and the
    mapping's entries replace whatever was stored under the identifier.
    In every other case the call raises and the index is left as it
    was.  In particular the declared default payload, [None], never
    gets a point written. *)
Theorem upload_qdrant_writes_point (bed_id bed_file : string) (payload : pyval) (w : world) :
  let out := upload_qdrant bed_id bed_file payload w in
  (is_Ok (snd out) = true ->
   region_embedding (fs w) bed_file = None /\
   is_Some (_qdrant_engine config) /\
   exists d, payload = PDict d /\ qdrant (fst out) = <[bed_id := d]> (qdrant w)) /\
  (is_Ok (snd out) = false -> qdrant (fst out) = qdrant w) /\
  (payload = PNone -> is_Ok (snd out) = false) /\
  (forall d, region_embedding (fs w) bed_file = None -> is_Some (_qdrant_engine config) ->
             payload = PDict d ->
             snd out = Ok tt /\ qdrant (fst out) = <[bed_id := d]> (qdrant w)).
Proof.
  unfold BedAgentBedFile.upload_qdrant, bind, tell, lift. cbn [logger with_log fs].
  destruct (region_embedding (fs w) bed_file) as [e|].
  - cbn. repeat split; try discriminate; reflexivity.
  - destruct (_qdrant_engine config) as [engine|].
    + destruct payload as [| | | | |d]; cbn;
        try (split; [discriminate|split; [reflexivity|split; [reflexivity|]]];
             intros d' _ _ Hd; discriminate Hd).
      split; [|split; [|split]].
      * intros _. repeat split; eauto.
      * discriminate.
      * discriminate.
      * intros d' _ _ Hd. injection Hd as <-. split; reflexivity.
    + cbn. split; [discriminate|split; [reflexivity|split; [reflexivity|]]].
      intros d _ Hengine. destruct Hengine as [x Hx]. discriminate Hx.
Qed.

End vector_facts.

(** ** Uploading plots *)

Section plot_facts.

Variable BedPlots_fields : list string.
Variable config : BedBaseConfig.

Local Abbreviation upload_plots_s3 :=
  (BedAgentBedFile.upload_plots_s3 BedPlots_fields config).
Local Abbreviation upload_plots_loop := (BedAgentBedFile.upload_plots_loop config).
Local Abbreviation upload_plot_path := (BedAgentBedFile.upload_plot_path config).

Lemma setattr_In (m : file_fields) (key k : string) (v : option FileModel.t)
    (f : FileModel.t) :
  In (k, Some f) (setattr m key v) -> v = Some f /\ k = key \/ In (k, Some f) m.
Proof.
  induction m as [|[k0 old] m IH]; [intros []|].
  simpl. destruct (String.eqb_spec k0 key) as [->|Hne].
  - intros [H|H]; [injection H as <- <-; left; split; reflexivity | right; right; exact H].
  - intros [H|H]; [right; left; exact H|].
    destruct (IH H) as [Hset|Hin]; [left; exact Hset | right; right; exact Hin].
Qed.

Lemma upload_plot_path_Ok (output_folder : string) (output_path : option string)
    (p : option string) (w w' : world) (key : option string) :
  upload_plot_path output_folder output_path p w = (w', Ok key) ->
  key = if truthy p
        then option_map (fun p' => os_path.join output_folder [os_path.basename p']) p
        else None.
Proof.
  unfold BedAgentBedFile.upload_plot_path.
  destruct p as [[|c p]|]; cbn [truthy option_map].
  - unfold ret. intros H. injection H as _ <-. reflexivity.
  - unfold bind, lift.
    destruct (BedAgentBedFile.join_output output_path (String c p)); [|discriminate].
    destruct (BedAgentBedFile._upload_s3 config _ _ w) as [w1 [[]|]]; [|discriminate].
    unfold ret. intros H. injection H as _ <-. reflexivity.
  - unfold ret. intros H. injection H as _ <-. reflexivity.
Qed.

Lemma upload_plots_loop_Ok (output_folder : string) (output_path : option string)
    (plots plots_output out : file_fields) (w w' : world) :
  upload_plots_loop output_folder output_path plots plots_output w = (w', Ok out) ->
  map fst out = map fst plots_output /\
  forall k f,
    In (k, Some f) out ->
    In (k, Some f) plots_output \/
    exists v,
      In (k, Some v) plots /\
      FileModel.path v <> "" /\
      FileModel.path f = os_path.join output_folder [os_path.basename (FileModel.path v)] /\
      FileModel.name f = FileModel.name v /\
      FileModel.description f = FileModel.description v /\
      FileModel.size f = None.
Proof.
  revert plots_output w. induction plots as [|[key [value|]] plots IH];
    intros plots_output w.
  - simpl. unfold ret. intros H. injection H as _ <-. split; [reflexivity | auto].
  - cbn [BedAgentBedFile.upload_plots_loop]. rewrite bind_run.
    destruct (upload_plot_path output_folder output_path (Some (FileModel.path value)) w)
      as [w1 [file_s3_path|]] eqn:Hpath; [|discriminate].
    apply upload_plot_path_Ok in Hpath.
    rewrite bind_run.
    destruct (upload_plot_path output_folder output_path (FileModel.path_thumbnail value) w1)
      as [w2 [file_s3_path_thumbnail|]]; [|discriminate].
    rewrite bind_run. unfold lift, BedAgentBedFile.FileModel_new.
    destruct file_s3_path as [s3_path|]; [|discriminate].
    intros Hloop. destruct (IH _ _ Hloop) as [Hkeys Hfrom].
    split; [rewrite Hkeys; apply setattr_keys|].
    intros k f Hin. destruct (Hfrom k f Hin) as [Hacc|(v & Hv & Hrest)].
    + apply setattr_In in Hacc. destruct Hacc as [[Hset ->]|Hold]; [|left; exact Hold].
      injection Hset as <-. right. exists value.
      split; [left; reflexivity|].
      destruct (FileModel.path value) as [|c p] eqn:Hvalue; [discriminate Hpath|].
      cbn [truthy option_map] in Hpath. injection Hpath as ->.
      repeat split; try reflexivity. discriminate.
    + right. exists v. split; [right; exact Hv | exact Hrest].
  - cbn [BedAgentBedFile.upload_plots_loop]. intros Hloop.
    destruct (IH _ _ Hloop) as [Hkeys Hfrom]. split; [exact Hkeys|].
    intros k f Hin. destruct (Hfrom k f Hin) as [Hacc|(v & Hv & Hrest)];
      [left; exact Hacc|].
    right. exists v. split; [right; exact Hv | exact Hrest].
Qed.

Lemma plot_key_plain (identifier p : string) :
  identifier <> "" ->
  os_path.startswith_sep identifier = false ->
  os_path.endswith_sep identifier = false ->
  plot_key identifier p = "stats/" +:+ identifier +:+ "/" +:+ os_path.basename p.
Proof.
  intros Hne Hstart Hend. unfold plot_key, os_path.join, PLOTS_PATH_FOLDER. simpl.
  rewrite (join2_plain "stats" identifier) by (discriminate || reflexivity || assumption).
  destruct identifier as [|c identifier]; [congruence|].
  rewrite join2_plain.
  - rewrite append_assoc. reflexivity.
  - apply append_not_empty.
  - change ("stats" +:+ String os_path.sep (String c identifier))
      with (("stats" +:+ String os_path.sep "") +:+ String c identifier).
    rewrite endswith_sep_append. exact Hend.
  - apply no_sep_startswith, basename_no_sep.
Qed.

(** X22.  An upload of plots that returns gives a model with the
    fields of the plots model; each descriptor in it comes from a
    descriptor of the same field with a non-empty path, has the key
    [join(join("stats", identifier), base name)] as its path, the same
    name and description, and no size.  For an identifier that is not
    empty and neither starts nor ends with a separator the key is
    [stats/<identifier>/<base name>]. *)
Theorem upload_plots_s3_keys (identifier : string) (output_path : option string)
    (plots out : file_fields) (w w' : world) :
  upload_plots_s3 identifier output_path plots w = (w', Ok out) ->
  map fst out = BedPlots_fields /\
  (forall k f,
      In (k, Some f) out ->
      exists v,
        In (k, Some v) plots /\
        FileModel.path v <> "" /\
        FileModel.path f = plot_key identifier (FileModel.path v) /\
        FileModel.name f = FileModel.name v /\
        FileModel.description f = FileModel.description v /\
        FileModel.size f = None) /\
  (identifier <> "" ->
   os_path.startswith_sep identifier = false ->
   os_path.endswith_sep identifier = false ->
   forall p, plot_key identifier p
             = "stats/" +:+ identifier +:+ "/" +:+ os_path.basename p).
Proof.
  unfold BedAgentBedFile.upload_plots_s3. rewrite bind_run. unfold tell.
  intros Hloop. apply upload_plots_loop_Ok in Hloop. destruct Hloop as [Hkeys Hfrom].
  split; [|split].
  - rewrite Hkeys. unfold empty_model. rewrite map_map. apply map_id.
  - intros k f Hin. destruct (Hfrom k f Hin) as [Hempty|Hfound]; [|exact Hfound].
    unfold empty_model in Hempty. apply in_map_iff in Hempty.
    destruct Hempty as (x & Hx & _). discriminate Hx.
  - intros Hne Hstart Hend p. apply plot_key_plain; assumption.
Qed.

Lemma skip_empty_plots (output_folder : string) (output_path : option string)
    (nones rest acc : file_fields) (w : world) :
  Forall (fun entry => snd entry = None) nones ->
  upload_plots_loop output_folder output_path (nones ++ rest)%list acc w
  = upload_plots_loop output_folder output_path rest acc w.
Proof.
  induction 1 as [|[key value] nones Hnone _ IH]; [reflexivity|].
  simpl in Hnone. subst value. exact IH.
Qed.

(** X23.  Without an output path ([local_path] left at [None]) an
    upload of plots fails with [TypeError] at the first plot that has a
    path, before any request is sent; with no plot at all it returns the
    empty plots model. *)
Theorem upload_plots_s3_needs_output_path (identifier : string)
    (nones rest : file_fields) (key : string) (value : FileModel.t) (w : world) :
  Forall (fun entry => snd entry = None) nones ->
  let started := logger INFO "Uploading plots to S3..." w in
  upload_plots_s3 identifier None nones w = (started, Ok (empty_model BedPlots_fields)) /\
  (FileModel.path value <> "" ->
   upload_plots_s3 identifier None (nones ++ (key, Some value) :: rest)%list w
   = (started, Raise TypeError)).
Proof.
  intros Hnones started. unfold BedAgentBedFile.upload_plots_s3.
  rewrite !bind_run. unfold tell. fold started. split.
  - rewrite <- (app_nil_r nones), skip_empty_plots by exact Hnones. reflexivity.
  - intros Hpath. rewrite skip_empty_plots by exact Hnones.
    cbn [BedAgentBedFile.upload_plots_loop]. rewrite bind_run.
    unfold BedAgentBedFile.upload_plot_path.
    destruct (FileModel.path value) as [|c p]; [congruence|].
    cbn [truthy]. rewrite bind_run. reflexivity.
Qed.

End plot_facts.

Lemma upload_qdrant_writes_point_witness :
  let out := BedAgentBedFile.upload_qdrant scenario.no_embedding_error scenario.healthy
               "abc123" "/tmp/x.bed" (PDict [(PInt 1, PStr "hg38")]) scenario.local_files in
  snd out = Ok tt /\
  qdrant (fst out) = <["abc123" := [(PInt 1, PStr "hg38")]]> (qdrant scenario.local_files).
Proof.
  refine (proj2 (proj2 (proj2 (upload_qdrant_writes_point scenario.no_embedding_error
                                 scenario.healthy "abc123" "/tmp/x.bed"
                                 (PDict [(PInt 1, PStr "hg38")]) scenario.local_files)))
            [(PInt 1, PStr "hg38")] eq_refl _ eq_refl).
  vm_compute. eauto.
Defined.

Lemma upload_plots_s3_keys_witness :
  exists out,
    snd (BedAgentBedFile.upload_plots_s3 scenario.BedPlots_fields scenario.healthy
           "abc123" (Some "/out") scenario.one_plot scenario.plot_files) = Ok out /\
    map fst out = scenario.BedPlots_fields /\
    plot_key "abc123" "plots/chrombins.png" = "stats/abc123/chrombins.png".
Proof.
  pose (out := BedAgentBedFile.upload_plots_s3 scenario.BedPlots_fields scenario.healthy
                 "abc123" (Some "/out") scenario.one_plot scenario.plot_files).
  assert (Hout : out = (fst out,
                        Ok [("chrombins",
                             Some (FileModel.mk "chrombins" "stats/abc123/chrombins.png"
                                     None None None));
                            ("widths_histogram", None)])).
  { vm_compute. reflexivity. }
  destruct (upload_plots_s3_keys scenario.BedPlots_fields scenario.healthy "abc123"
              (Some "/out") scenario.one_plot _ scenario.plot_files (fst out) Hout)
    as (Hkeys & _ & Hplain).
  eexists. split; [exact (f_equal snd Hout)|]. split; [exact Hkeys|].
  apply Hplain; [discriminate | reflexivity | reflexivity].
Defined.

Lemma upload_plots_s3_needs_output_path_witness :
  snd (BedAgentBedFile.upload_plots_s3 scenario.BedPlots_fields scenario.healthy
         "abc123" None scenario.one_plot scenario.plot_files) = Raise TypeError.
Proof.
  destruct (upload_plots_s3_needs_output_path scenario.BedPlots_fields scenario.healthy
              "abc123" [] [("widths_histogram", None)] "chrombins"
              (FileModel.mk "chrombins" "plots/chrombins.png" None None None)
              scenario.plot_files (List.Forall_nil _)) as [_ Hfail].
  change ([] ++ ("chrombins",
                 Some (FileModel.mk "chrombins" "plots/chrombins.png" None None None))
             :: [("widths_histogram", None)])%list with scenario.one_plot in Hfail.
  rewrite Hfail; [reflexivity | discriminate].
Defined.

(** ** What [add] leaves behind *)

Section keeps_facts.

Context {B : Type} (part : world -> B).

Lemma keeps_ret {A} (a : A) : keeps part (ret a).
Proof. intros w. reflexivity. Qed.

Lemma keeps_raise {A} (e : exn) : keeps part (@raise A e).
Proof. intros w. reflexivity. Qed.

Lemma keeps_lift {A} (r : result A) : keeps part (lift r).
Proof. intros w. reflexivity. Qed.

Lemma keeps_bind {A C} (m : M A) (k : A -> M C) :
  keeps part m -> (forall a, keeps part (k a)) -> keeps part (x <- m ;; k x).
Proof.
  intros Hm Hk w. rewrite bind_run. specialize (Hm w).
  destruct (m w) as [w1 [a|e]]; simpl in Hm.
  - rewrite Hk. exact Hm.
  - exact Hm.
Qed.

End keeps_facts.

Section add_effects.

Variable BedPlots_fields : list string.
Variables BedStats BedPEPHub BedClassification : kwargs -> result kwargs.
Variable BedPlots : kwargs -> result file_fields.
Variable BedFiles : kwargs -> result BedFiles.t.
Variable region_embedding : gmap string Z -> string -> option exn.
Variable config : BedBaseConfig.

Local Abbreviation add :=
  (BedAgentBedFile.add BedPlots_fields BedStats BedPEPHub BedClassification BedPlots
     BedFiles region_embedding config).

Lemma tell_keeps_assets (lv : level) (msg : string) : keeps assets (tell lv msg).
Proof. intros w. reflexivity. Qed.

Lemma tell_keeps_tables (lv : level) (msg : string) : keeps tables (tell lv msg).
Proof. intros w. reflexivity. Qed.

Lemma upload_pephub_keeps {B} (part : world -> B) (identifier : string) (metadata : kwargs)
    (overwrite : bool) :
  (forall p w, part (with_pephub p w) = part w) ->
  (forall l w, part (with_log l w) = part w) ->
  keeps part (BedAgentBedFile.upload_pephub config identifier metadata overwrite).
Proof.
  intros Hpephub Hlog w. unfold BedAgentBedFile.upload_pephub.
  destruct metadata as [|entry metadata].
  - apply Hlog.
  - destruct (_phc config); [|reflexivity].
    unfold sample_create. destruct (pephub w !! identifier); [destruct overwrite|];
      simpl; auto.
Qed.

Lemma upload_qdrant_keeps {B} (part : world -> B) (bed_id bed_file : string)
    (payload : pyval) :
  (forall q w, part (with_qdrant q w) = part w) ->
  (forall l w, part (with_log l w) = part w) ->
  keeps part (BedAgentBedFile.upload_qdrant region_embedding config bed_id bed_file payload).
Proof.
  intros Hqdrant Hlog w. unfold BedAgentBedFile.upload_qdrant, bind, tell, lift, logger.
  cbn [fs with_log].
  destruct (region_embedding (fs w) bed_file); [apply Hlog|].
  destruct (_qdrant_engine config); [|apply Hlog].
  destruct (dict_display payload); simpl; [|apply Hlog].
  rewrite Hqdrant. apply Hlog.
Qed.

(** X24.  With [upload_s3] false, [add] sends no request to the object
    store, leaves the bucket as it was and writes no row to the [Files]
    table, whatever files and plots it is given and whatever it ends
    in. *)
Theorem add_without_sync_writes_no_files
    (identifier : string) (stats metadata plots files classification : pyval)
    (add_to_qdrant upload_pephub_flag : bool) (local_path : option string)
    (overwrite : bool) (w : world) :
  assets (fst (add identifier stats metadata plots files classification
                 add_to_qdrant upload_pephub_flag false local_path overwrite w))
  = assets w.
Proof.
  revert w. change (keeps assets (add identifier stats metadata plots files classification
                                    add_to_qdrant upload_pephub_flag false local_path
                                    overwrite)).
  unfold BedAgentBedFile.add.
  apply keeps_bind; [apply tell_keeps_assets|]. intros _.
  apply keeps_bind; [apply keeps_lift|]. intros s.
  apply keeps_bind; [apply keeps_lift|]. intros p.
  apply keeps_bind; [apply keeps_lift|]. intros f.
  apply keeps_bind; [apply keeps_lift|]. intros m.
  apply keeps_bind; [apply keeps_lift|]. intros c.
  apply keeps_bind;
    [destruct upload_pephub_flag;
     [apply upload_pephub_keeps; reflexivity | apply tell_keeps_assets]|].
  intros _.
  apply keeps_bind.
  { destruct add_to_qdrant; [|apply tell_keeps_assets].
    destruct (BedFiles.bed_file f); [|apply keeps_raise].
    apply upload_qdrant_keeps; reflexivity. }
  intros _.
  apply keeps_bind; [apply keeps_ret|]. intros synced.
  apply keeps_bind; [apply keeps_lift|]. intros new_bed.
  intros w0. unfold commit. destruct (bed w0 !! Bed.id new_bed); [reflexivity|].
  unfold assets. simpl. rewrite app_nil_r. reflexivity.
Qed.

Lemma upload_file_keeps_tables (client : boto3_client) (file_path key : string) :
  keeps tables (upload_file client file_path key).
Proof.
  intros w. unfold upload_file.
  destruct (fs w !! file_path); [destruct (upload_error client key)|]; reflexivity.
Qed.

Lemma _upload_s3_keeps_tables (file_path s3_path : string) :
  keeps tables (BedAgentBedFile._upload_s3 config file_path s3_path).
Proof.
  unfold BedAgentBedFile._upload_s3.
  destruct (_boto3_client config); [apply upload_file_keeps_tables | apply keeps_raise].
Qed.

Lemma upload_files_s3_keeps_tables (files : BedFiles.t) :
  keeps tables (BedAgentBedFile.upload_files_s3 config files).
Proof.
  assert (Hone : forall folder file,
             keeps tables (BedAgentBedFile.upload_one config folder file)).
  { intros folder [f|]; [|apply keeps_ret]. unfold BedAgentBedFile.upload_one.
    apply keeps_bind; [apply keeps_lift|]. intros s3_path.
    apply keeps_bind; [apply _upload_s3_keeps_tables|]. intros _. apply keeps_ret. }
  unfold BedAgentBedFile.upload_files_s3.
  apply keeps_bind; [apply Hone|]. intros bed_file.
  apply keeps_bind; [apply Hone|]. intros bigbed_file. apply keeps_ret.
Qed.

Lemma upload_plots_s3_keeps_tables (identifier : string) (output_path : option string)
    (plots : file_fields) :
  keeps tables (BedAgentBedFile.upload_plots_s3 BedPlots_fields config identifier
                  output_path plots).
Proof.
  assert (Hpath : forall folder p,
             keeps tables (BedAgentBedFile.upload_plot_path config folder output_path p)).
  { intros folder [[|c p]|]; cbn [BedAgentBedFile.upload_plot_path truthy];
      try apply keeps_ret.
    apply keeps_bind; [apply keeps_lift|]. intros local_path.
    apply keeps_bind; [apply _upload_s3_keeps_tables|]. intros _. apply keeps_ret. }
  unfold BedAgentBedFile.upload_plots_s3.
  apply keeps_bind; [apply tell_keeps_tables|]. intros _.
  generalize (empty_model BedPlots_fields) as plots_output.
  induction plots as [|[key [value|]] plots IH]; intros plots_output;
    cbn [BedAgentBedFile.upload_plots_loop].
  - apply keeps_ret.
  - apply keeps_bind; [apply Hpath|]. intros file_s3_path.
    apply keeps_bind; [apply Hpath|]. intros file_s3_path_thumbnail.
    apply keeps_bind; [apply keeps_lift|]. intros uploaded. apply IH.
  - apply IH.
Qed.

Lemma bind_Ok {A C} (m : M A) (k : A -> M C) (w w1 : world) (a : A) :
  m w = (w1, Ok a) -> (x <- m ;; k x) w = k a w1.
Proof. intros Hm. rewrite bind_run, Hm. reflexivity. Qed.

Lemma bind_Raise {A C} (m : M A) (k : A -> M C) (w w1 : world) (e : exn) :
  m w = (w1, Raise e) -> (x <- m ;; k x) w = (w1, Raise e).
Proof. intros Hm. rewrite bind_run, Hm. reflexivity. Qed.

Lemma atomic_bind {A C} (m : M A) (k : A -> M C) :
  keeps tables m ->
  (forall a w w' e, k a w = (w', Raise e) -> tables w' = tables w) ->
  forall w w' e, (x <- m ;; k x) w = (w', Raise e) -> tables w' = tables w.
Proof.
  intros Hm Hk w w' e. rewrite bind_run. specialize (Hm w).
  destruct (m w) as [w1 [a|e1]]; simpl in Hm.
  - intros Hrun. rewrite (Hk _ _ _ _ Hrun). exact Hm.
  - intros H. injection H as <- _. exact Hm.
Qed.

(** X25.  An [add] that fails has written nothing to the relational
    store: the [Bed] and [Files] tables are as they were, at whichever
    step the failure came. *)
Theorem failed_add_writes_no_row
    (identifier : string) (stats metadata plots files classification : pyval)
    (add_to_qdrant upload_pephub_flag upload_s3_flag : bool) (local_path : option string)
    (overwrite : bool) (w w' : world) (e : exn) :
  add identifier stats metadata plots files classification
    add_to_qdrant upload_pephub_flag upload_s3_flag local_path overwrite w
  = (w', Raise e) ->
  tables w' = tables w.
Proof.
  revert w w' e. unfold BedAgentBedFile.add.
  apply atomic_bind; [apply tell_keeps_tables|]. intros _.
  apply atomic_bind; [apply keeps_lift|]. intros s.
  apply atomic_bind; [apply keeps_lift|]. intros p.
  apply atomic_bind; [apply keeps_lift|]. intros f.
  apply atomic_bind; [apply keeps_lift|]. intros m.
  apply atomic_bind; [apply keeps_lift|]. intros c.
  apply atomic_bind;
    [destruct upload_pephub_flag;
     [apply upload_pephub_keeps; reflexivity | apply tell_keeps_tables]|].
  intros _.
  apply atomic_bind.
  { destruct add_to_qdrant; [|apply tell_keeps_tables].
    destruct (BedFiles.bed_file f); [|apply keeps_raise].
    apply upload_qdrant_keeps; reflexivity. }
  intros _.
  apply atomic_bind.
  { destruct upload_s3_flag; [|apply keeps_ret].
    apply keeps_bind; [apply upload_files_s3_keeps_tables|]. intros files'.
    apply keeps_bind; [apply upload_plots_s3_keeps_tables|]. intros plots'.
    apply keeps_ret. }
  intros synced.
  apply atomic_bind; [apply keeps_lift|]. intros new_bed.
  intros w0 w1 e0. unfold commit. destruct (bed w0 !! Bed.id new_bed); [|discriminate].
  intros H. injection H as <- _. reflexivity.
Qed.

(** X26.  Nothing that [add] has written before a failure is taken
    back.  When the metadata has been written to the external service
    and the upload of the bed file then fails for want of an
    object-store client, [add] raises [AttributeError]; the sample stays
    in the external service and there is no row for the identifier. *)
Theorem add_keeps_earlier_writes
    (identifier : string) (stats metadata plots files classification : pyval)
    (local_path : option string) (overwrite : bool) (w : world)
    (s m c : kwargs) (p : file_fields) (f : BedFiles.t) (file : FileModel.t) :
  construct BedStats stats = Ok s ->
  construct BedPlots plots = Ok p ->
  construct BedFiles files = Ok f ->
  construct BedPEPHub metadata = Ok m ->
  construct BedClassification classification = Ok c ->
  m <> [] ->
  is_Some (_phc config) ->
  pephub w !! identifier = None ->
  _boto3_client config = None ->
  BedFiles.bed_file f = Some file ->
  2 <= String.length (os_path.basename (FileModel.path file)) ->
  let out := add identifier stats metadata plots files classification
               false true true local_path overwrite w in
  snd out = Raise AttributeError /\
  pephub (fst out) !! identifier = Some m /\
  bed (fst out) = bed w.
Proof.
  intros Hs Hp Hf Hm Hc Hne [client Hclient] Hfresh Hoffline Hfile Hlen out.
  assert (Hupload : forall w0,
             BedAgentBedFile.upload_files_s3 config f w0 = (w0, Raise AttributeError)).
  { intros w0. unfold BedAgentBedFile.upload_files_s3, BedAgentBedFile.upload_one.
    rewrite Hfile. unfold bind, lift, shard_key.
    destruct (os_path.basename (FileModel.path file)) as [|c0 [|c1 rest]];
      simpl in Hlen; try lia.
    cbn [str_index]. unfold BedAgentBedFile._upload_s3. rewrite Hoffline. reflexivity. }
  assert (Hsample : forall w0,
             pephub w0 !! identifier = None ->
             BedAgentBedFile.upload_pephub config identifier m overwrite w0
             = (with_pephub (<[identifier := m]> (pephub w0)) w0, Ok tt)).
  { intros w0 Hnone. unfold BedAgentBedFile.upload_pephub, sample_create.
    destruct m as [|entry m']; [congruence|]. rewrite Hclient, Hnone. reflexivity. }
  subst out. unfold BedAgentBedFile.add. rewrite Hs, Hp, Hf, Hm, Hc.
  rewrite (bind_Ok _ _ _ _ _ eq_refl).
  rewrite (bind_Ok (lift (Ok s)) _ _ _ _ eq_refl).
  rewrite (bind_Ok (lift (Ok p)) _ _ _ _ eq_refl).
  rewrite (bind_Ok (lift (Ok f)) _ _ _ _ eq_refl).
  rewrite (bind_Ok (lift (Ok m)) _ _ _ _ eq_refl).
  rewrite (bind_Ok (lift (Ok c)) _ _ _ _ eq_refl).
  cbv beta iota.
  rewrite (bind_Ok _ _ _ _ _
             (Hsample (logger INFO ("Adding bed file to database. bed_id: " +:+ identifier) w)
                Hfresh)).
  rewrite (bind_Ok _ _ _ _ _ eq_refl).
  rewrite (bind_Raise _ _ _ _ AttributeError (bind_Raise _ _ _ _ _ (Hupload _))).
  split; [reflexivity|]. split; [|reflexivity].
  apply lookup_insert_eq.
Qed.

End add_effects.

Lemma failed_add_writes_no_row_witness :
  let out := scenario.add "abc123" (PDict []) (PDict []) (PDict []) PNone (PDict [])
               false false false None false scenario.stored in
  tables (fst out) = tables scenario.stored.
Proof.
  intros out.
  apply (failed_add_writes_no_row scenario.BedPlots_fields scenario.BedStats
           scenario.no_fields scenario.no_fields scenario.BedPlots scenario.BedFiles
           scenario.no_embedding_error scenario.healthy
           "abc123" (PDict []) (PDict []) (PDict []) PNone (PDict [])
           false false false None false scenario.stored (fst out) TypeError).
  vm_compute. reflexivity.
Defined.

Lemma add_keeps_earlier_writes_witness :
  let out := scenario.add_offline "abc123" (PDict [])
               (PDict [(PStr "tissue", PStr "liver")]) (PDict [])
               (scenario.descriptor "/tmp/abc123.bed") (PDict [])
               false true true (Some "/tmp") false scenario.local_files in
  snd out = Raise AttributeError /\
  pephub (fst out) !! "abc123" = Some [("tissue", PStr "liver")] /\
  bed (fst out) = bed scenario.local_files.
Proof.
  apply (add_keeps_earlier_writes scenario.BedPlots_fields scenario.BedStats
           scenario.free_form scenario.no_fields scenario.BedPlots scenario.BedFiles
           scenario.no_embedding_error scenario.disconnected
           "abc123" (PDict []) (PDict [(PStr "tissue", PStr "liver")]) (PDict [])
           (scenario.descriptor "/tmp/abc123.bed") (PDict [])
           (Some "/tmp") false scenario.local_files
           [("number_of_regions", PNone)] [("tissue", PStr "liver")] []
           [("chrombins", None); ("widths_histogram", None)]
           (BedFiles.mk (Some (FileModel.mk "bed_file" "/tmp/abc123.bed" None None None))
              None)
           (FileModel.mk "bed_file" "/tmp/abc123.bed" None None None)).
  - reflexivity.
  - reflexivity.
  - reflexivity.
  - reflexivity.
  - reflexivity.
  - discriminate.
  - eexists. reflexivity.
  - reflexivity.
  - reflexivity.
  - reflexivity.
  - vm_compute. lia.
Defined.

(** ** What the batch upload leaves in the descriptors *)

(** X27.  The batch upload of the configuration context, for an
    identifier whose first two characters are not separators and a
    category folder that is not empty and does not end in a separator,
    leaves every non-empty descriptor it has synced with the path
    [<folder>/<id[0]>/<id[1]>/<base name of the local path>] and the
    size of the local file, with the same key convention for a
    thumbnail; an empty descriptor stays empty, and the names of the
    fields are kept in their order. *)
Theorem upload_key_convention
    (S3_FILE_PATH_FOLDER S3_PLOTS_PATH_FOLDER S3_BEDSET_PATH_FOLDER : string)
    (get_absolute_path : gmap string Z -> string -> string -> string)
    (self : BedBaseConfig) (c0 c1 : Ascii.ascii) (rest : string)
    (files files' : file_fields) (base_path type folder : string) (w w' : world) :
  os_path.is_sep c0 = false ->
  os_path.is_sep c1 = false ->
  output_base_folder S3_FILE_PATH_FOLDER S3_PLOTS_PATH_FOLDER S3_BEDSET_PATH_FOLDER type
  = Ok folder ->
  folder <> "" ->
  os_path.endswith_sep folder = false ->
  upload_files_s3 S3_FILE_PATH_FOLDER S3_PLOTS_PATH_FOLDER S3_BEDSET_PATH_FOLDER
    get_absolute_path self (String c0 (String c1 rest)) files base_path type w
  = (w', Ok files') ->
  Forall2 (follows_convention folder (String c0 "") (String c1 "")
             (fun p => fs w !! get_absolute_path (fs w) p base_path)) files files'.
Proof.
  intros Hc0 Hc1 Hfolder Hne Hopen.
  unfold upload_files_s3, bind, lift. rewrite Hfolder.
  apply upload_entries_convention; assumption.
Qed.

Lemma upload_key_convention_witness :
  let out := scenario.batch_upload "abc123" scenario.x_bed "/tmp" "files" scenario.local_files in
  exists files',
    snd out = Ok files' /\
    Forall2 (follows_convention "files" "a" "b" (fun p => fs scenario.local_files !! p))
      scenario.x_bed files' /\
    map (fun entry => option_map FileModel.path (snd entry)) files'
    = [Some "files/a/b/x.bed"; None].
Proof.
  intros out.
  assert (Hout : out = (fst out,
                        Ok [("bed_file",
                             Some (FileModel.mk "bed_file" "files/a/b/x.bed" None None
                                     (Some 10%Z)));
                            ("bigbed_file", None)])).
  { vm_compute. reflexivity. }
  eexists. split; [rewrite Hout; reflexivity|]. split.
  - refine (upload_key_convention "files" "plots" "bedsets" (fun _ p _ => p)
              scenario.healthy "a"%char "b"%char "c123" scenario.x_bed _ "/tmp" "files" "files"
              scenario.local_files (fst out) _ _ _ _ _ Hout).
    + reflexivity.
    + reflexivity.
    + reflexivity.
    + discriminate.
    + reflexivity.
  - reflexivity.
Defined.
